(** * Agent execution loop and dual-backend actuation layer

    A shallow embedding of the computer-use test runner: the container
    lifecycle manager ([DockerManager]), the two actuation backends
    ([ComputerUse] over the container, [PuppeteerComputerUse] over a
    headless browser) with their agent loops, and the request handler
    that races a run against its wall-clock deadline; beside them the
    per-client request-rate governor ([RateLimiter]) and the sweep of
    orphaned containers that runs when the container manager is loaded.

    The JavaScript is asynchronous and talks to three outside parties
    (the Docker daemon, the browser, the remote agent).  Every such
    exchange is an external call: it is appended to the [trace] of the
    [World], and its answer is read from an environment [Env] that may
    depend on everything that happened before.  A rejected promise or a
    thrown [Error] is an [Outcome] [Throw] carrying the error message.

    Conventions of the embedding:
    - a buffer is the string of its bytes; a JavaScript string is
      represented by the bytes of its UTF-8 encoding (an unpaired
      surrogate, which only [slice] can leave behind, by the three
      bytes of its generalized encoding), so that string literals,
      concatenation, comparison and search by substring are what they
      are on the code units, while [toString], [slice] and [trim]
      are written out on the encoding; numbers are integers;
    - real time is replaced by the order of events: the environment says
      whether a stream ends before its 30 s timer and whether the
      deadline timer of a run fires before the run settles;
    - console output is left out, as are the measured durations;
    - constructors ([new DockerManager], [new Anthropic], ...) do not
      throw. *)

From Stdlib Require Import ZArith Lia.
From stdpp Require Import base strings gmap list pretty.

(** ** Values, errors, characters *)

Inductive Outcome (A : Type) : Type :=
| Ok (a : A)
| Throw (message : string).
Arguments Ok {A} a.
Arguments Throw {A} message.

(** The values of the properties the code reads from a request, as
    they are after [JSON.parse]; [JNaN] only arises from arithmetic.
    Numbers are integers here.  Of a value that is itself an object or
    an array the code only ever takes the truth value, [ToNumber] and
    the conversion to a string; [JObject] gives it by the results of
    the two conversions ([NaN] and '[object Object]' for a plain
    object, 0 and the empty string for an empty array). *)
Inductive JsVal : Type :=
| JNull
| JBool (b : bool)
| JNum (n : Z)
| JNaN
| JStr (s : string)
| JObject (number : option Z) (text : string).

Definition dquote : string := String (Ascii.ascii_of_nat 34) EmptyString.
Definition squote : string := String (Ascii.ascii_of_nat 39) EmptyString.
Definition nl : string := String (Ascii.ascii_of_nat 10) EmptyString.

(** Truthiness, as used by [||], [!] and [if]. *)
Definition truthy (v : JsVal) : bool :=
  match v with
  | JNull => false
  | JBool b => b
  | JNum n => negb (n =? 0)%Z
  | JNaN => false
  | JStr s => negb (String.eqb s "")
  | JObject _ _ => true
  end.

(** A property read [o.k]: [None] is [undefined]. *)
Definition truthy_prop (v : option JsVal) : bool :=
  match v with Some x => truthy x | None => false end.

(** Template-literal rendering of a value. *)
Definition render (v : JsVal) : string :=
  match v with
  | JNull => "null"
  | JBool true => "true"
  | JBool false => "false"
  | JNum n => pretty n
  | JNaN => "NaN"
  | JStr s => s
  | JObject _ text => text
  end.

Definition render_num (v : option Z) : string :=
  match v with Some n => pretty n | None => "undefined" end.

Definition render_str (v : option string) : string :=
  match v with Some s => s | None => "undefined" end.

(** ** Conversation turns *)

Inductive Role : Type := user | assistant.

(** The structured input of a tool invocation; an absent field is
    [undefined]. *)
Record ToolInput : Type := mkInput {
  in_action : option string;
  in_coordinate : option (list Z);
  in_text : option string;
  in_key : option string;
  in_direction : option string;
  in_clicks : option Z;
  in_command : option string
}.

Inductive Block : Type :=
| text_block (text : string)
| tool_use (id name : string) (input : ToolInput)
| image (media_type data : string)
| tool_result (tool_use_id content : string).

Inductive Content : Type :=
| plain (s : string)
| blocks (bs : list Block).

Record Message : Type := mkMessage { role : Role; content : Content }.

Record Tool : Type := mkTool {
  tool_type : string;
  tool_name : string;
  display_px : option (Z * Z)
}.

Record Request : Type := mkRequest {
  model : string;
  max_tokens : Z;
  tools : list Tool;
  messages : list Message
}.

(** ** External calls and the environment *)

(** What [keyboard.press] is handed: a key name (or [undefined]), or,
    for a name that [keyMap] does not define but every object inherits,
    the member of [Object.prototype] of that name. *)
Inductive KeyArgument : Type :=
| key_name (name : option string)
| key_member (name : string).

Inductive Call : Type :=
| DockerPull (image : string)
| CreateContainer (name : string)
| ContainerStart
| ContainerExec (command : string)
| GetArchive (path : string)
| ContainerStop
| ContainerRemove
| PuppeteerLaunch (dev : bool)
| NewPage
| SetViewport (width height : Z)
| PageGoto (url : string)
| PageScreenshot
| MouseClick (x y : option Z)
| KeyboardType (text : option string)
| KeyboardPress (key : KeyArgument)
| MouseMove (x y : option Z)
| MouseWheel (deltaY : option Z)
| BrowserClose
| MessagesCreate (req : Request)
| Sleep (ms : Z)
| RaceTimer (delay : option Z).

(** A call together with whether its promise was fulfilled. *)
Definition Event : Type := Call * bool.

(** How the stream of one in-container command ends.  The promise built
    by [execute] settles on the first of: the stream's end (followed by
    the inspection of the exit code), a stream error, or the 30000 ms
    timer; the timer always fires, so one of the three always happens. *)
Inductive Finish : Type :=
| Ended (inspect : Outcome Z)
| Errored (message : string)
| TimedOut.

Inductive ExecRun : Type :=
| ExecFails (message : string)
| ExecStreams (chunks : list string) (fin : Finish).

Inductive ArchiveRun : Type :=
| ArchiveFails (message : string)
| ArchiveErrored (message : string)
| ArchiveEnded.

(** The environment of a run.  The first argument of an oracle is the
    history of external calls at the moment of the call.
    - [Date_now], [toISOString]: the clock and the formatting of dates;
    - [respond]: the outcome of a call that returns nothing of interest;
    - [container_exec], [container_getArchive]: the in-container exec
      and the archive stream of the Docker daemon;
    - [page_screenshot]: the base64 capture of the page;
    - [messages_create]: the remote agent;
    - [timer_first]: whether the deadline timer with the given delay
      fires before the run it is raced against has settled;
    - [uuidv4]: fresh test identifiers;
    - [StringToNumber]: the numeric value of a string ([None] for NaN);
    - the rest: [process.env] and the configuration derived from it. *)
Record Env : Type := mkEnv {
  Date_now : list Event -> Z;
  toISOString : Z -> string;
  respond : list Event -> Call -> Outcome unit;
  container_exec : list Event -> string -> ExecRun;
  container_getArchive : list Event -> string -> ArchiveRun;
  page_screenshot : list Event -> Outcome string;
  messages_create : list Event -> Request -> Outcome (list Block);
  timer_first : list Event -> option Z -> bool;
  uuidv4 : list Event -> string;
  StringToNumber : string -> option Z;
  NODE_ENV_production : bool;
  USE_DOCKER : bool;
  ANTHROPIC_API_KEY : option string;
  MAX_TEST_DURATION : Z;
  WEBSITE_URL : string
}.

Record Screenshot : Type := mkScreenshot {
  step : string;
  timestamp : string;
  image_base64 : string
}.

(** The mutable state: the handles of the two backends, the screenshot
    trail and the log of the run, the module-level set of active test
    identifiers, and the history of external calls. *)
Record World : Type := mkWorld {
  trace : list Event;
  container : bool;
  browser : bool;
  page : bool;
  screenshots : list Screenshot;
  log : string;
  activeTests : gset string
}.

Definition initial : World := mkWorld [] false false false [] "" ∅.

Definition set_trace (t : list Event) (w : World) : World :=
  mkWorld t (container w) (browser w) (page w) (screenshots w) (log w) (activeTests w).
Definition set_container (b : bool) (w : World) : World :=
  mkWorld (trace w) b (browser w) (page w) (screenshots w) (log w) (activeTests w).
Definition set_browser (b : bool) (w : World) : World :=
  mkWorld (trace w) (container w) b (page w) (screenshots w) (log w) (activeTests w).
Definition set_page (b : bool) (w : World) : World :=
  mkWorld (trace w) (container w) (browser w) b (screenshots w) (log w) (activeTests w).
Definition set_screenshots (s : list Screenshot) (w : World) : World :=
  mkWorld (trace w) (container w) (browser w) (page w) s (log w) (activeTests w).
Definition set_log (l : string) (w : World) : World :=
  mkWorld (trace w) (container w) (browser w) (page w) (screenshots w) l (activeTests w).
Definition set_activeTests (a : gset string) (w : World) : World :=
  mkWorld (trace w) (container w) (browser w) (page w) (screenshots w) (log w) a.

(** ** The monad of asynchronous, failing, stateful code *)

Definition M (A : Type) : Type := World -> Outcome A * World.

Definition ret {A} (a : A) : M A := fun w => (Ok a, w).
Definition throw {A} (message : string) : M A := fun w => (Throw message, w).

Definition bind {A B} (m : M A) (k : A -> M B) : M B :=
  fun w =>
    match m w with
    | (Ok a, w') => k a w'
    | (Throw e, w') => (Throw e, w')
    end.

Notation "x <- m ;; k" := (bind m (fun x => k))
  (at level 100, m at next level, right associativity).
Notation "m ;;; k" := (bind m (fun _ => k))
  (at level 100, right associativity).

(** [try m catch (error) h]. *)
Definition try_catch {A} (m : M A) (h : string -> M A) : M A :=
  fun w =>
    match m w with
    | (Ok a, w') => (Ok a, w')
    | (Throw e, w') => h e w'
    end.

(** [try m finally f]: [f] runs on both exits; if [f] itself throws, its
    error replaces the outcome of [m]. *)
Definition try_finally {A} (m : M A) (f : M unit) : M A :=
  fun w =>
    match m w with
    | (r, w') =>
        match f w' with
        | (Ok _, w'') => (r, w'')
        | (Throw e, w'') => (Throw e, w'')
        end
    end.

Definition get {A} (f : World -> A) : M A := fun w => (Ok (f w), w).
Definition modify (f : World -> World) : M unit := fun w => (Ok tt, f w).

Definition is_ok {A} (r : Outcome A) : bool :=
  match r with Ok _ => true | Throw _ => false end.

(** Recording an external call in the history. *)
Definition emit (c : Call) (ok : bool) (w : World) : World :=
  set_trace (trace w ++ [(c, ok)]) w.

(** An external call answered by the environment's [respond]. *)
Definition call (E : Env) (c : Call) : M unit :=
  fun w =>
    let r := respond E (trace w) c in
    (r, emit c (is_ok r) w).

(** [await new Promise(resolve => setTimeout(resolve, ms))]. *)
Definition sleep (ms : Z) : M unit :=
  modify (emit (Sleep ms) true).

(** [v === lit] for a property [v] that may be [undefined]. *)
Definition is_str (v : option string) (lit : string) : bool :=
  match v with Some s => String.eqb s lit | None => false end.

(** ** Strings as the code uses them *)

Definition byte (c : Ascii.ascii) : N := Ascii.N_of_ascii c.

(** [chunk[0]]: the first byte of a buffer, [undefined] when empty. *)
Definition first_byte (chunk : string) : option N :=
  match chunk with
  | EmptyString => None
  | String c _ => Some (byte c)
  end.

Definition between (lo hi : N) (c : Ascii.ascii) : bool :=
  ((lo <=? byte c) && (byte c <=? hi))%N.

(** U+FFFD, the replacement character. *)
Definition replacement : string :=
  String (Ascii.ascii_of_N 239) (String (Ascii.ascii_of_N 191)
    (String (Ascii.ascii_of_N 189) EmptyString)).

(** [chunk.toString()]: the buffer decoded as UTF-8.  A well-formed
    sequence of one to four bytes is the character it encodes; a byte
    that cannot start or continue a sequence ends the sequence so far,
    which becomes U+FFFD, and is then read again as the start of the
    next one; a sequence cut off by the end of the buffer becomes
    U+FFFD.  The second byte of a sequence is held to the narrower
    ranges that exclude overlong forms, surrogates and values above
    U+10FFFF. *)
Fixpoint toString (chunk : string) : string :=
  match chunk with
  | EmptyString => EmptyString
  | String b0 rest =>
      if (byte b0 <? 128)%N then String b0 (toString rest)
      else if between 194 223 b0 then
        match rest with
        | String b1 rest1 =>
            if between 128 191 b1 then String b0 (String b1 (toString rest1))
            else replacement +:+ toString rest
        | EmptyString => replacement
        end
      else if between 224 239 b0 then
        match rest with
        | String b1 rest1 =>
            if between (if (byte b0 =? 224)%N then 160 else 128)
                       (if (byte b0 =? 237)%N then 159 else 191) b1
            then
              match rest1 with
              | String b2 rest2 =>
                  if between 128 191 b2
                  then String b0 (String b1 (String b2 (toString rest2)))
                  else replacement +:+ toString rest1
              | EmptyString => replacement
              end
            else replacement +:+ toString rest
        | EmptyString => replacement
        end
      else if between 240 244 b0 then
        match rest with
        | String b1 rest1 =>
            if between (if (byte b0 =? 240)%N then 144 else 128)
                       (if (byte b0 =? 244)%N then 143 else 191) b1
            then
              match rest1 with
              | String b2 rest2 =>
                  if between 128 191 b2
                  then
                    match rest2 with
                    | String b3 rest3 =>
                        if between 128 191 b3
                        then String b0 (String b1 (String b2 (String b3 (toString rest3))))
                        else replacement +:+ toString rest2
                    | EmptyString => replacement
                    end
                  else replacement +:+ toString rest1
              | EmptyString => replacement
              end
            else replacement +:+ toString rest
        | EmptyString => replacement
        end
      else replacement +:+ toString rest
  end.

Fixpoint drop_bytes (n : nat) (s : string) : string :=
  match n, s with
  | O, _ => s
  | S n', String _ rest => drop_bytes n' rest
  | S _, EmptyString => EmptyString
  end.

(** The low surrogate of the character whose encoding ends in the bytes
    [b2] and [b3], in its generalized encoding. *)
Definition low_surrogate (b2 b3 : Ascii.ascii) : string :=
  String (Ascii.ascii_of_N 237)
    (String (Ascii.ascii_of_N (N.lor 176 (N.land (byte b2) 15)))
       (String b3 EmptyString)).

(** [data.slice(n)] on a decoded text: the first [n] UTF-16 code units
    are dropped.  A character of up to three bytes is one unit; one of
    four bytes is two units, and dropping only the first of them leaves
    the second, a low surrogate. *)
Fixpoint slice (n : nat) (data : string) : string :=
  match n, data with
  | O, _ => data
  | S _, EmptyString => EmptyString
  | S n', String b0 rest =>
      if (byte b0 <? 128)%N then slice n' rest
      else if (byte b0 <? 224)%N then slice n' (drop_bytes 1 rest)
      else if (byte b0 <? 240)%N then slice n' (drop_bytes 2 rest)
      else
        match n' with
        | O =>
            match rest with
            | String _ (String b2 (String b3 tail)) => low_surrogate b2 b3 +:+ tail
            | _ => EmptyString
            end
        | S n'' => slice n'' (drop_bytes 3 rest)
        end
  end.

(** The number of bytes of the white space or line terminator that [s]
    starts with, 0 when it starts with none: U+0009 to U+000D, U+0020,
    U+00A0, U+1680, U+2000 to U+200A, U+2028, U+2029, U+202F, U+205F,
    U+3000 and U+FEFF. *)
Definition space_bytes (s : string) : nat :=
  match s with
  | String c0 rest0 =>
      let b0 := byte c0 in
      if ((9 <=? b0) && (b0 <=? 13) || (b0 =? 32))%N then 1
      else
        match rest0 with
        | String c1 rest1 =>
            let b1 := byte c1 in
            if ((b0 =? 194) && (b1 =? 160))%N then 2
            else
              match rest1 with
              | String c2 _ =>
                  let b2 := byte c2 in
                  if ((b0 =? 225) && (b1 =? 154) && (b2 =? 128))%N then 3
                  else if ((b0 =? 226) && (b1 =? 128)
                           && ((128 <=? b2) && (b2 <=? 138) || (b2 =? 168)
                               || (b2 =? 169) || (b2 =? 175)))%N then 3
                  else if ((b0 =? 226) && (b1 =? 129) && (b2 =? 159))%N then 3
                  else if ((b0 =? 227) && (b1 =? 128) && (b2 =? 128))%N then 3
                  else if ((b0 =? 239) && (b1 =? 187) && (b2 =? 191))%N then 3
                  else 0
              | EmptyString => 0
              end
        | EmptyString => 0
        end
  | EmptyString => 0
  end.

Fixpoint trim_start (s : string) : string :=
  match s with
  | String _ rest0 =>
      match space_bytes s with
      | 0 => s
      | 1 => trim_start rest0
      | 2 => match rest0 with
             | String _ rest1 => trim_start rest1
             | EmptyString => s
             end
      | _ => match rest0 with
             | String _ (String _ rest2) => trim_start rest2
             | _ => s
             end
      end
  | EmptyString => EmptyString
  end.

(** Nothing but white space and line terminators. *)
Definition all_space (s : string) : bool :=
  match trim_start s with EmptyString => true | _ => false end.

Fixpoint trim_end (s : string) : string :=
  match s with
  | String c rest => if all_space s then EmptyString else String c (trim_end rest)
  | EmptyString => EmptyString
  end.

(** [s.trim()]. *)
Definition trim (s : string) : string := trim_end (trim_start s).

(** [a || b] on strings. *)
Definition or_else (a b : string) : string :=
  if String.eqb a "" then b else a.

(** [text.replace(/'/g, r)]. *)
Fixpoint replace_squote (r : string) (text : string) : string :=
  match text with
  | EmptyString => EmptyString
  | String c rest =>
      if Ascii.eqb c (Ascii.ascii_of_nat 39)
      then r +:+ replace_squote r rest
      else String c (replace_squote r rest)
  end.

(** ** Container lifecycle manager *)

Module DockerManager.
Section WithEnv.
Context (E : Env) (testId : string).

Definition containerName : string := "computer-use-test-" +:+ testId.

(** The [data] listener of [execute], folded over the chunks that
    arrive before the promise settles. *)
Fixpoint on_data (chunks : list string) (output errorOutput : string)
  : string * string :=
  match chunks with
  | [] => (output, errorOutput)
  | chunk :: rest =>
      let data := toString chunk in
      match first_byte chunk with
      | Some 1%N => on_data rest (output +:+ slice 8 data) errorOutput
      | Some 2%N => on_data rest output (errorOutput +:+ slice 8 data)
      | _ => on_data rest (output +:+ data) errorOutput
      end
  end.

(** How the promise returned by [execute] settles. *)
Definition settle (chunks : list string) (fin : Finish) : Outcome string :=
  let '(output, errorOutput) := on_data chunks "" "" in
  match fin with
  | Ended (Ok ExitCode) =>
      if negb (ExitCode =? 0)%Z
      then Throw ("Command failed with exit code " +:+ pretty ExitCode +:+ ": "
                  +:+ or_else errorOutput output)
      else Ok (trim output)
  | Ended (Throw inspectError) => Throw inspectError
  | Errored e => Throw e
  | TimedOut => Throw "Command execution timeout"
  end.

(** [execute(command)]: the guard on the handle throws as it is; a
    failure to create or start the exec is wrapped by the [catch]; the
    rejection of the returned promise is not, as it is not awaited
    inside the [try]. *)
Definition execute (command : string) : M string :=
  fun w =>
    if negb (container w) then (Throw "Container not initialized", w)
    else
      let r :=
        match container_exec E (trace w) command with
        | ExecFails e =>
            Throw ("Failed to execute command " +:+ dquote +:+ command
                   +:+ dquote +:+ ": " +:+ e)
        | ExecStreams chunks fin => settle chunks fin
        end in
      (r, emit (ContainerExec command) (is_ok r) w).

(** [getFile(containerPath)]: once the archive stream has ended, the
    bytes are read again through [base64] in the container. *)
Definition getFile (containerPath : string) : M string :=
  fun w =>
    if negb (container w) then (Throw "Container not initialized", w)
    else
      let run := container_getArchive E (trace w) containerPath in
      let ev ok := emit (GetArchive containerPath) ok w in
      match run with
      | ArchiveFails e =>
          (Throw ("Failed to get file " +:+ dquote +:+ containerPath
                  +:+ dquote +:+ ": " +:+ e), ev false)
      | ArchiveErrored e => (Throw e, ev false)
      | ArchiveEnded => execute ("base64 " +:+ containerPath) (ev true)
      end.

Definition setupCommands : list string :=
  [ "apt-get update";
    "apt-get install -y wget curl gnupg2 software-properties-common apt-transport-https ca-certificates";
    "apt-get install -y xvfb x11vnc xdotool scrot";
    "apt-get install -y fonts-liberation libasound2 libatk-bridge2.0-0 libdrm2 libxkbcommon0 libxss1 libgtk-3-0 libxrandr2 libu2f-udev libvulkan1";
    "wget -q -O - https://dl-ssl.google.com/linux/linux_signing_key.pub | apt-key add -";
    "echo " +:+ dquote +:+ "deb [arch=amd64] http://dl.google.com/linux/chrome/deb/ stable main"
      +:+ dquote +:+ " >> /etc/apt/sources.list.d/google.list";
    "apt-get update";
    "apt-get install -y google-chrome-stable";
    "mkdir -p /workspace";
    "Xvfb :99 -screen 0 1280x720x24 > /dev/null 2>&1 &";
    "sleep 3";
    "export DISPLAY=:99 && xdpyinfo >/dev/null 2>&1" ].

(** The [for] loop of [setupContainerEnvironment]: every command runs
    inside its own [try], whose [catch] only logs to the console. *)
Fixpoint run_setup (commands : list string) : M unit :=
  match commands with
  | [] => ret tt
  | command :: rest =>
      try_catch (execute command ;;; ret tt) (fun _ => ret tt) ;;;
      run_setup rest
  end.

Definition setupContainerEnvironment : M unit := run_setup setupCommands.

(** [initialize()]: a failed pull is tolerated; the handle is set as
    soon as the container has been created. *)
Definition initialize : M unit :=
  try_catch
    (try_catch (call E (DockerPull "ubuntu:22.04")) (fun _ => ret tt) ;;;
     call E (CreateContainer containerName) ;;;
     modify (set_container true) ;;;
     call E ContainerStart ;;;
     setupContainerEnvironment)
    (fun e => throw ("Failed to initialize Docker container: " +:+ e)).

(** [cleanup()]: stop and remove each in their own [try]; the handle
    is cleared in the [finally]. *)
Definition cleanup : M unit :=
  fun w =>
    if negb (container w) then (Ok tt, w)
    else
      try_finally
        (try_catch
           (try_catch (call E ContainerStop) (fun _ => ret tt) ;;;
            try_catch (call E ContainerRemove) (fun _ => ret tt))
           (fun e => throw e))
        (modify (set_container false)) w.

End WithEnv.
End DockerManager.

(** ** The agent loop, shared by both backends

    [ComputerUse] and [PuppeteerComputerUse] carry the same loop text;
    they differ in the operations collected in [Backend]. *)

Class Backend : Type := mkBackend {
  takeScreenshotForClaude : M string;
  getComputerUseTools : list Tool;
  executeComputerUseTool : string -> ToolInput -> M string;
  instructionPrompt : string -> string
}.

Definition maxIterations : nat := 20.

(** [content.find(block => block.type === 'text')]. *)
Fixpoint find_text (bs : list Block) : option string :=
  match bs with
  | [] => None
  | text_block t :: _ => Some t
  | _ :: rest => find_text rest
  end.

(** [content.find(block => block.type === 'tool_use')]. *)
Fixpoint find_tool_use (bs : list Block) : option (string * string * ToolInput) :=
  match bs with
  | [] => None
  | tool_use id name input :: _ => Some (id, name, input)
  | _ :: rest => find_tool_use rest
  end.

(** What one round of the loop body decides. *)
Inductive Round : Type :=
| Continue (messages : list Message)
| Break.

(** [{ iterations: iteration, completed: true }]. *)
Record LoopResult : Type := mkLoopResult { iterations : nat; completed : bool }.

Section AgentLoop.
Context (E : Env) (B : Backend).

Definition addLog (message : string) : M unit :=
  modify (fun w =>
    set_log (log w +:+ "[" +:+ toISOString E (Date_now E (trace w)) +:+ "] "
             +:+ message +:+ nl) w).

Definition create (req : Request) : M (list Block) :=
  fun w =>
    let r := messages_create E (trace w) req in
    (r, emit (MessagesCreate req) (is_ok r) w).

Definition exchange (iteration : nat) (lastScreenshot : string)
    (messages : list Message) : list Message :=
  messages ++
  [ mkMessage assistant (plain
      (if (iteration =? 1)%nat
       then "I can see the browser is open. Let me analyze the current state and proceed with the instruction."
       else "Continuing with the task..."));
    mkMessage user (blocks
      [ image "image/png" lastScreenshot;
        text_block
          (if (iteration =? 1)%nat
           then "Here is the current screenshot. Please proceed with the instruction."
           else "Here is the updated screenshot. Please continue.") ]) ].

(** The [try] block of one round. *)
Definition round (iteration : nat) (messages : list Message) : M Round :=
  lastScreenshot <- takeScreenshotForClaude ;;
  let tools := getComputerUseTools in
  response <- create (mkRequest "claude-sonnet-4-20250514" 4096 tools
                        (exchange iteration lastScreenshot messages)) ;;
  match find_text response with
  | Some textContent => addLog ("Claude: " +:+ textContent)
  | None => ret tt
  end ;;;
  match find_tool_use response with
  | Some (id, name, input) =>
      toolResult <- executeComputerUseTool name input ;;
      let messages' :=
        messages ++
        [ mkMessage assistant (blocks response);
          mkMessage user (blocks [tool_result id toolResult]) ] in
      sleep 1000 ;;;
      ret (Continue messages')
  | None =>
      addLog "Claude indicates task completion" ;;;
      ret Break
  end.

(** [while (iteration < this.maxIterations)]: the counter moves up by
    one per round, so the guard is recursion on the number [remaining]
    of rounds left, [maxIterations - iteration]. *)
Fixpoint while_loop (remaining : nat) (iteration : nat)
    (messages : list Message) : M (nat * list Message) :=
  match remaining with
  | O => ret (iteration, messages)
  | S remaining' =>
      let iteration := S iteration in
      addLog ("Claude iteration " +:+ pretty iteration) ;;;
      r <- try_catch (round iteration messages)
             (fun e =>
                addLog ("Error in iteration " +:+ pretty iteration +:+ ": " +:+ e) ;;;
                throw e) ;;
      match r with
      | Continue messages' => while_loop remaining' iteration messages'
      | Break => ret (iteration, messages)
      end
  end.

(** The loop together with the conversation it leaves behind in the
    local [messages]. *)
Definition run_loop (instruction : string) : M (LoopResult * list Message) :=
  let messages := [ mkMessage user (plain (instructionPrompt instruction)) ] in
  r <- while_loop (maxIterations - 0) 0 messages ;;
  let '(iteration, messages) := r in
  if (maxIterations <=? iteration)%nat
  then throw ("Maximum iterations (" +:+ pretty maxIterations +:+ ") reached")
  else ret (mkLoopResult iteration true, messages).

Definition runClaudeWithComputerUse (instruction : string) : M LoopResult :=
  r <- run_loop instruction ;;
  ret (fst r).

End AgentLoop.

(** Configuration both backends read from [this.options]. *)
Section Options.
Context (options : gmap string JsVal).

Definition takeScreenshots : bool := truthy_prop (options !! "takeScreenshots").

(** [this.options.websiteUrl || 'app.giftround.com'], as rendered in
    the templates that use it. *)
Definition websiteUrl : string :=
  match options !! "websiteUrl" with
  | Some v => if truthy v then render v else "app.giftround.com"
  | None => "app.giftround.com"
  end.

Definition promptHead : string :=
  "You are controlling a web browser to test features on " +:+ websiteUrl +:+ ". " +:+ nl
  +:+ "        " +:+ nl
  +:+ "The browser is already open and displaying the website. Please execute this instruction:"
  +:+ nl +:+ nl.

Definition promptGuidelines : string :=
  nl +:+ nl +:+ "Guidelines:" +:+ nl
  +:+ "- Take screenshots frequently to show progress" +:+ nl
  +:+ "- Be thorough but efficient " +:+ nl
  +:+ "- If you encounter errors, try alternative approaches" +:+ nl
  +:+ "- Explain what you're doing at each step" +:+ nl
  +:+ "- Focus only on " +:+ websiteUrl +:+ " - do not navigate away" +:+ nl
  +:+ "- The display resolution is 1280x720" +:+ nl +:+ nl.

Definition promptStatus : string :=
  "Current browser status: Open and displaying " +:+ websiteUrl.
End Options.

Definition display_width : Z := 1280.
Definition display_height : Z := 720.

(** [{ screenshots, log, result }] returned by [execute]. *)
Record Execution : Type := mkExecution {
  ex_screenshots : list Screenshot;
  ex_log : string;
  ex_result : LoopResult
}.

(** ** Container-backed actuation *)

Module ComputerUse.
Section WithEnv.
Context (E : Env) (options : gmap string JsVal).

Definition takeScreenshotForClaude : M string :=
  try_catch
    (timestamp <- get (fun w => Date_now E (trace w)) ;;
     let filename := "/tmp/screenshot_" +:+ pretty timestamp +:+ ".png" in
     DockerManager.execute E ("export DISPLAY=:99 && scrot " +:+ filename) ;;;
     screenshotData <- DockerManager.getFile E filename ;;
     DockerManager.execute E ("rm -f " +:+ filename) ;;;
     ret screenshotData)
    (fun e => throw ("Failed to take screenshot: " +:+ e)).

(** Returns the stored record, or [None] for [null]. *)
Definition captureScreenshot (step : string) : M (option Screenshot) :=
  if negb (takeScreenshots options) then ret None
  else
    try_catch
      (screenshotData <- takeScreenshotForClaude ;;
       now <- get (fun w => Date_now E (trace w)) ;;
       let screenshot :=
         mkScreenshot step (toISOString E now)
           ("data:image/png;base64," +:+ screenshotData) in
       modify (fun w => set_screenshots (screenshots w ++ [screenshot]) w) ;;;
       addLog E ("Screenshot captured: " +:+ step) ;;;
       ret (Some screenshot))
      (fun e =>
         addLog E ("Failed to capture screenshot: " +:+ e) ;;;
         ret None).

Definition navigateToWebsite : M unit :=
  addLog E ("Navigating to " +:+ websiteUrl options) ;;;
  try_catch
    (DockerManager.execute E
       ("export DISPLAY=:99" +:+ " && " +:+
        "Xvfb :99 -screen 0 1280x720x24 &" +:+ " && " +:+
        "sleep 2" +:+ " && " +:+
        "google-chrome --no-sandbox --disable-dev-shm-usage --remote-debugging-port=9222 --start-maximized "
          +:+ dquote +:+ "https://" +:+ websiteUrl options +:+ dquote +:+ " &" +:+ " && " +:+
        "sleep 5") ;;;
     (if takeScreenshots options
      then captureScreenshot ("Navigated to " +:+ websiteUrl options) ;;; ret tt
      else ret tt) ;;;
     addLog E ("Successfully navigated to " +:+ websiteUrl options))
    (fun e => throw ("Failed to navigate to website: " +:+ e)).

Definition getComputerUseTools : list Tool :=
  [ mkTool "computer_20250124" "computer" (Some (display_width, display_height));
    mkTool "bash" "bash" None;
    mkTool "text_editor" "text_editor" None ].

Definition handleComputerAction (input : ToolInput) : M string :=
  let action := in_action input in
  if is_str action "screenshot" then
      takeScreenshotForClaude ;;;
      (if takeScreenshots options
       then captureScreenshot "Screenshot taken" ;;; ret tt
       else ret tt) ;;;
      ret "Screenshot taken"
  else if is_str action "click" then
      match in_coordinate input with
      | None => throw "Cannot read properties of undefined (reading '0')"
      | Some coordinate =>
          let x := render_num (coordinate !! 0%nat) in
          let y := render_num (coordinate !! 1%nat) in
          DockerManager.execute E
            ("export DISPLAY=:99 && xdotool mousemove " +:+ x +:+ " " +:+ y +:+ " click 1") ;;;
          addLog E ("Clicked at coordinates (" +:+ x +:+ ", " +:+ y +:+ ")") ;;;
          sleep 1000 ;;;
          ret ("Clicked at (" +:+ x +:+ ", " +:+ y +:+ ")")
      end
  else if is_str action "type" then
      match in_text input with
      | None => throw "Cannot read properties of undefined (reading 'replace')"
      | Some text =>
          let escapedText :=
            replace_squote (squote +:+ dquote +:+ squote +:+ dquote +:+ squote) text in
          DockerManager.execute E
            ("export DISPLAY=:99 && xdotool type " +:+ squote +:+ escapedText +:+ squote) ;;;
          addLog E ("Typed: " +:+ text) ;;;
          sleep 500 ;;;
          ret ("Typed: " +:+ text)
      end
  else if is_str action "key" then
      let key := render_str (in_key input) in
      DockerManager.execute E ("export DISPLAY=:99 && xdotool key " +:+ key) ;;;
      addLog E ("Pressed key: " +:+ key) ;;;
      sleep 500 ;;;
      ret ("Pressed key: " +:+ key)
  else if is_str action "scroll" then
      match in_coordinate input with
      | None => throw "Cannot read properties of undefined (reading '0')"
      | Some scrollCoord =>
          let direction := in_direction input in
          let scrollDirection :=
            if is_str direction "down" then "5" else "4" in
          let x := render_num (scrollCoord !! 0%nat) in
          let y := render_num (scrollCoord !! 1%nat) in
          DockerManager.execute E
            ("export DISPLAY=:99 && xdotool mousemove " +:+ x +:+ " " +:+ y
             +:+ " click " +:+ scrollDirection) ;;;
          addLog E ("Scrolled " +:+ render_str direction +:+ " at (" +:+ x +:+ ", " +:+ y +:+ ")") ;;;
          sleep 500 ;;;
          ret ("Scrolled " +:+ render_str direction)
      end
  else throw ("Unknown computer action: " +:+ render_str action).

Definition handleBashAction (input : ToolInput) : M string :=
  let command := render_str (in_command input) in
  addLog E ("Executing bash: " +:+ command) ;;;
  try_catch
    (result <- DockerManager.execute E ("export DISPLAY=:99 && " +:+ command) ;;
     ret (or_else result "Command executed successfully"))
    (fun e => ret ("Error executing command: " +:+ e)).

Definition handleTextEditorAction (input : ToolInput) : M string :=
  addLog E "Text editor action not implemented for web testing" ;;;
  ret "Text editor not available in web testing context".

Definition executeComputerUseTool (name : string) (input : ToolInput) : M string :=
  try_catch
    (if String.eqb name "computer" then handleComputerAction input
     else if String.eqb name "bash" then handleBashAction input
     else if String.eqb name "text_editor" then handleTextEditorAction input
     else throw ("Unknown tool: " +:+ name))
    (fun e =>
       addLog E ("Tool execution failed: " +:+ e) ;;;
       ret ("Error: " +:+ e)).

Definition instructionPrompt (instruction : string) : string :=
  promptHead options +:+ dquote +:+ instruction +:+ dquote
  +:+ promptGuidelines options +:+ promptStatus options.

Definition backend : Backend :=
  mkBackend takeScreenshotForClaude getComputerUseTools
            executeComputerUseTool instructionPrompt.

Definition runClaudeWithComputerUse : string -> M LoopResult :=
  runClaudeWithComputerUse E backend.

Definition execute (instruction : string) : M Execution :=
  addLog E ("Starting execution: " +:+ instruction) ;;;
  try_catch
    ((if takeScreenshots options
      then captureScreenshot "Initial state" ;;; ret tt
      else ret tt) ;;;
     navigateToWebsite ;;;
     result <- runClaudeWithComputerUse instruction ;;
     addLog E "Execution completed successfully" ;;;
     w <- get (fun w => w) ;;
     ret (mkExecution (screenshots w) (log w) result))
    (fun e =>
       addLog E ("Execution failed: " +:+ e) ;;;
       throw e).

End WithEnv.
End ComputerUse.

(** ** Process-backed actuation *)

Module PuppeteerComputerUse.
Section WithEnv.
Context (E : Env) (options : gmap string JsVal).

(** A call [this.page.member...(arguments)].  The callee is evaluated
    before the arguments: on a null page reading [member] throws, and
    the arguments, which are part of [m], are not looked at. *)
Definition on_page {A} (member : string) (m : M A) : M A :=
  fun w =>
    if page w then m w
    else (Throw ("Cannot read properties of null (reading '" +:+ member +:+ "')"), w).

Definition initializeBrowser : M unit :=
  addLog E "Initializing Puppeteer browser" ;;;
  try_catch
    (let isDev := negb (NODE_ENV_production E) in
     call E (PuppeteerLaunch isDev) ;;;
     modify (set_browser true) ;;;
     call E NewPage ;;;
     modify (set_page true) ;;;
     call E (SetViewport display_width display_height) ;;;
     addLog E "Puppeteer browser initialized successfully")
    (fun e => throw ("Failed to initialize browser: " +:+ e)).

Definition takeScreenshotForClaude : M string :=
  try_catch
    (on_page "screenshot" (fun w =>
       let r := page_screenshot E (trace w) in
       (r, emit PageScreenshot (is_ok r) w)))
    (fun e => throw ("Failed to take screenshot: " +:+ e)).

Definition captureScreenshot (step : string) : M (option Screenshot) :=
  fun w =>
    if negb (takeScreenshots options) || negb (page w) || negb (browser w)
    then (Ok None, w)
    else
      try_catch
        (screenshotData <- takeScreenshotForClaude ;;
         now <- get (fun w => Date_now E (trace w)) ;;
         let screenshot :=
           mkScreenshot step (toISOString E now)
             ("data:image/png;base64," +:+ screenshotData) in
         modify (fun w => set_screenshots (screenshots w ++ [screenshot]) w) ;;;
         addLog E ("Screenshot captured: " +:+ step) ;;;
         ret (Some screenshot))
        (fun e =>
           addLog E ("Failed to capture screenshot: " +:+ e) ;;;
           ret None) w.

Definition navigateToWebsite : M unit :=
  addLog E ("Navigating to " +:+ websiteUrl options) ;;;
  try_catch
    (on_page "goto" (call E (PageGoto ("https://" +:+ websiteUrl options))) ;;;
     (if takeScreenshots options
      then captureScreenshot ("Navigated to " +:+ websiteUrl options) ;;; ret tt
      else ret tt) ;;;
     addLog E ("Successfully navigated to " +:+ websiteUrl options))
    (fun e => throw ("Failed to navigate to website: " +:+ e)).

Definition getComputerUseTools : list Tool :=
  [ mkTool "computer_20241022" "computer" (Some (display_width, display_height)) ].

Definition keyMap : list (string * string) :=
  [ ("Return", "Enter");
    ("Tab", "Tab");
    ("Escape", "Escape");
    ("BackSpace", "Backspace");
    ("Delete", "Delete");
    ("Up", "ArrowUp");
    ("Down", "ArrowDown");
    ("Left", "ArrowLeft");
    ("Right", "ArrowRight") ].

Fixpoint lookup_key (table : list (string * string)) (key : string) : option string :=
  match table with
  | [] => None
  | (k, v) :: rest => if String.eqb k key then Some v else lookup_key rest key
  end.

(** The names an object literal inherits from [Object.prototype]; each
    of them is a function or an object, hence truthy. *)
Definition inherited : list string :=
  [ "constructor"; "hasOwnProperty"; "isPrototypeOf"; "propertyIsEnumerable";
    "toLocaleString"; "toString"; "valueOf"; "__proto__";
    "__defineGetter__"; "__defineSetter__"; "__lookupGetter__"; "__lookupSetter__" ].

(** [keyMap[key] || key]. *)
Definition puppeteerKey (key : option string) : KeyArgument :=
  match key with
  | Some k =>
      match lookup_key keyMap k with
      | Some mapped => key_name (Some mapped)
      | None => if existsb (String.eqb k) inherited then key_member k else key_name (Some k)
      end
  | None => key_name None
  end.

Definition handleComputerAction (input : ToolInput) : M string :=
  let action := in_action input in
  if is_str action "screenshot" then
      takeScreenshotForClaude ;;;
      (if takeScreenshots options
       then captureScreenshot "Screenshot taken" ;;; ret tt
       else ret tt) ;;;
      ret "Screenshot taken"
  else if is_str action "click" then
      match in_coordinate input with
      | None => on_page "mouse" (throw "Cannot read properties of undefined (reading '0')")
      | Some coordinate =>
          let x := coordinate !! 0%nat in
          let y := coordinate !! 1%nat in
          on_page "mouse" (call E (MouseClick x y)) ;;;
          addLog E ("Clicked at coordinates (" +:+ render_num x +:+ ", " +:+ render_num y +:+ ")") ;;;
          sleep 1000 ;;;
          ret ("Clicked at (" +:+ render_num x +:+ ", " +:+ render_num y +:+ ")")
      end
  else if is_str action "type" then
      let text := in_text input in
      on_page "keyboard" (call E (KeyboardType text)) ;;;
      addLog E ("Typed: " +:+ render_str text) ;;;
      sleep 500 ;;;
      ret ("Typed: " +:+ render_str text)
  else if is_str action "key" then
      let key := in_key input in
      on_page "keyboard" (call E (KeyboardPress (puppeteerKey key))) ;;;
      addLog E ("Pressed key: " +:+ render_str key) ;;;
      sleep 500 ;;;
      ret ("Pressed key: " +:+ render_str key)
  else if is_str action "scroll" then
      match in_coordinate input with
      | None => on_page "mouse" (throw "Cannot read properties of undefined (reading '0')")
      | Some scrollCoord =>
          let direction := in_direction input in
          let clicks := match in_clicks input with Some c => c | None => 3%Z end in
          let delta := if is_str direction "down" then 120%Z else (-120)%Z in
          on_page "mouse" (call E (MouseMove (scrollCoord !! 0%nat) (scrollCoord !! 1%nat))) ;;;
          on_page "mouse" (call E (MouseWheel (Some (delta * clicks)%Z))) ;;;
          addLog E ("Scrolled " +:+ render_str direction +:+ " at ("
                    +:+ render_num (scrollCoord !! 0%nat) +:+ ", "
                    +:+ render_num (scrollCoord !! 1%nat) +:+ ")") ;;;
          sleep 500 ;;;
          ret ("Scrolled " +:+ render_str direction)
      end
  else throw ("Unknown computer action: " +:+ render_str action).

Definition executeComputerUseTool (name : string) (input : ToolInput) : M string :=
  try_catch
    (if String.eqb name "computer" then handleComputerAction input
     else throw ("Unknown tool: " +:+ name))
    (fun e =>
       addLog E ("Tool execution failed: " +:+ e) ;;;
       ret ("Error: " +:+ e)).

Definition instructionPrompt (instruction : string) : string :=
  promptHead options +:+ dquote +:+ instruction +:+ dquote
  +:+ promptGuidelines options
  +:+ "Available actions: screenshot, click, type, key, scroll" +:+ nl +:+ nl
  +:+ promptStatus options.

Definition backend : Backend :=
  mkBackend takeScreenshotForClaude getComputerUseTools
            executeComputerUseTool instructionPrompt.

Definition runClaudeWithComputerUse : string -> M LoopResult :=
  runClaudeWithComputerUse E backend.

(** [cleanup()]: the handles are cleared after [close()] inside the
    [try], so only when the close succeeded. *)
Definition cleanup : M unit :=
  fun w =>
    if browser w
    then
      try_catch
        (call E BrowserClose ;;;
         modify (set_browser false) ;;;
         modify (set_page false) ;;;
         addLog E "Browser closed successfully")
        (fun e => addLog E ("Failed to close browser: " +:+ e)) w
    else (Ok tt, w).

Definition execute (instruction : string) : M Execution :=
  addLog E ("Starting execution with Puppeteer: " +:+ instruction) ;;;
  try_finally
    (try_catch
       (initializeBrowser ;;;
        navigateToWebsite ;;;
        (if takeScreenshots options
         then captureScreenshot "Initial state" ;;; ret tt
         else ret tt) ;;;
        result <- runClaudeWithComputerUse instruction ;;
        addLog E "Execution completed successfully" ;;;
        w <- get (fun w => w) ;;
        ret (mkExecution (screenshots w) (log w) result))
       (fun e =>
          addLog E ("Execution failed: " +:+ e) ;;;
          throw e))
    cleanup.

End WithEnv.
End PuppeteerComputerUse.

(** ** The request handler and [runTest] *)

Inductive ExecutionMode : Type := docker | puppeteer.

(** The fulfilled value of [runTest]; the measured duration and the
    timestamp are left out. *)
Record TestResult : Type := mkTestResult {
  success : bool;
  message : string;
  tr_screenshots : list Screenshot;
  tr_log : string;
  tr_testId : string;
  tr_executionMode : ExecutionMode
}.

Inductive Body : Type :=
| empty_body
| error_body (error : string)
| retry_body (error : string) (retryAfter : Z)
| failure_body (error : string) (testId : option string)
| result_body (result : TestResult).

Record Response : Type := mkResponse { statusCode : Z; body : Body }.

(** The value found under [options] in the request body: [null], or
    an object, given by its own properties.  (A number, a boolean, a
    string or an array under [options] is read and spread as the object
    of its own enumerable properties.) *)
Inductive OptionsValue : Type :=
| options_object (properties : gmap string JsVal)
| options_null.

(** [None] is [undefined]: the body has no [options]. *)
Definition OptionsField : Type := option OptionsValue.

(** The [options] of a body are mostly an object or absent; such a field
    is written as the optional map of the object's properties. *)
Definition found (o : option (gmap string JsVal)) : OptionsField :=
  match o with
  | Some properties => Some (options_object properties)
  | None => None
  end.
#[warnings="-uniform-inheritance"]
Coercion found : option >-> OptionsField.

(** The request body after [JSON.parse(event.body || '{}')] and the
    destructuring [{ instruction, options = {} } = body]: [instruction]
    and [options] as found, [None] for a property that is absent.  A
    body that is not JSON, or is [null], makes one of the two throw and
    is no [RequestBody]. *)
Record RequestBody : Type := mkBody {
  instruction : option JsVal;
  options : OptionsField
}.

Module Handler.
Section WithEnv.
Context (E : Env).

(** [ToNumber], with [None] for [NaN]. *)
Definition toNumber (v : JsVal) : option Z :=
  match v with
  | JNull => Some 0%Z
  | JBool b => Some (if b then 1 else 0)%Z
  | JNum n => Some n
  | JNaN => None
  | JStr s => StringToNumber E s
  | JObject number _ => number
  end.

Definition Math_min (a b : JsVal) : JsVal :=
  match toNumber a, toNumber b with
  | Some x, Some y => JNum (Z.min x y)
  | _, _ => JNaN
  end.

(** [{ timeout: ..., takeScreenshots: ..., websiteUrl: ..., ...options }]:
    the spread comes last, so the caller's own properties win. *)
Definition testOptions (options : gmap string JsVal) : gmap string JsVal :=
  options ∪
  <[ "timeout" :=
       Math_min
         (match options !! "timeout" with
          | Some v => if truthy v then v else JNum (MAX_TEST_DURATION E)
          | None => JNum (MAX_TEST_DURATION E)
          end)
         (JNum (MAX_TEST_DURATION E)) ]>
  (<[ "takeScreenshots" :=
        JBool (match options !! "takeScreenshots" with
               | Some (JBool false) => false
               | _ => true
               end) ]>
  (<[ "websiteUrl" := JStr (WEBSITE_URL E) ]> ∅)).

(** [testOptions.timeout * 1000], the delay handed to [setTimeout]. *)
Definition deadline (testOptions : gmap string JsVal) : option Z :=
  match testOptions !! "timeout" with
  | Some v => match toNumber v with Some n => Some (n * 1000)%Z | None => None end
  | None => None
  end.

(** The [catch] block of [runTest], given the value the local
    [computerUse] has when the error arrives. *)
Definition errorState {A} (computerUse : option ExecutionMode)
    (options : gmap string JsVal) (e : string) : M A :=
  match computerUse with
  | Some docker =>
      try_catch (ComputerUse.captureScreenshot E options "Error state")
                (fun _ => ret None) ;;; throw e
  | Some puppeteer =>
      try_catch (PuppeteerComputerUse.captureScreenshot E options "Error state")
                (fun _ => ret None) ;;; throw e
  | None => throw e
  end.

Definition runTest (testId instruction : string) (options : gmap string JsVal)
    (executionMode : ExecutionMode) : M TestResult :=
  let report (result : Execution) :=
    mkTestResult true ("Successfully completed: " +:+ instruction)
      (ex_screenshots result) (ex_log result) testId executionMode in
  try_finally
    (match executionMode with
     | docker =>
         try_catch (DockerManager.initialize E testId)
                   (errorState None options) ;;;
         try_catch (result <- ComputerUse.execute E options instruction ;;
                    ret (report result))
                   (errorState (Some docker) options)
     | puppeteer =>
         try_catch (result <- PuppeteerComputerUse.execute E options instruction ;;
                    ret (report result))
                   (errorState (Some puppeteer) options)
     end)
    (match executionMode with
     | docker => try_catch (DockerManager.cleanup E) (fun _ => ret tt)
     | puppeteer => ret tt
     end).

(** [Promise.race([run, timer])].  The run is started and is not
    cancelled when the timer wins, so its effects take place either
    way; the timer decides only which outcome the race reports.

    The code builds the run's promise first, so the first external call
    of the run is issued before [setTimeout] arms the timer; no call is
    answered before the timer is armed.  The trace holds one event for
    a call and its answer, and the event of the timer stands where the
    race is set up: the position of [RaceTimer] among the events of the
    run says nothing about the order in which the code issued them.
    When the timer wins, the code goes on to answer the request at
    once, while the run is still under way; the world returned here is
    the one in which the run has come to its end as well. *)
Definition race {A} (delay : option Z) (run : M A) : M A :=
  fun w =>
    let timeout := timer_first E (trace w) delay in
    let w0 := emit (RaceTimer delay) (negb timeout) w in
    match run w0 with
    | (r, w') => (if timeout then Throw "Test timeout" else r, w')
    end.

(** [parsed] is the outcome of parsing and destructuring the body of the
    event; when that throws, the [catch] block answers with the message
    and no test identifier.  The [finally] block gives the slot back
    under the guard [if (testId)]; an identifier made by [uuidv4] is a
    non-empty string, so the guard holds exactly when one was made. *)
Definition handler (httpMethod : string) (parsed : Outcome RequestBody) : M Response :=
  if String.eqb httpMethod "OPTIONS" then ret (mkResponse 200 empty_body)
  else if negb (String.eqb httpMethod "POST")
  then ret (mkResponse 405 (error_body "Method not allowed. Use POST."))
  else
    if negb (match ANTHROPIC_API_KEY E with
             | Some key => negb (String.eqb key "")
             | None => false
             end)
    then ret (mkResponse 500 (error_body "Server configuration error: Missing API key"))
    else
        let executionMode := if USE_DOCKER E then docker else puppeteer in
        match parsed with
        | Throw e => ret (mkResponse 500 (failure_body e None))
        | Ok request =>
            (* [options = {}]: the default stands in for [undefined] only *)
            let options := default (options_object ∅) (options request) in
            match instruction request with
            | Some (JStr (String c s)) =>
                let instruction := String c s in
                fun w =>
                  if (1 <=? size (activeTests w))%nat
                  then (Ok (mkResponse 429
                             (retry_body "Too many concurrent tests. Please try again later." 60)), w)
                  else
                    let testId := uuidv4 E (trace w) in
                    try_finally
                      (modify (fun w => set_activeTests ({[ testId ]} ∪ activeTests w) w) ;;;
                       try_catch
                         (match options with
                          | options_null =>
                              (* [options.timeout] *)
                              throw "Cannot read properties of null (reading 'timeout')"
                          | options_object options =>
                              let testOptions := testOptions options in
                              testResult <- race (deadline testOptions)
                                              (runTest testId instruction testOptions executionMode) ;;
                              ret (mkResponse 200 (result_body testResult))
                          end)
                         (fun e => ret (mkResponse 500 (failure_body e (Some testId)))))
                      (modify (fun w => set_activeTests (activeTests w ∖ {[ testId ]}) w)) w
            | _ =>
                ret (mkResponse 400
                       (error_body "Missing or invalid instruction. Please provide a string instruction."))
            end
        end.

End WithEnv.
End Handler.

(** ** The per-client request-rate governor

    [RateLimiter]: a map from client address to its request record and
    the set of active test identifiers.  The clock reading of a call is
    its argument [now]; the configuration is what the constructor read
    from the process environment. *)

Module RateLimiter.

Record Config : Type := mkConfig {
  maxRequestsPerHour : Z;
  maxConcurrentTests : Z;
  blockDurationMinutes : Z;
  windowSizeHours : Z
}.

(** [{ count, resetTime, blocked, blockUntil }]. *)
Record RequestData : Type := mkData {
  count : Z;
  resetTime : Z;
  blocked : bool;
  blockUntil : Z
}.

Record State : Type := mkState {
  requests : gmap string RequestData;
  tests : gset string
}.

(** The answer of [isRequestAllowed]; an absent property is [None]. *)
Record Decision : Type := mkDecision {
  allowed : bool;
  reason : option string;
  retryAfter : option Z;
  remaining : Z;
  d_resetTime : Z;
  concurrentTests : option Z
}.

(** The answer of [getRateLimitInfo]; [i_blockUntil] is [None] for
    [null] and for an absent property. *)
Record Info : Type := mkInfo {
  i_requests : Z;
  i_remaining : Z;
  i_resetTime : Z;
  i_blocked : bool;
  i_blockUntil : option Z
}.

Definition hourInMs : Z := 60 * 60 * 1000.

(** [Math.ceil(x / d)] on integers. *)
Definition ceil_div (x d : Z) : Z := (- ((- x) / d))%Z.

Section WithConfig.
Context (config : Config).

Definition isRequestAllowed (now : Z) (clientIP : string) (s : State)
  : Decision * State :=
  let requestData :=
    match requests s !! clientIP with
    | Some data => data
    | None => mkData 0 (now + hourInMs) false 0
    end in
  let store (data : RequestData) : State :=
    mkState (<[clientIP := data]> (requests s)) (tests s) in
  if blocked requestData && (now <? blockUntil requestData)%Z
  then
    (mkDecision false (Some "IP temporarily blocked")
       (Some (ceil_div (blockUntil requestData - now) 1000)) 0
       (resetTime requestData) None,
     store requestData)
  else
    let requestData :=
      if (resetTime requestData <? now)%Z
      then mkData 0 (now + hourInMs) false 0
      else requestData in
    if (maxRequestsPerHour config <=? count requestData)%Z
    then
      (mkDecision false (Some "Rate limit exceeded")
         (Some (blockDurationMinutes config * 60)%Z) 0
         (resetTime requestData) None,
       store (mkData (count requestData) (resetTime requestData) true
                (now + blockDurationMinutes config * 60 * 1000)))
    else if (maxConcurrentTests config <=? Z.of_nat (size (tests s)))%Z
    then
      (mkDecision false (Some "Too many concurrent tests") (Some 60%Z)
         (maxRequestsPerHour config - count requestData)
         (resetTime requestData) (Some (Z.of_nat (size (tests s)))),
       store requestData)
    else
      (mkDecision true None None
         (maxRequestsPerHour config - count requestData - 1)
         (resetTime requestData) (Some (Z.of_nat (size (tests s)))),
       store requestData).

Definition recordRequest (clientIP : string) (s : State) : State :=
  match requests s !! clientIP with
  | Some data =>
      mkState (<[clientIP := mkData (count data + 1) (resetTime data)
                               (blocked data) (blockUntil data)]> (requests s))
              (tests s)
  | None => s
  end.

Definition registerTest (testId : string) (s : State) : State :=
  mkState (requests s) ({[ testId ]} ∪ tests s).

Definition unregisterTest (testId : string) (s : State) : State :=
  mkState (requests s) (tests s ∖ {[ testId ]}).

Definition getRateLimitInfo (now : Z) (clientIP : string) (s : State) : Info :=
  match requests s !! clientIP with
  | None => mkInfo 0 (maxRequestsPerHour config) (now + 60 * 60 * 1000) false None
  | Some requestData =>
      mkInfo (count requestData)
             (Z.max 0 (maxRequestsPerHour config - count requestData))
             (resetTime requestData)
             (blocked requestData && (now <? blockUntil requestData)%Z)
             (if blocked requestData then Some (blockUntil requestData) else None)
  end.

Definition clearRateLimit (clientIP : string) (s : State) : bool * State :=
  match requests s !! clientIP with
  | Some _ => (true, mkState (delete clientIP (requests s)) (tests s))
  | None => (false, s)
  end.

(** The test of the clean-up timer: past its window and not under a
    running block. *)
Definition expired (now : Z) (data : RequestData) : bool :=
  (resetTime data <? now)%Z && (negb (blocked data) || (blockUntil data <? now)%Z).

(** One tick of the clean-up timer started by [startCleanupInterval]. *)
Definition cleanupTick (now : Z) (s : State) : State :=
  mkState (filter (fun entry => expired now (snd entry) = false) (requests s)) (tests s).

(** [getRateLimitHeaders(clientIP)]. *)
Definition getRateLimitHeaders (now : Z) (clientIP : string) (s : State)
  : list (string * string) :=
  let info := getRateLimitInfo now clientIP s in
  [ ("X-RateLimit-Limit", pretty (maxRequestsPerHour config));
    ("X-RateLimit-Remaining", pretty (i_remaining info));
    ("X-RateLimit-Reset", pretty (ceil_div (i_resetTime info) 1000));
    ("X-RateLimit-Window", pretty (windowSizeHours config) +:+ "h") ].

End WithConfig.

(** [a || rest] for a header that may be missing or empty. *)
Definition or_header (a : option string) (rest : string) : string :=
  match a with
  | Some v => if String.eqb v "" then rest else v
  | None => rest
  end.

(** [RateLimiter.getClientIP(event)]: the event's headers and the
    source address of its request context, when there is one. *)
Definition getClientIP (headers : gmap string string) (sourceIp : option string)
  : string :=
  or_header (headers !! "x-forwarded-for")
    (or_header (headers !! "x-real-ip")
       (or_header (headers !! "client-ip")
          (or_header sourceIp "unknown"))).

End RateLimiter.

(** ** The sweep of orphaned containers

    [cleanupOrphanedContainers], run once when the container manager is
    loaded.  It talks to the daemon through a client of its own; its
    history is the list of removals it has asked for, each with whether
    the daemon carried it out.  [listContainers] is the daemon's answer
    to the listing, [remove] its answer to a forced removal, given the
    removals so far. *)

Module Orphans.

(** An entry of the listing: [{ Id, Names }]. *)
Record ContainerInfo : Type := mkInfo { Id : string; Names : list string }.

(** [name.includes(part)]. *)
Fixpoint includes (name part : string) : bool :=
  if String.prefix part name then true
  else match name with
       | EmptyString => false
       | String _ rest => includes rest part
       end.

Section WithDaemon.
Context (listContainers : Outcome (list ContainerInfo))
        (remove : list (string * bool) -> string -> Outcome unit).

(** The predicate of [containers.filter]. *)
Definition isTestContainer (container : ContainerInfo) : bool :=
  existsb (fun name => includes name "computer-use-test-") (Names container).

(** The [for] loop: each removal in its own [try], whose [catch] only
    logs. *)
Fixpoint sweep (testContainers : list ContainerInfo) (removals : list (string * bool))
  : list (string * bool) :=
  match testContainers with
  | [] => removals
  | containerInfo :: rest =>
      let r := remove removals (Id containerInfo) in
      sweep rest (removals ++ [(Id containerInfo, is_ok r)])
  end.

(** The outer [catch] logs a failed listing, so the promise is always
    fulfilled. *)
Definition cleanupOrphanedContainers : Outcome unit * list (string * bool) :=
  match listContainers with
  | Throw e => (Ok tt, [])
  | Ok containers =>
      let testContainers := List.filter isTestContainer containers in
      (Ok tt, sweep testContainers [])
  end.

End WithDaemon.
End Orphans.

(** * Specification vocabulary *)

(** ** Frames of the multiplexed exec stream

    One frame is an 8-byte header, whose first byte tags the stream
    (1 for standard output, 2 for standard error), followed by the
    payload.  The listener of [execute] looks at the first byte of each
    chunk only: it reads a stream aright when every chunk is one frame
    and decoding leaves the header its eight code units, which it does
    when all its bytes are below 128. *)

Record Frame : Type := mkFrame { header : string; payload : string }.

Definition frame_bytes (f : Frame) : string := header f +:+ payload f.






(** Docker's frame header: the stream tag, three zero bytes, and the
    payload size on four bytes, most significant first. *)
Definition frame_header (tag size : N) : string :=
  let b (n : N) := Ascii.ascii_of_N (n mod 256)%N in
  String (b tag) (String (b 0%N) (String (b 0%N) (String (b 0%N)
    (String (b (size / 16777216)%N) (String (b (size / 65536)%N)
      (String (b (size / 256)%N) (String (b size) ""))))))).

Definition stderr (p : string) : Frame :=
  mkFrame (frame_header 2 (N.of_nat (String.length p))) p.

(** ** Scripted environments

    An environment with a fixed clock whose container commands, unit
    calls and agent answer according to the given scripts; archives and
    page captures succeed and the deadline timer never wins. *)
Definition scripted (exec : string -> ExecRun) (answer : Call -> Outcome unit)
    (agent : Request -> Outcome (list Block)) : Env :=
  mkEnv (fun _ => 1700000000000%Z) (fun _ => "2023-11-14T22:13:20.000Z")
        (fun _ c => answer c) (fun _ c => exec c) (fun _ _ => ArchiveEnded)
        (fun _ => Ok "iVBORw0KGgo=") (fun _ r => agent r) (fun _ _ => false)
        (fun _ => "test-1") (fun _ => None) false false (Some "sk-test")
        300%Z "app.giftround.com".

Definition exec_ok (command : string) : ExecRun := ExecStreams [] (Ended (Ok 0%Z)).
Definition answer_ok (c : Call) : Outcome unit := Ok tt.
Definition agent_done (r : Request) : Outcome (list Block) :=
  Ok [text_block "The homepage is displayed."].

Definition readiness_check : string := "export DISPLAY=:99 && xdpyinfo >/dev/null 2>&1".

(** Every command works except the display-readiness check, which
    exits with status 1. *)
Definition exec_no_display (command : string) : ExecRun :=
  if String.eqb command readiness_check
  then ExecStreams [frame_bytes (stderr "xdpyinfo:  unable to open display")] (Ended (Ok 1%Z))
  else exec_ok command.





(** A world whose container handle is set. *)
Definition with_container : World := set_container true initial.

(** ** Observations of the world

    Calls that act on the display or the page, or merely wait: they
    touch neither the lifecycle of a backend nor the agent. *)
Definition actuation (c : Call) : bool :=
  match c with
  | ContainerExec _ | GetArchive _ | PageGoto _ | PageScreenshot
  | MouseClick _ _ | KeyboardType _ | KeyboardPress _ | MouseMove _ _
  | MouseWheel _ | Sleep _ => true
  | _ => false
  end.

(** [keeps obs m]: running [m] leaves the observation [obs] of the
    world as it was, whatever the outcome. *)
Definition keeps {X A : Type} (obs : World -> X) (m : M A) : Prop :=
  forall w, obs (snd (m w)) = obs w.

(** The handles of the two backends. *)
Definition handles (w : World) : bool * bool * bool :=
  (container w, browser w, page w).

Definition is_create (ev : Event) : bool :=
  match fst ev with MessagesCreate _ => true | _ => false end.

(** The number of exchanges with the remote agent so far. *)
Definition agent_calls (w : World) : nat := length (filter is_create (trace w)).

(** ** Behaviours of the remote agent

    The request of round [i] carries the persisted conversation (the
    instruction and two turns per earlier round) and the two turns of
    the exchange, [2 * i + 1] turns in all. *)
Definition round_of (req : Request) : nat := (length (messages req) - 1) / 2.

Definition uses_tool (E : Env) (i : nat) : Prop :=
  forall tr req, round_of req = i ->
    exists bs id name input,
      messages_create E tr req = Ok bs /\ find_tool_use bs = Some (id, name, input).

Definition declares_completion (E : Env) (i : nat) : Prop :=
  forall tr req, round_of req = i ->
    exists bs, messages_create E tr req = Ok bs /\ find_tool_use bs = None.

(** ** Cooperative backends *)

Definition container_healthy (E : Env) : Prop :=
  (forall tr command, exists chunks,
      container_exec E tr command = ExecStreams chunks (Ended (Ok 0%Z)))
  /\ (forall tr path, container_getArchive E tr path = ArchiveEnded).

Definition browser_healthy (E : Env) : Prop :=
  (forall tr c, respond E tr c = Ok tt)
  /\ (forall tr, exists data, page_screenshot E tr = Ok data).

(** ** Backends whose captures succeed

    The three commands of one capture on the container backend, for the
    file named after the clock reading [timestamp]. *)
Definition capture_commands (timestamp : Z) : list string :=
  let filename := "/tmp/screenshot_" +:+ pretty timestamp +:+ ".png" in
  [ "export DISPLAY=:99 && scrot " +:+ filename;
    "base64 " +:+ filename;
    "rm -f " +:+ filename ].

(** The commands of a capture run to exit code 0 and the archive of the
    file is read to its end; nothing is said of any other command. *)
Definition container_captures (E : Env) : Prop :=
  (forall tr timestamp command, In command (capture_commands timestamp) ->
     exists chunks, container_exec E tr command = ExecStreams chunks (Ended (Ok 0%Z)))
  /\ (forall tr path, container_getArchive E tr path = ArchiveEnded).

(** [page.screenshot] succeeds; nothing is said of any other call. *)
Definition page_captures (E : Env) : Prop :=
  forall tr, exists data, page_screenshot E tr = Ok data.

(** ** Scripted agents and worlds *)

Definition click_at (x y : Z) : ToolInput :=
  mkInput (Some "click") (Some [x; y]) None None None None None.

Definition agent_clicks (r : Request) : Outcome (list Block) :=
  Ok [ text_block "I will click the centre of the page.";
       tool_use "toolu_01" "computer" (click_at 640 360) ].

(** Asks for a click in every round before round [k] and answers with
    text only from round [k] on. *)
Definition agent_until (k : nat) (r : Request) : Outcome (list Block) :=
  if (round_of r <? k)%nat then agent_clicks r else agent_done r.

(** A world whose browser and page handles are set. *)
Definition with_page : World := set_page true (set_browser true initial).

(** Commands cannot even be started: the daemon refuses every exec. *)
Definition exec_refused (command : string) : ExecRun := ExecFails "socket hang up".

(** The daemon refuses the commands that drive the pointer and the
    keyboard; every other command works. *)
Definition exec_no_pointer (command : string) : ExecRun :=
  if String.prefix "export DISPLAY=:99 && xdotool" command
  then ExecFails "socket hang up"
  else exec_ok command.

(** The browser rejects every call made on the page. *)
Definition answer_refuses (c : Call) : Outcome unit := Throw "Target closed".

Definition bash_ls : ToolInput :=
  mkInput None None None None None None (Some "ls").

(** The actions [handleComputerAction] knows. *)
Definition known_action (action : option string) : bool :=
  is_str action "screenshot" || is_str action "click" || is_str action "type"
  || is_str action "key" || is_str action "scroll".

(** The step labels of the screenshot trail, in order. *)
Definition labels (trail : list Screenshot) : list string := step <$> trail.

Definition capture_enabled : gmap string JsVal := {[ "takeScreenshots" := JBool true ]}.
Definition capture_disabled : gmap string JsVal := {[ "takeScreenshots" := JBool false ]}.

(** ** The lifecycle of a backend

    The calls that bring a backend into being or take it down. *)
Definition lifecycle_call (c : Call) : bool :=
  match c with
  | CreateContainer _ | ContainerRemove | PuppeteerLaunch _ | BrowserClose => true
  | _ => false
  end.

Definition lifecycle_event (ev : Event) : bool := lifecycle_call (fst ev).

(** The lifecycle calls made so far, each with its success flag. *)
Definition lifecycle (w : World) : list Event := filter lifecycle_event (trace w).

(** What the code between set-up and teardown must leave alone. *)
Definition backend_state (w : World) : (bool * bool * bool) * list Event :=
  (handles w, lifecycle w).

(** The browser refuses to close; every other call works. *)
Definition answer_close_fails (c : Call) : Outcome unit :=
  match c with
  | BrowserClose => Throw "Protocol error: Connection closed"
  | _ => Ok tt
  end.

(** ** Deadline timers *)

Definition timer_call (c : Call) : bool :=
  match c with RaceTimer _ => true | _ => false end.

Definition timer_event (ev : Event) : bool := timer_call (fst ev).

(** The deadline timers armed so far. *)
Definition timers (w : World) : list Event := filter timer_event (trace w).

(** The caller asks for ten minutes and for another site. *)
Definition options_ten_minutes : gmap string JsVal :=
  {[ "timeout" := JNum 600; "websiteUrl" := JStr "example.org" ]}.

Definition post_ten_minutes : Outcome RequestBody :=
  Ok (mkBody (Some (JStr "take a screenshot of the homepage")) (Some options_ten_minutes)).

(** ** The governor in use

    A request is served as the test suite does it: [isRequestAllowed],
    then [recordRequest] when the answer allows it. *)
Definition serve (config : RateLimiter.Config) (now : Z) (clientIP : string)
    (s : RateLimiter.State) : RateLimiter.Decision * RateLimiter.State :=
  let r := RateLimiter.isRequestAllowed config now clientIP s in
  if RateLimiter.allowed (fst r)
  then (fst r, RateLimiter.recordRequest clientIP (snd r))
  else r.

(** Requests of one client served at the given clock readings, in
    order. *)
Fixpoint serve_all (config : RateLimiter.Config) (times : list Z) (clientIP : string)
    (s : RateLimiter.State) : list RateLimiter.Decision * RateLimiter.State :=
  match times with
  | [] => ([], s)
  | now :: rest =>
      let r := serve config now clientIP s in
      let rs := serve_all config rest clientIP (snd r) in
      (fst r :: fst rs, snd rs)
  end.

(** The record [isRequestAllowed] creates for a client it does not
    know, and a state that holds a given record for a client. *)
Definition new_record (now : Z) : RateLimiter.RequestData :=
  RateLimiter.mkData 0 (now + RateLimiter.hourInMs) false 0.

Definition with_record (clientIP : string) (data : RateLimiter.RequestData)
    (s : RateLimiter.State) : RateLimiter.State :=
  RateLimiter.mkState (<[clientIP := data]> (RateLimiter.requests s)) (RateLimiter.tests s).

(** The configuration of an unconfigured process, and the state of a
    new limiter. *)
Definition default_config : RateLimiter.Config := RateLimiter.mkConfig 10 1 60 1.
Definition no_clients : RateLimiter.State := RateLimiter.mkState ∅ ∅.

(** A client that has used up a quota of ten in the window that ends at
    3600000. *)
Definition exhausted_client : RateLimiter.State :=
  with_record "203.0.113.7" (RateLimiter.mkData 10 3600000 false 0) no_clients.

(** ** Calls by the party they reach

    The exchanges with the remote agent, and the calls that reach the
    container, the browser or the clock of the process. *)
Definition agent_call (c : Call) : bool :=
  match c with MessagesCreate _ => true | _ => false end.

Definition backend_call (c : Call) : bool := negb (agent_call c || timer_call c).

(** [spends n m]: running [m] adds at most [n] exchanges with the remote
    agent, whatever the outcome. *)
Definition spends {A : Type} (n : nat) (m : M A) : Prop :=
  forall w, agent_calls (snd (m w)) <= agent_calls w + n.

(** Whether a response body names the test it reports on. *)
Definition names_test (b : Body) : bool :=
  match b with
  | failure_body _ (Some _) | result_body _ => true
  | _ => false
  end.

(** A well-formed request: POST with an instruction that is a non-empty
    string, to a process that holds an API key. *)
Definition post (instr : string) (opts : gmap string JsVal) : Outcome RequestBody :=
  Ok (mkBody (Some (JStr instr)) (Some opts)).

(** [fails m]: [m] rejects from every world. *)
Definition fails {A : Type} (m : M A) : Prop :=
  forall w, is_ok (fst (m w)) = false.

(** The remote agent is out of reach: every exchange is rejected. *)
Definition agent_down (E : Env) : Prop :=
  forall tr req, is_ok (messages_create E tr req) = false.

Definition agent_unreachable (r : Request) : Outcome (list Block) :=
  Throw "503 Service Unavailable".

(** ** Further scripted environments *)

(** The environment [E] with a deadline timer that always fires before
    the run settles. *)
Definition deadline_passes (E : Env) : Env :=
  mkEnv (Date_now E) (toISOString E) (respond E) (container_exec E)
        (container_getArchive E) (page_screenshot E) (messages_create E)
        (fun _ _ => true) (uuidv4 E) (StringToNumber E) (NODE_ENV_production E)
        (USE_DOCKER E) (ANTHROPIC_API_KEY E) (MAX_TEST_DURATION E) (WEBSITE_URL E).

(** The caller turns capture off with [null]. *)
Definition capture_null : gmap string JsVal := {[ "takeScreenshots" := JNull ]}.

(** The calls of a history, without their outcomes. *)
Definition calls (history : list Event) : list Call := fst <$> history.

(** A daemon that lists a container of a finished test, a database and
    the container of a test still running elsewhere, and that fails to
    remove the first. *)
Definition listing : Outcome (list Orphans.ContainerInfo) :=
  Ok [ Orphans.mkInfo "4f1c" ["/computer-use-test-test-1"];
       Orphans.mkInfo "9a0e" ["/postgres"];
       Orphans.mkInfo "c27b" ["/computer-use-test-test-2"] ].

Definition remove_fails_first (removals : list (string * bool)) (id : string)
  : Outcome unit :=
  match removals with
  | [] => Throw "removal of container is already in progress"
  | _ => Ok tt
  end.

(** ** The requests put to the agent *)

Definition sent (ev : Event) : option Request :=
  match fst ev with MessagesCreate req => Some req | _ => None end.

(** The requests put to the remote agent so far, in order. *)
Definition requests_sent (w : World) : list Request := omap sent (trace w).

Definition other (r : Role) : Role :=
  match r with user => assistant | assistant => user end.

Definition role_eqb (a b : Role) : bool :=
  match a, b with
  | user, user | assistant, assistant => true
  | _, _ => false
  end.

(** The turns take the roles [next], [other next], [next], ... *)
Fixpoint alternates (next : Role) (turns : list Message) : bool :=
  match turns with
  | [] => true
  | turn :: rest => role_eqb (role turn) next && alternates (other next) rest
  end.

(** A conversation that opens with the instruction prompt of the
    backend, in which user and assistant take turns, and whose last
    turn is the user's. *)
Definition well_turned (B : Backend) (instruction : string) (turns : list Message) : Prop :=
  hd_error turns = Some (mkMessage user (plain (instructionPrompt instruction)))
  /\ alternates user turns = true
  /\ role <$> last turns = Some user.

(** A request as the loop of backend [B] may put it for [instruction]. *)
Definition well_formed_request (B : Backend) (instruction : string) (req : Request) : Prop :=
  model req = "claude-sonnet-4-20250514"
  /\ max_tokens req = 4096%Z
  /\ tools req = getComputerUseTools
  /\ well_turned B instruction (messages req).

(** [sends P m]: the requests [m] puts to the agent all satisfy [P]. *)
Definition sends {A : Type} (P : Request -> Prop) (m : M A) : Prop :=
  forall w, exists new,
    requests_sent (snd (m w)) = requests_sent w ++ new /\ Forall P new.

(** The backend [runTest] builds for a mode. *)
Definition backend_of (E : Env) (options : gmap string JsVal) (mode : ExecutionMode)
  : Backend :=
  match mode with
  | docker => ComputerUse.backend E options
  | puppeteer => PuppeteerComputerUse.backend E options
  end.

(** * Properties *)

(** ** Strings *)

Lemma append_cons (c : Ascii.ascii) (a b : string) :
  String c a +:+ b = String c (a +:+ b).
Proof. reflexivity. Qed.

Lemma append_nil_l (b : string) : "" +:+ b = b.
Proof. reflexivity. Qed.






(** ** Container manager: the exec stream *)


(** ** Effects that leave an observation alone *)

Section Keeps.
Context {X : Type} (obs : World -> X).

Lemma keeps_ret {A} (a : A) : keeps obs (ret a).
Proof. intros w; reflexivity. Qed.

Lemma keeps_throw {A} (e : string) : keeps obs (@throw A e).
Proof. intros w; reflexivity. Qed.

Lemma keeps_get {A} (f : World -> A) : keeps obs (get f).
Proof. intros w; reflexivity. Qed.

Lemma keeps_modify (f : World -> World) :
  (forall w, obs (f w) = obs w) -> keeps obs (modify f).
Proof. intros H w; apply H. Qed.

Lemma keeps_bind {A B} (m : M A) (k : A -> M B) :
  keeps obs m -> (forall a, keeps obs (k a)) -> keeps obs (bind m k).
Proof.
  intros Hm Hk w. unfold bind. specialize (Hm w).
  destruct (m w) as [[a|e] w']; simpl in *; [rewrite Hk|]; exact Hm.
Qed.

Lemma keeps_try_catch {A} (m : M A) (h : string -> M A) :
  keeps obs m -> (forall e, keeps obs (h e)) -> keeps obs (try_catch m h).
Proof.
  intros Hm Hh w. unfold try_catch. specialize (Hm w).
  destruct (m w) as [[a|e] w']; simpl in *; [|rewrite Hh]; exact Hm.
Qed.

Lemma keeps_try_finally {A} (m : M A) (f : M unit) :
  keeps obs m -> keeps obs f -> keeps obs (try_finally m f).
Proof.
  intros Hm Hf w. unfold try_finally. specialize (Hm w).
  destruct (m w) as [r w']. specialize (Hf w').
  destruct (f w') as [[[]|e] w'']; simpl in *; congruence.
Qed.

(** What runs after [m] without touching the observation leaves it as
    [m] left it. *)
Lemma after_bind {A B} (m : M A) (k : A -> M B) (w : World) :
  (forall a, keeps obs (k a)) -> obs (snd (bind m k w)) = obs (snd (m w)).
Proof.
  intros Hk. unfold bind. destruct (m w) as [[a|e] w']; [apply Hk | reflexivity].
Qed.

Lemma after_try_catch {A} (m : M A) (h : string -> M A) (w : World) :
  (forall e, keeps obs (h e)) -> obs (snd (try_catch m h w)) = obs (snd (m w)).
Proof.
  intros Hh. unfold try_catch. destruct (m w) as [[a|e] w']; [reflexivity | apply Hh].
Qed.

Hypothesis obs_log : forall l w, obs (set_log l w) = obs w.
Hypothesis obs_shots : forall s w, obs (set_screenshots s w) = obs w.
Hypothesis obs_act : forall c ok w, actuation c = true -> obs (emit c ok w) = obs w.

Lemma keeps_addLog E (message : string) : keeps obs (addLog E message).
Proof. apply keeps_modify; intros w; apply obs_log. Qed.

Lemma keeps_sleep (ms : Z) : keeps obs (sleep ms).
Proof. apply keeps_modify; intros w; now apply obs_act. Qed.

Lemma keeps_call E (c : Call) : actuation c = true -> keeps obs (call E c).
Proof. intros Hc w; now apply obs_act. Qed.

Lemma keeps_execute E (command : string) :
  keeps obs (DockerManager.execute E command).
Proof.
  intros w. unfold DockerManager.execute.
  destruct (container w); simpl; [now apply obs_act | reflexivity].
Qed.

Lemma keeps_getFile E (path : string) : keeps obs (DockerManager.getFile E path).
Proof.
  intros w. unfold DockerManager.getFile.
  destruct (container w); simpl; [|reflexivity].
  destruct (container_getArchive E (trace w) path); simpl;
    try (now apply obs_act).
  rewrite keeps_execute. now apply obs_act.
Qed.

Lemma keeps_on_page {A} (member : string) (m : M A) :
  keeps obs m -> keeps obs (PuppeteerComputerUse.on_page member m).
Proof.
  intros Hm w. unfold PuppeteerComputerUse.on_page.
  destruct (page w); [apply Hm | reflexivity].
Qed.

End Keeps.

Ltac keeps_step :=
  lazymatch goal with
  | |- keeps _ (bind _ _) => apply keeps_bind; [| intros ?]
  | |- keeps _ (try_catch _ _) => apply keeps_try_catch; [| intros ?]
  | |- keeps _ (try_finally _ _) => apply keeps_try_finally
  | |- keeps _ (ret _) => apply keeps_ret
  | |- keeps _ (throw _) => apply keeps_throw
  | |- keeps _ (get _) => apply keeps_get
  | |- keeps _ (addLog _ _) => apply keeps_addLog; assumption
  | |- keeps _ (sleep _) => apply keeps_sleep; assumption
  | |- keeps _ (call _ _) => apply keeps_call; [assumption | reflexivity]
  | |- keeps _ (DockerManager.execute _ _) => apply keeps_execute; assumption
  | |- keeps _ (DockerManager.getFile _ _) => apply keeps_getFile; assumption
  | |- keeps _ (PuppeteerComputerUse.on_page _ _) => apply keeps_on_page
  | |- keeps _ (modify (fun w => set_screenshots _ w)) =>
      apply keeps_modify; intros ?; auto
  | |- keeps _ (if ?c then _ else _) => destruct c
  | |- keeps _ (match ?x with _ => _ end) => destruct x
  end.

Ltac keeps_auto := repeat (cbv zeta; keeps_step); auto.

Section BackendsKeep.
Context {X : Type} (obs : World -> X).
Hypothesis obs_log : forall l w, obs (set_log l w) = obs w.
Hypothesis obs_shots : forall s w, obs (set_screenshots s w) = obs w.
Hypothesis obs_act : forall c ok w, actuation c = true -> obs (emit c ok w) = obs w.
Context (E : Env) (options : gmap string JsVal).

Lemma keeps_docker_shot : keeps obs (ComputerUse.takeScreenshotForClaude E).
Proof. unfold ComputerUse.takeScreenshotForClaude. keeps_auto. Qed.

Lemma keeps_docker_capture (step : string) :
  keeps obs (ComputerUse.captureScreenshot E options step).
Proof.
  unfold ComputerUse.captureScreenshot. keeps_auto.
  apply keeps_docker_shot.
Qed.

Lemma keeps_docker_navigate : keeps obs (ComputerUse.navigateToWebsite E options).
Proof.
  unfold ComputerUse.navigateToWebsite. keeps_auto.
  apply keeps_docker_capture.
Qed.

Lemma keeps_docker_tool (name : string) (input : ToolInput) :
  keeps obs (ComputerUse.executeComputerUseTool E options name input).
Proof.
  unfold ComputerUse.executeComputerUseTool, ComputerUse.handleComputerAction,
    ComputerUse.handleBashAction, ComputerUse.handleTextEditorAction.
  keeps_auto; first [apply keeps_docker_shot | apply keeps_docker_capture].
Qed.

Lemma keeps_page_shot : keeps obs (PuppeteerComputerUse.takeScreenshotForClaude E).
Proof.
  unfold PuppeteerComputerUse.takeScreenshotForClaude. keeps_auto.
  intros w. now apply obs_act.
Qed.

Lemma keeps_page_capture (step : string) :
  keeps obs (PuppeteerComputerUse.captureScreenshot E options step).
Proof.
  intros w. unfold PuppeteerComputerUse.captureScreenshot.
  destruct (negb (takeScreenshots options) || negb (page w) || negb (browser w));
    [reflexivity|].
  revert w. change (keeps obs
    (try_catch
       (screenshotData <- PuppeteerComputerUse.takeScreenshotForClaude E ;;
        now <- get (fun w => Date_now E (trace w)) ;;
        (modify (fun w => set_screenshots
           (screenshots w ++
            [mkScreenshot step (toISOString E now)
               ("data:image/png;base64," +:+ screenshotData)]) w) ;;;
         addLog E ("Screenshot captured: " +:+ step) ;;;
         ret (Some (mkScreenshot step (toISOString E now)
                      ("data:image/png;base64," +:+ screenshotData)))))
       (fun e => addLog E ("Failed to capture screenshot: " +:+ e) ;;; ret None))).
  keeps_auto. apply keeps_page_shot.
Qed.

Lemma keeps_page_navigate : keeps obs (PuppeteerComputerUse.navigateToWebsite E options).
Proof.
  unfold PuppeteerComputerUse.navigateToWebsite. keeps_auto.
  apply keeps_page_capture.
Qed.

Lemma keeps_page_tool (name : string) (input : ToolInput) :
  keeps obs (PuppeteerComputerUse.executeComputerUseTool E options name input).
Proof.
  unfold PuppeteerComputerUse.executeComputerUseTool,
    PuppeteerComputerUse.handleComputerAction.
  keeps_auto; first [apply keeps_page_shot | apply keeps_page_capture].
Qed.

End BackendsKeep.

(** ** The agent loop *)

Lemma round_of_exchange (iteration : nat) (shot : string) (msgs : list Message)
    (name : string) (budget : Z) (vocabulary : list Tool) :
  length msgs = (2 * iteration + 1)%nat ->
  round_of (mkRequest name budget vocabulary (exchange (S iteration) shot msgs))
  = S iteration.
Proof.
  intros Hlen. unfold round_of, exchange. cbn [messages].
  rewrite length_app, Hlen. cbn [length].
  replace (2 * iteration + 1 + 2 - 1)%nat with (S iteration * 2)%nat by lia.
  apply Nat.div_mul. discriminate.
Qed.

Lemma agent_calls_emit (c : Call) (ok : bool) (w : World) :
  agent_calls (emit c ok w) = (agent_calls w + if is_create (c, ok) then 1 else 0)%nat.
Proof.
  unfold agent_calls, emit. cbn [trace set_trace].
  rewrite filter_app, length_app. cbn [filter list_filter].
  destruct (decide (is_create (c, ok))) as [H|H]; destruct (is_create (c, ok));
    simpl in *; try reflexivity; tauto.
Qed.

Section LoopFacts.
Context (E : Env) (B : Backend) (Inv : World -> Prop).
Hypothesis Inv_handles : forall w w', handles w' = handles w -> Inv w -> Inv w'.
Hypothesis shot_handles : keeps handles takeScreenshotForClaude.
Hypothesis shot_calls : keeps agent_calls takeScreenshotForClaude.
Hypothesis shot_trail : keeps screenshots takeScreenshotForClaude.
Hypothesis tool_handles : forall name input,
    keeps handles (executeComputerUseTool name input).
Hypothesis tool_calls : forall name input,
    keeps agent_calls (executeComputerUseTool name input).
Hypothesis shot_ok : forall w, Inv w -> is_ok (fst (takeScreenshotForClaude w)) = true.
Hypothesis tool_ok : forall name input w,
    is_ok (fst (executeComputerUseTool name input w)) = true.

(** A round in which the agent asks for a tool. *)
Lemma round_continues (iteration : nat) (msgs : list Message) (w : World) :
  Inv w -> length msgs = (2 * iteration + 1)%nat -> uses_tool E (S iteration) ->
  exists bs id name input text w',
    round E B (S iteration) msgs w
    = (Ok (Continue (msgs ++ [ mkMessage assistant (blocks bs);
                               mkMessage user (blocks [tool_result id text]) ])), w')
    /\ find_tool_use bs = Some (id, name, input)
    /\ handles w' = handles w /\ agent_calls w' = S (agent_calls w).
Proof.
  intros HI Hlen Hagent. unfold round, bind.
  pose proof (shot_ok w HI) as Hs.
  pose proof (shot_handles w) as Hh. pose proof (shot_calls w) as Hc.
  destruct (takeScreenshotForClaude w) as [[d|e] w1]; [|discriminate].
  cbn [fst snd] in *.
  unfold create at 1.
  set (req := mkRequest _ _ _ _).
  destruct (Hagent (trace w1) req) as (bs & id & name & input & Hr & Hfind).
  { apply round_of_exchange, Hlen. }
  rewrite Hr, Hfind. cbn [is_ok].
  set (w2 := emit (MessagesCreate req) true w1).
  assert (H2 : handles w2 = handles w) by (rewrite <- Hh; reflexivity).
  assert (C2 : agent_calls w2 = S (agent_calls w)).
  { unfold w2. rewrite agent_calls_emit, Hc. simpl. lia. }
  assert (Hlogged : exists w3,
    match find_text bs with
    | Some textContent => addLog E ("Claude: " +:+ textContent)
    | None => ret tt
    end w2 = (Ok tt, w3) /\ handles w3 = handles w2 /\ agent_calls w3 = agent_calls w2).
  { destruct (find_text bs); eexists; (split; [reflexivity|]); split; reflexivity. }
  destruct Hlogged as (w3 & -> & H3 & C3).
  pose proof (tool_ok name input w3) as Ht.
  pose proof (tool_handles name input w3) as Hth.
  pose proof (tool_calls name input w3) as Htc.
  destruct (executeComputerUseTool name input w3) as [[text|e] w4]; [|discriminate].
  cbn [fst snd] in *.
  exists bs, id, name, input, text. eexists. split; [reflexivity|].
  split; [exact Hfind|]. split.
  - unfold handles in *. cbn. congruence.
  - rewrite agent_calls_emit. cbn. lia.
Qed.

(** A round in which the agent answers without a tool invocation. *)
Lemma round_breaks (iteration : nat) (msgs : list Message) (w : World) :
  Inv w -> length msgs = (2 * iteration + 1)%nat -> declares_completion E (S iteration) ->
  exists w',
    round E B (S iteration) msgs w = (Ok Break, w')
    /\ handles w' = handles w /\ agent_calls w' = S (agent_calls w)
    /\ screenshots w' = screenshots w.
Proof.
  intros HI Hlen Hagent. unfold round, bind.
  pose proof (shot_ok w HI) as Hs.
  pose proof (shot_handles w) as Hh. pose proof (shot_calls w) as Hc.
  pose proof (shot_trail w) as Htr.
  destruct (takeScreenshotForClaude w) as [[d|e] w1]; [|discriminate].
  cbn [fst snd] in *.
  unfold create at 1.
  set (req := mkRequest _ _ _ _).
  destruct (Hagent (trace w1) req) as (bs & Hr & Hfind).
  { apply round_of_exchange, Hlen. }
  rewrite Hr, Hfind. cbn [is_ok].
  set (w2 := emit (MessagesCreate req) true w1).
  assert (C2 : agent_calls w2 = S (agent_calls w)).
  { unfold w2. rewrite agent_calls_emit, Hc. simpl. lia. }
  destruct (find_text bs); eexists; (split; [reflexivity|]);
    (split; [rewrite <- Hh; reflexivity|]);
    (split; [exact C2 | rewrite <- Htr; reflexivity]).
Qed.

Lemma addLog_runs (message : string) (w : World) :
  exists w', addLog E message w = (Ok tt, w')
    /\ handles w' = handles w /\ agent_calls w' = agent_calls w
    /\ screenshots w' = screenshots w.
Proof. eexists; repeat split. Qed.

(** With an agent that always asks for a tool, the loop leaves through
    its guard after [remaining] more rounds. *)
Lemma loop_exhausts (remaining : nat) :
  (forall j, uses_tool E j) ->
  forall iteration msgs w,
    Inv w -> length msgs = (2 * iteration + 1)%nat ->
    exists msgs' w',
      while_loop E B remaining iteration msgs w
      = (Ok ((iteration + remaining)%nat, msgs'), w')
      /\ handles w' = handles w
      /\ agent_calls w' = (agent_calls w + remaining)%nat
      /\ length msgs' = (2 * (iteration + remaining) + 1)%nat.
Proof.
  intros Hagent. induction remaining as [|remaining IH]; intros iteration msgs w HI Hlen.
  - exists msgs, w. rewrite !Nat.add_0_r. repeat split; assumption.
  - cbn [while_loop]. unfold bind at 1.
    destruct (addLog_runs ("Claude iteration " +:+ pretty (S iteration)) w)
      as (w1 & -> & H1 & C1 & _).
    assert (HI1 : Inv w1) by (eapply Inv_handles; eassumption).
    destruct (round_continues iteration msgs w1 HI1 Hlen (Hagent _))
      as (bs & id & name & input & text & w2 & Hround & _ & H2 & C2).
    unfold bind, try_catch. rewrite Hround.
    assert (HI2 : Inv w2) by (eapply Inv_handles; eassumption).
    destruct (IH (S iteration)
                (msgs ++ [ mkMessage assistant (blocks bs);
                           mkMessage user (blocks [tool_result id text]) ]) w2 HI2) as (msgs' & w' & -> & H' & C' & L').
    { rewrite length_app, Hlen. simpl. lia. }
    exists msgs', w'. split; [f_equal; f_equal; f_equal; lia|].
    split; [congruence|]. split; [lia|]. rewrite L'. lia.
Qed.

(** With an agent that asks for a tool in every round before [k] and
    answers without one in round [k], the loop breaks in round [k]. *)
Lemma loop_completes (k : nat) (remaining : nat) :
  declares_completion E k ->
  forall iteration msgs w,
    Inv w -> length msgs = (2 * iteration + 1)%nat ->
    (iteration < k <= iteration + remaining)%nat ->
    (forall j, (iteration < j < k)%nat -> uses_tool E j) ->
    exists msgs' w',
      while_loop E B remaining iteration msgs w = (Ok (k, msgs'), w')
      /\ handles w' = handles w
      /\ agent_calls w' = (agent_calls w + (k - iteration))%nat
      /\ length msgs' = (2 * (k - 1) + 1)%nat
      /\ (k = S iteration -> msgs' = msgs /\ screenshots w' = screenshots w).
Proof.
  intros Hdone. induction remaining as [|remaining IH];
    intros iteration msgs w HI Hlen Hk Htools; [lia|].
  cbn [while_loop]. unfold bind at 1.
  destruct (addLog_runs ("Claude iteration " +:+ pretty (S iteration)) w)
    as (w1 & -> & H1 & C1 & S1).
  assert (HI1 : Inv w1) by (eapply Inv_handles; eassumption).
  destruct (decide (k = S iteration)) as [->|Hne].
  - destruct (round_breaks iteration msgs w1 HI1 Hlen Hdone)
      as (w2 & Hround & H2 & C2 & S2).
    unfold bind, try_catch. rewrite Hround.
    exists msgs, w2. split; [reflexivity|]. split; [congruence|].
    split; [lia|]. split; [rewrite Hlen; lia|].
    intros _. split; [reflexivity | congruence].
  - assert (Htool : uses_tool E (S iteration)) by (apply Htools; lia).
    destruct (round_continues iteration msgs w1 HI1 Hlen Htool)
      as (bs & id & name & input & text & w2 & Hround & _ & H2 & C2).
    unfold bind, try_catch. rewrite Hround.
    assert (HI2 : Inv w2) by (eapply Inv_handles; eassumption).
    destruct (IH (S iteration)
                (msgs ++ [ mkMessage assistant (blocks bs);
                           mkMessage user (blocks [tool_result id text]) ]) w2 HI2) as (msgs' & w' & -> & H' & C' & L' & _).
    { rewrite length_app, Hlen. simpl. lia. }
    { lia. }
    { intros j Hj. apply Htools. lia. }
    exists msgs', w'. split; [reflexivity|]. split; [congruence|].
    split; [lia|]. split; [exact L' | intros; lia].
Qed.

Lemma budget_message :
  "Maximum iterations (" +:+ pretty maxIterations +:+ ") reached"
  = "Maximum iterations (20) reached".
Proof. reflexivity. Qed.

Lemma run_loop_exhausts (instruction : string) (w : World) :
  (forall j, uses_tool E j) -> Inv w ->
  exists w',
    run_loop E B instruction w = (Throw "Maximum iterations (20) reached", w')
    /\ handles w' = handles w
    /\ agent_calls w' = (agent_calls w + maxIterations)%nat.
Proof.
  intros Hagent HI. unfold run_loop, bind.
  destruct (loop_exhausts (maxIterations - 0) Hagent 0
              [mkMessage user (plain (instructionPrompt instruction))] w HI eq_refl)
    as (msgs' & w' & -> & H' & C' & _).
  exists w'. split; [|split; assumption].
  cbn [Nat.leb maxIterations Nat.sub Nat.add]. unfold throw.
  now rewrite budget_message.
Qed.

Lemma run_loop_completes (k : nat) (instruction : string) (w : World) :
  (1 <= k <= maxIterations)%nat ->
  declares_completion E k ->
  (forall j, (0 < j < k)%nat -> uses_tool E j) ->
  Inv w ->
  exists msgs' w',
    run_loop E B instruction w
    = (if (k <? maxIterations)%nat
       then Ok (mkLoopResult k true, msgs')
       else Throw "Maximum iterations (20) reached", w')
    /\ handles w' = handles w
    /\ agent_calls w' = (agent_calls w + k)%nat
    /\ length msgs' = (2 * (k - 1) + 1)%nat
    /\ (k = 1%nat ->
        msgs' = [mkMessage user (plain (instructionPrompt instruction))]
        /\ screenshots w' = screenshots w).
Proof.
  intros Hk Hdone Htools HI. unfold run_loop, bind.
  destruct (loop_completes k (maxIterations - 0) Hdone 0
              [mkMessage user (plain (instructionPrompt instruction))] w HI eq_refl)
    as (msgs' & w' & -> & H' & C' & L' & First);
    [unfold maxIterations in *; lia | exact Htools |].
  exists msgs', w'. split.
  - destruct (Nat.ltb_spec k maxIterations) as [Hlt|Hge].
    + destruct (Nat.leb_spec maxIterations k) as [Hle|_]; [lia | reflexivity].
    + destruct (Nat.leb_spec maxIterations k) as [_|Hlt]; [|lia].
      unfold throw. now rewrite budget_message.
  - split; [exact H'|]. split; [rewrite C'; lia|]. split; [exact L'|].
    exact First.
Qed.

Lemma while_loop_step (remaining iteration : nat) (msgs : list Message) :
  while_loop E B (S remaining) iteration msgs
  = (addLog E ("Claude iteration " +:+ pretty (S iteration)) ;;;
     r <- try_catch (round E B (S iteration) msgs)
            (fun e =>
               addLog E ("Error in iteration " +:+ pretty (S iteration) +:+ ": " +:+ e) ;;;
               throw e) ;;
     match r with
     | Continue messages' => while_loop E B remaining (S iteration) messages'
     | Break => ret (S iteration, msgs)
     end).
Proof. reflexivity. Qed.

(** A tool invocation in round 1 and completion in round 2. *)
Lemma run_loop_two_rounds (instruction : string) (w : World) :
  uses_tool E 1 -> declares_completion E 2 -> Inv w ->
  exists bs id name input text w',
    run_loop E B instruction w
    = (Ok (mkLoopResult 2 true,
           [ mkMessage user (plain (instructionPrompt instruction));
             mkMessage assistant (blocks bs);
             mkMessage user (blocks [tool_result id text]) ]), w')
    /\ find_tool_use bs = Some (id, name, input).
Proof.
  intros Htool Hdone HI. unfold run_loop.
  change (maxIterations - 0)%nat with (S 19).
  rewrite (while_loop_step 19 0). unfold bind at 1 2.
  destruct (addLog_runs ("Claude iteration " +:+ pretty 1%nat) w)
    as (w1 & -> & H1 & _).
  assert (HI1 : Inv w1) by (eapply Inv_handles; eassumption).
  destruct (round_continues 0 [mkMessage user (plain (instructionPrompt instruction))]
              w1 HI1 eq_refl Htool)
    as (bs & id & name & input & text & w2 & Hround & Hfind & H2 & _).
  unfold bind at 1. unfold try_catch. rewrite Hround.
  assert (HI2 : Inv w2) by (eapply Inv_handles; eassumption).
  destruct (loop_completes 2 19 Hdone 1
              ([mkMessage user (plain (instructionPrompt instruction))] ++
               [ mkMessage assistant (blocks bs);
                 mkMessage user (blocks [tool_result id text]) ]) w2 HI2 eq_refl)
    as (msgs' & w' & -> & _ & _ & _ & Hsame); [lia | intros j Hj; lia |].
  destruct (Hsame eq_refl) as [-> _].
  exists bs, id, name, input, text, w'. split; [reflexivity | exact Hfind].
Qed.

End LoopFacts.

(** ** The two backends under the loop *)

Lemma calls_act (c : Call) (ok : bool) (w : World) :
  actuation c = true -> agent_calls (emit c ok w) = agent_calls w.
Proof.
  intros Hc. rewrite agent_calls_emit.
  destruct c; try discriminate Hc; cbn; lia.
Qed.

Lemma docker_tool_total E options name input (w : World) :
  is_ok (fst (ComputerUse.executeComputerUseTool E options name input w)) = true.
Proof.
  unfold ComputerUse.executeComputerUseTool, try_catch.
  match goal with |- context [match ?m w with _ => _ end] =>
    destruct (m w) as [[t|e] w'] end; reflexivity.
Qed.

Lemma page_tool_total E options name input (w : World) :
  is_ok (fst (PuppeteerComputerUse.executeComputerUseTool E options name input w)) = true.
Proof.
  unfold PuppeteerComputerUse.executeComputerUseTool, try_catch.
  match goal with |- context [match ?m w with _ => _ end] =>
    destruct (m w) as [[t|e] w'] end; reflexivity.
Qed.

Lemma settle_success (chunks : list string) :
  exists out, DockerManager.settle chunks (Ended (Ok 0%Z)) = Ok out.
Proof.
  unfold DockerManager.settle.
  destruct (DockerManager.on_data chunks "" "") as [output errorOutput].
  eexists; reflexivity.
Qed.

Lemma execute_healthy E (command : string) (w : World) :
  container_healthy E -> container w = true ->
  exists out,
    DockerManager.execute E command w = (Ok out, emit (ContainerExec command) true w).
Proof.
  intros [Hexec _] Hc. unfold DockerManager.execute. rewrite Hc. cbn [negb].
  destruct (Hexec (trace w) command) as [chunks ->].
  destruct (settle_success chunks) as [out ->].
  exists out. reflexivity.
Qed.

Lemma getFile_healthy E (path : string) (w : World) :
  container_healthy E -> container w = true ->
  exists data,
    DockerManager.getFile E path w
    = (Ok data, emit (ContainerExec ("base64 " +:+ path)) true (emit (GetArchive path) true w)).
Proof.
  intros Hh Hc. unfold DockerManager.getFile. rewrite Hc. cbn [negb].
  rewrite (proj2 Hh).
  apply execute_healthy; [exact Hh | exact Hc].
Qed.

Lemma docker_shot_healthy E (w : World) :
  container_healthy E -> container w = true ->
  exists data w',
    ComputerUse.takeScreenshotForClaude E w = (Ok data, w')
    /\ handles w' = handles w /\ screenshots w' = screenshots w /\ log w' = log w.
Proof.
  intros Hh Hc. unfold ComputerUse.takeScreenshotForClaude, try_catch, bind, get.
  destruct (execute_healthy E
    ("export DISPLAY=:99 && scrot " +:+ "/tmp/screenshot_" +:+ pretty (Date_now E (trace w)) +:+ ".png")
    w Hh Hc) as [out ->].
  match goal with |- context [DockerManager.getFile E ?p ?w1] =>
    destruct (getFile_healthy E p w1 Hh Hc) as [data ->] end.
  match goal with |- context [DockerManager.execute E ?c ?w2] =>
    destruct (execute_healthy E c w2 Hh Hc) as [out' ->] end.
  eexists _, _. repeat split.
Qed.

Lemma page_shot_healthy E (w : World) :
  browser_healthy E -> page w = true ->
  exists data,
    PuppeteerComputerUse.takeScreenshotForClaude E w
    = (Ok data, emit PageScreenshot true w).
Proof.
  intros [_ Hshot] Hp.
  unfold PuppeteerComputerUse.takeScreenshotForClaude, try_catch,
    PuppeteerComputerUse.on_page.
  rewrite Hp. destruct (Hshot (trace w)) as [data ->].
  exists data. reflexivity.
Qed.

Ltac same_handles :=
  intros ? ? Hsame Hready; unfold handles in Hsame; hnf in Hready; hnf; congruence.

Ltac docker_facts :=
  first
    [ same_handles
    | apply keeps_docker_shot; first [apply calls_act | intros; reflexivity]
    | intros ? ?; apply keeps_docker_tool; first [apply calls_act | intros; reflexivity]
    | apply docker_tool_total ].

Ltac page_facts :=
  first
    [ same_handles
    | apply keeps_page_shot; first [apply calls_act | intros; reflexivity]
    | intros ? ?; apply keeps_page_tool; first [apply calls_act | intros; reflexivity]
    | apply page_tool_total ].

Section DockerRuns.
Context (E : Env) (options : gmap string JsVal).
Hypothesis healthy : container_healthy E.

Lemma docker_shot_ok (w : World) :
  container w = true -> is_ok (fst (ComputerUse.takeScreenshotForClaude E w)) = true.
Proof.
  intros Hc. destruct (docker_shot_healthy E w healthy Hc) as (d & w' & -> & _).
  reflexivity.
Qed.

Lemma docker_completes (k : nat) (instruction : string) (w : World) :
  (1 <= k <= maxIterations)%nat ->
  declares_completion E k ->
  (forall j, (0 < j < k)%nat -> uses_tool E j) ->
  container w = true ->
  exists msgs' w',
    run_loop E (ComputerUse.backend E options) instruction w
    = (if (k <? maxIterations)%nat
       then Ok (mkLoopResult k true, msgs')
       else Throw "Maximum iterations (20) reached", w')
    /\ handles w' = handles w
    /\ agent_calls w' = (agent_calls w + k)%nat
    /\ length msgs' = (2 * (k - 1) + 1)%nat
    /\ (k = 1%nat ->
        msgs' = [mkMessage user (plain (ComputerUse.instructionPrompt options instruction))]
        /\ screenshots w' = screenshots w).
Proof.
  intros Hk Hdone Htools Hc.
  apply (run_loop_completes E (ComputerUse.backend E options)
             (fun w => container w = true));
    try assumption;
    try docker_facts.
  exact docker_shot_ok.
Qed.

Lemma docker_two_rounds (instruction : string) (w : World) :
  uses_tool E 1 -> declares_completion E 2 -> container w = true ->
  exists bs id name input text w',
    run_loop E (ComputerUse.backend E options) instruction w
    = (Ok (mkLoopResult 2 true,
           [ mkMessage user (plain (ComputerUse.instructionPrompt options instruction));
             mkMessage assistant (blocks bs);
             mkMessage user (blocks [tool_result id text]) ]), w')
    /\ find_tool_use bs = Some (id, name, input).
Proof.
  intros Htool Hdone Hc.
  apply (run_loop_two_rounds E (ComputerUse.backend E options)
             (fun w => container w = true));
    try assumption; try docker_facts.
  exact docker_shot_ok.
Qed.

End DockerRuns.

Section PageRuns.
Context (E : Env) (options : gmap string JsVal).
Hypothesis healthy : browser_healthy E.

Lemma page_shot_ok (w : World) :
  page w = true -> is_ok (fst (PuppeteerComputerUse.takeScreenshotForClaude E w)) = true.
Proof.
  intros Hp. destruct (page_shot_healthy E w healthy Hp) as (d & ->).
  reflexivity.
Qed.

Lemma page_completes (k : nat) (instruction : string) (w : World) :
  (1 <= k <= maxIterations)%nat ->
  declares_completion E k ->
  (forall j, (0 < j < k)%nat -> uses_tool E j) ->
  page w = true ->
  exists msgs' w',
    run_loop E (PuppeteerComputerUse.backend E options) instruction w
    = (if (k <? maxIterations)%nat
       then Ok (mkLoopResult k true, msgs')
       else Throw "Maximum iterations (20) reached", w')
    /\ handles w' = handles w
    /\ agent_calls w' = (agent_calls w + k)%nat
    /\ length msgs' = (2 * (k - 1) + 1)%nat
    /\ (k = 1%nat ->
        msgs' = [mkMessage user
                   (plain (PuppeteerComputerUse.instructionPrompt options instruction))]
        /\ screenshots w' = screenshots w).
Proof.
  intros Hk Hdone Htools Hp.
  apply (run_loop_completes E (PuppeteerComputerUse.backend E options)
             (fun w => page w = true));
    try assumption;
    try page_facts.
  exact page_shot_ok.
Qed.

Lemma page_two_rounds (instruction : string) (w : World) :
  uses_tool E 1 -> declares_completion E 2 -> page w = true ->
  exists bs id name input text w',
    run_loop E (PuppeteerComputerUse.backend E options) instruction w
    = (Ok (mkLoopResult 2 true,
           [ mkMessage user
               (plain (PuppeteerComputerUse.instructionPrompt options instruction));
             mkMessage assistant (blocks bs);
             mkMessage user (blocks [tool_result id text]) ]), w')
    /\ find_tool_use bs = Some (id, name, input).
Proof.
  intros Htool Hdone Hp.
  apply (run_loop_two_rounds E (PuppeteerComputerUse.backend E options)
             (fun w => page w = true));
    try assumption; try page_facts.
  exact page_shot_ok.
Qed.

End PageRuns.

(** ** Claims about the loop *)

Lemma scripted_container_healthy answer agent :
  container_healthy (scripted exec_ok answer agent).
Proof. split; intros; [eexists|]; reflexivity. Qed.

Lemma scripted_browser_healthy exec agent :
  browser_healthy (scripted exec answer_ok agent).
Proof. split; intros; [|eexists]; reflexivity. Qed.

Lemma agent_clicks_uses_tool exec answer (j : nat) :
  uses_tool (scripted exec answer agent_clicks) j.
Proof. intros tr req _. do 4 eexists. split; reflexivity. Qed.

Lemma agent_until_uses_tool exec answer (k j : nat) :
  (j < k)%nat -> uses_tool (scripted exec answer (agent_until k)) j.
Proof.
  intros Hj tr req Hr. do 4 eexists. cbn [messages_create scripted].
  unfold agent_until. rewrite Hr.
  destruct (Nat.ltb_spec j k); [split; reflexivity | lia].
Qed.

Lemma agent_until_declares exec answer (k : nat) :
  declares_completion (scripted exec answer (agent_until k)) k.
Proof.
  intros tr req Hr. eexists. cbn [messages_create scripted].
  unfold agent_until. rewrite Hr, Nat.ltb_irrefl. split; reflexivity.
Qed.

(** The loop below the cap: an agent that declares completion in round
    [k < 20] makes the loop return [{ iterations: k, completed: true }]. *)
Lemma completion_before_cap (E : Env) (options : gmap string JsVal)
    (k : nat) (instruction : string) (w : World) :
  (1 <= k < maxIterations)%nat ->
  declares_completion E k ->
  (forall j, (0 < j < k)%nat -> uses_tool E j) ->
  (container_healthy E -> container w = true ->
     fst (ComputerUse.runClaudeWithComputerUse E options instruction w)
     = Ok (mkLoopResult k true))
  /\ (browser_healthy E -> page w = true ->
     fst (PuppeteerComputerUse.runClaudeWithComputerUse E options instruction w)
     = Ok (mkLoopResult k true)).
Proof.
  intros Hk Hdone Htools. split; intros Hh Hready.
  - unfold ComputerUse.runClaudeWithComputerUse, runClaudeWithComputerUse, bind.
    destruct (docker_completes E options Hh k instruction w) as (msgs' & w' & -> & _);
      try assumption; [lia|].
    destruct (Nat.ltb_spec k maxIterations); [reflexivity | lia].
  - unfold PuppeteerComputerUse.runClaudeWithComputerUse, runClaudeWithComputerUse, bind.
    destruct (page_completes E options Hh k instruction w) as (msgs' & w' & -> & _);
      try assumption; [lia|].
    destruct (Nat.ltb_spec k maxIterations); [reflexivity | lia].
Qed.

(** C1 (at the cap). When the agent asks for a tool in rounds 1 to 19
    and answers round 20 without a tool invocation, the loop logs the
    completion and breaks, and then the check after the loop raises the
    maximum-iterations error instead of returning
    [{ iterations: 20, completed: true }], on both backends. *)
Theorem completion_in_last_round_raises (E : Env) (options : gmap string JsVal)
    (instruction : string) (w : World) :
  declares_completion E maxIterations ->
  (forall j, (0 < j < maxIterations)%nat -> uses_tool E j) ->
  (container_healthy E -> container w = true ->
     exists w',
       ComputerUse.runClaudeWithComputerUse E options instruction w
       = (Throw "Maximum iterations (20) reached", w')
       /\ agent_calls w' = (agent_calls w + 20)%nat)
  /\ (browser_healthy E -> page w = true ->
     exists w',
       PuppeteerComputerUse.runClaudeWithComputerUse E options instruction w
       = (Throw "Maximum iterations (20) reached", w')
       /\ agent_calls w' = (agent_calls w + 20)%nat).
Proof.
  intros Hdone Htools. split; intros Hh Hready.
  - unfold ComputerUse.runClaudeWithComputerUse, runClaudeWithComputerUse, bind.
    destruct (docker_completes E options Hh maxIterations instruction w)
      as (msgs' & w' & -> & _ & Hcalls & _); try assumption;
      [unfold maxIterations; lia|].
    exists w'. split; [reflexivity | exact Hcalls].
  - unfold PuppeteerComputerUse.runClaudeWithComputerUse, runClaudeWithComputerUse, bind.
    destruct (page_completes E options Hh maxIterations instruction w)
      as (msgs' & w' & -> & _ & Hcalls & _); try assumption;
      [unfold maxIterations; lia|].
    exists w'. split; [reflexivity | exact Hcalls].
Qed.

Lemma completion_in_last_round_raises_witness :
  (exists w',
     ComputerUse.runClaudeWithComputerUse
       (scripted exec_ok answer_ok (agent_until 20)) ∅ "open the cart" with_container
     = (Throw "Maximum iterations (20) reached", w')
     /\ agent_calls w' = 20%nat)
  /\ (exists w',
     PuppeteerComputerUse.runClaudeWithComputerUse
       (scripted exec_ok answer_ok (agent_until 20)) ∅ "open the cart" with_page
     = (Throw "Maximum iterations (20) reached", w')
     /\ agent_calls w' = 20%nat).
Proof.
  split.
  - apply (proj1 (completion_in_last_round_raises
                    (scripted exec_ok answer_ok (agent_until 20)) ∅ "open the cart"
                    with_container
                    (agent_until_declares exec_ok answer_ok 20)
                    (fun j Hj => agent_until_uses_tool exec_ok answer_ok 20 j (proj2 Hj)))).
    + apply scripted_container_healthy.
    + reflexivity.
  - apply (proj2 (completion_in_last_round_raises
                    (scripted exec_ok answer_ok (agent_until 20)) ∅ "open the cart"
                    with_page
                    (agent_until_declares exec_ok answer_ok 20)
                    (fun j Hj => agent_until_uses_tool exec_ok answer_ok 20 j (proj2 Hj)))).
    + apply scripted_browser_healthy.
    + reflexivity.
Defined.

(** ** The loop when only the captures are known to succeed *)

Lemma execute_succeeds E (command : string) (w : World) :
  (forall tr, exists chunks,
      container_exec E tr command = ExecStreams chunks (Ended (Ok 0%Z))) ->
  container w = true ->
  exists out,
    DockerManager.execute E command w = (Ok out, emit (ContainerExec command) true w).
Proof.
  intros Hexec Hc. unfold DockerManager.execute. rewrite Hc. cbn [negb].
  destruct (Hexec (trace w)) as [chunks ->].
  destruct (settle_success chunks) as [out ->].
  exists out. reflexivity.
Qed.

Lemma docker_shot_captures E (w : World) :
  container_captures E -> container w = true ->
  is_ok (fst (ComputerUse.takeScreenshotForClaude E w)) = true.
Proof.
  intros [Hexec Harchive] Hc.
  assert (Hrun : forall command w0,
             In command (capture_commands (Date_now E (trace w))) ->
             container w0 = true ->
             exists out,
               DockerManager.execute E command w0
               = (Ok out, emit (ContainerExec command) true w0)).
  { intros command w0 Hin Hc0. apply execute_succeeds; [|exact Hc0].
    intros tr. now apply (Hexec tr (Date_now E (trace w))). }
  unfold capture_commands in Hrun. cbv zeta in Hrun.
  unfold ComputerUse.takeScreenshotForClaude, try_catch, bind, get.
  destruct (Hrun _ w (or_introl eq_refl) Hc) as [out ->].
  unfold DockerManager.getFile. cbn [container emit set_trace negb]. rewrite Hc, Harchive.
  cbn [negb].
  match goal with |- context [DockerManager.execute E ?c ?w1] =>
    destruct (Hrun c w1 (or_intror (or_introl eq_refl)) Hc) as [data ->] end.
  match goal with |- context [DockerManager.execute E ?c ?w2] =>
    destruct (Hrun c w2 (or_intror (or_intror (or_introl eq_refl))) Hc) as [out' ->] end.
  reflexivity.
Qed.

Lemma page_shot_captures E (w : World) :
  page_captures E -> page w = true ->
  is_ok (fst (PuppeteerComputerUse.takeScreenshotForClaude E w)) = true.
Proof.
  intros Hshot Hp.
  unfold PuppeteerComputerUse.takeScreenshotForClaude, try_catch,
    PuppeteerComputerUse.on_page.
  rewrite Hp. destruct (Hshot (trace w)) as [data ->]. reflexivity.
Qed.

Lemma no_pointer_captures answer agent :
  container_captures (scripted exec_no_pointer answer agent).
Proof.
  split; [|reflexivity].
  intros tr timestamp command [<-|[<-|[<-|[]]]]; eexists; reflexivity.
Qed.

Lemma scripted_page_captures exec answer agent :
  page_captures (scripted exec answer agent).
Proof. intros tr. eexists. reflexivity. Qed.

Lemma docker_exhausts_on_captures E (options : gmap string JsVal)
    (instruction : string) (w : World) :
  container_captures E -> (forall j, uses_tool E j) -> container w = true ->
  exists w',
    run_loop E (ComputerUse.backend E options) instruction w
    = (Throw "Maximum iterations (20) reached", w')
    /\ handles w' = handles w
    /\ agent_calls w' = (agent_calls w + maxIterations)%nat.
Proof.
  intros Hcap Hagent Hc.
  apply (run_loop_exhausts E (ComputerUse.backend E options)
             (fun w => container w = true));
    try assumption;
    try docker_facts.
  intros w0 Hc0. now apply docker_shot_captures.
Qed.

Lemma page_exhausts_on_captures E (options : gmap string JsVal)
    (instruction : string) (w : World) :
  page_captures E -> (forall j, uses_tool E j) -> page w = true ->
  exists w',
    run_loop E (PuppeteerComputerUse.backend E options) instruction w
    = (Throw "Maximum iterations (20) reached", w')
    /\ handles w' = handles w
    /\ agent_calls w' = (agent_calls w + maxIterations)%nat.
Proof.
  intros Hcap Hagent Hp.
  apply (run_loop_exhausts E (PuppeteerComputerUse.backend E options)
             (fun w => page w = true));
    try assumption;
    try page_facts.
  intros w0 Hp0. now apply page_shot_captures.
Qed.

(** C2 (as stated, refuted). The agent asks for a click in every
    round and never signals completion, but the daemon refuses every
    command, those of the capture included: the loop ends in round 1
    with the error of the failed capture, before any exchange with the
    agent, and not with the maximum-iterations error after 20 rounds.
    The maximum-iterations error is, besides, not peculiar to an agent
    that never completes: a run whose agent signals completion in round
    20 ends with the same error. *)
Lemma failed_capture_ends_loop_early :
  let E := scripted exec_refused answer_ok agent_clicks in
  let r := ComputerUse.runClaudeWithComputerUse E ∅ "open the cart" with_container in
  (forall j, uses_tool E j)
  /\ fst r
     = Throw ("Failed to take screenshot: Failed to execute command " +:+ dquote
              +:+ "export DISPLAY=:99 && scrot /tmp/screenshot_1700000000000.png"
              +:+ dquote +:+ ": socket hang up")
  /\ fst r <> Throw "Maximum iterations (20) reached"
  /\ agent_calls (snd r) = 0%nat
  /\ fst (ComputerUse.runClaudeWithComputerUse
            (scripted exec_ok answer_ok (agent_until 20)) ∅ "open the cart" with_container)
     = Throw "Maximum iterations (20) reached".
Proof.
  split; [apply agent_clicks_uses_tool|].
  split; [vm_compute; reflexivity|].
  split; [vm_compute; discriminate|].
  split; vm_compute; reflexivity.
Qed.

(** C2 (amended). On a backend that has been set up (the container
    handle, or the page handle, is set) and whose captures succeed, with
    an agent whose every response carries a tool invocation, the loop
    runs exactly 20 rounds (20 exchanges with the agent) and then raises
    the error 'Maximum iterations (20) reached', on both backends and
    whether or not the requested actions themselves succeed; it does
    not report success. *)
Theorem loop_stops_at_cap (E : Env) (options : gmap string JsVal)
    (instruction : string) (w : World) :
  (forall j, uses_tool E j) ->
  (container_captures E -> container w = true ->
     exists w',
       ComputerUse.runClaudeWithComputerUse E options instruction w
       = (Throw "Maximum iterations (20) reached", w')
       /\ agent_calls w' = (agent_calls w + 20)%nat)
  /\ (page_captures E -> page w = true ->
     exists w',
       PuppeteerComputerUse.runClaudeWithComputerUse E options instruction w
       = (Throw "Maximum iterations (20) reached", w')
       /\ agent_calls w' = (agent_calls w + 20)%nat).
Proof.
  intros Hagent. split; intros Hcap Hready.
  - unfold ComputerUse.runClaudeWithComputerUse, runClaudeWithComputerUse, bind.
    destruct (docker_exhausts_on_captures E options instruction w Hcap Hagent Hready)
      as (w' & -> & _ & Hcalls).
    exists w'. split; [reflexivity | exact Hcalls].
  - unfold PuppeteerComputerUse.runClaudeWithComputerUse, runClaudeWithComputerUse, bind.
    destruct (page_exhausts_on_captures E options instruction w Hcap Hagent Hready)
      as (w' & -> & _ & Hcalls).
    exists w'. split; [reflexivity | exact Hcalls].
Qed.

Lemma loop_stops_at_cap_witness :
  (exists w',
     ComputerUse.runClaudeWithComputerUse
       (scripted exec_no_pointer answer_refuses agent_clicks) ∅ "open the cart" with_container
     = (Throw "Maximum iterations (20) reached", w')
     /\ agent_calls w' = 20%nat)
  /\ (exists w',
     PuppeteerComputerUse.runClaudeWithComputerUse
       (scripted exec_no_pointer answer_refuses agent_clicks) ∅ "open the cart" with_page
     = (Throw "Maximum iterations (20) reached", w')
     /\ agent_calls w' = 20%nat).
Proof.
  split.
  - apply (proj1 (loop_stops_at_cap
                    (scripted exec_no_pointer answer_refuses agent_clicks) ∅ "open the cart"
                    with_container (agent_clicks_uses_tool exec_no_pointer answer_refuses))).
    + apply no_pointer_captures.
    + reflexivity.
  - apply (proj2 (loop_stops_at_cap
                    (scripted exec_no_pointer answer_refuses agent_clicks) ∅ "open the cart"
                    with_page (agent_clicks_uses_tool exec_no_pointer answer_refuses))).
    + apply scripted_page_captures.
    + reflexivity.
Defined.

(** C8 (as stated, refuted). The agent asks for a click at (640, 360)
    in round 1 and answers round 2 without a tool: the conversation the
    loop has built holds 3 turns, not 4, on both backends. *)
Lemma conversation_has_three_turns :
  (exists conv w',
     run_loop (scripted exec_ok answer_ok (agent_until 2))
       (ComputerUse.backend (scripted exec_ok answer_ok (agent_until 2)) ∅)
       "click the logo" with_container
     = (Ok (mkLoopResult 2 true, conv), w')
     /\ length conv = 3%nat /\ length conv <> 4%nat)
  /\ (exists conv w',
     run_loop (scripted exec_ok answer_ok (agent_until 2))
       (PuppeteerComputerUse.backend (scripted exec_ok answer_ok (agent_until 2)) ∅)
       "click the logo" with_page
     = (Ok (mkLoopResult 2 true, conv), w')
     /\ length conv = 3%nat /\ length conv <> 4%nat).
Proof.
  split; eexists _, _;
    (split; [vm_compute; reflexivity | split; [reflexivity | discriminate]]).
Qed.

(** C8 (amended). When the agent asks for a tool in round 1 and answers
    round 2 without one, the conversation built by the loop holds
    exactly 3 turns: the instruction, the agent turn carrying the tool
    invocation, and a user turn whose tool result echoes the identifier
    of that invocation.  The agent's completion response is not
    appended. *)
Theorem conversation_after_one_tool (E : Env) (options : gmap string JsVal)
    (instruction : string) (w : World) :
  uses_tool E 1 -> declares_completion E 2 ->
  (container_healthy E -> container w = true ->
     exists bs id name input text w',
       run_loop E (ComputerUse.backend E options) instruction w
       = (Ok (mkLoopResult 2 true,
              [ mkMessage user (plain (ComputerUse.instructionPrompt options instruction));
                mkMessage assistant (blocks bs);
                mkMessage user (blocks [tool_result id text]) ]), w')
       /\ find_tool_use bs = Some (id, name, input))
  /\ (browser_healthy E -> page w = true ->
     exists bs id name input text w',
       run_loop E (PuppeteerComputerUse.backend E options) instruction w
       = (Ok (mkLoopResult 2 true,
              [ mkMessage user
                  (plain (PuppeteerComputerUse.instructionPrompt options instruction));
                mkMessage assistant (blocks bs);
                mkMessage user (blocks [tool_result id text]) ]), w')
       /\ find_tool_use bs = Some (id, name, input)).
Proof.
  intros Htool Hdone. split; intros Hh Hready.
  - now apply docker_two_rounds.
  - now apply page_two_rounds.
Qed.

Lemma conversation_after_one_tool_witness :
  (exists bs id name input text w',
     run_loop (scripted exec_ok answer_ok (agent_until 2))
       (ComputerUse.backend (scripted exec_ok answer_ok (agent_until 2)) ∅)
       "click the logo" with_container
     = (Ok (mkLoopResult 2 true,
            [ mkMessage user (plain (ComputerUse.instructionPrompt ∅ "click the logo"));
              mkMessage assistant (blocks bs);
              mkMessage user (blocks [tool_result id text]) ]), w')
     /\ find_tool_use bs = Some (id, name, input))
  /\ (exists bs id name input text w',
     run_loop (scripted exec_ok answer_ok (agent_until 2))
       (PuppeteerComputerUse.backend (scripted exec_ok answer_ok (agent_until 2)) ∅)
       "click the logo" with_page
     = (Ok (mkLoopResult 2 true,
            [ mkMessage user
                (plain (PuppeteerComputerUse.instructionPrompt ∅ "click the logo"));
              mkMessage assistant (blocks bs);
              mkMessage user (blocks [tool_result id text]) ]), w')
     /\ find_tool_use bs = Some (id, name, input)).
Proof.
  split.
  - apply (proj1 (conversation_after_one_tool
                    (scripted exec_ok answer_ok (agent_until 2)) ∅ "click the logo"
                    with_container
                    (agent_until_uses_tool exec_ok answer_ok 2 1 (Nat.lt_succ_diag_r 1))
                    (agent_until_declares exec_ok answer_ok 2))).
    + apply scripted_container_healthy.
    + reflexivity.
  - apply (proj2 (conversation_after_one_tool
                    (scripted exec_ok answer_ok (agent_until 2)) ∅ "click the logo"
                    with_page
                    (agent_until_uses_tool exec_ok answer_ok 2 1 (Nat.lt_succ_diag_r 1))
                    (agent_until_declares exec_ok answer_ok 2))).
    + apply scripted_browser_healthy.
    + reflexivity.
Defined.

(** ** Provisioning *)

Lemma run_setup_total E (commands : list string) (w : World) :
  exists w', DockerManager.run_setup E commands w = (Ok tt, w').
Proof.
  revert w. induction commands as [|command rest IH]; intros w.
  - eexists; reflexivity.
  - cbn [DockerManager.run_setup]. unfold bind at 1. unfold try_catch, bind.
    destruct (DockerManager.execute E command w) as [[out|e] w1]; apply IH.
Qed.

(** C5 (as stated, refuted). Every provisioning command works except the
    display-readiness check, which exits with status 1: [initialize]
    still succeeds. *)
Lemma readiness_failure_tolerated :
  fst (DockerManager.execute (scripted exec_no_display answer_ok agent_done)
         readiness_check with_container)
  = Throw "Command failed with exit code 1: xdpyinfo:  unable to open display"
  /\ last DockerManager.setupCommands = Some readiness_check
  /\ fst (DockerManager.initialize (scripted exec_no_display answer_ok agent_done)
            "test-1" initial) = Ok tt.
Proof. repeat split; vm_compute; reflexivity. Qed.

(** C5 (amended). [initialize] fails with an initialization error exactly
    when creating or starting the container fails.  The provisioning
    commands, the final display-readiness check included, run inside a
    [try] whose [catch] only logs, so their outcome, which is read from
    [container_exec], has no part in the result. *)
Theorem initialize_outcome (E : Env) (testId : string) (w : World) :
  let pulled :=
    emit (DockerPull "ubuntu:22.04")
         (is_ok (respond E (trace w) (DockerPull "ubuntu:22.04"))) w in
  let created := respond E (trace pulled) (CreateContainer (DockerManager.containerName testId)) in
  let started :=
    respond E (trace (emit (CreateContainer (DockerManager.containerName testId)) true pulled))
            ContainerStart in
  fst (DockerManager.initialize E testId w)
  = match created, started with
    | Throw e, _ => Throw ("Failed to initialize Docker container: " +:+ e)
    | Ok _, Throw e => Throw ("Failed to initialize Docker container: " +:+ e)
    | Ok _, Ok _ => Ok tt
    end.
Proof.
  intros pulled created started. subst pulled created started.
  unfold DockerManager.initialize, DockerManager.setupContainerEnvironment,
    try_catch, bind, call, modify, ret, throw.
  destruct (respond E (trace w) (DockerPull "ubuntu:22.04")) as [[]|e0];
    cbn [is_ok fst snd emit set_trace set_container trace].
  all: destruct (respond E _ (CreateContainer _)) as [[]|e1];
    cbn [is_ok fst snd emit set_trace set_container trace]; try reflexivity.
  all: destruct (respond E _ ContainerStart) as [[]|e2];
    cbn [is_ok fst snd emit set_trace set_container trace]; try reflexivity.
  all: match goal with
       | |- context [DockerManager.run_setup ?env ?c ?w0] =>
           destruct (run_setup_total env c w0) as [w' ->]
       end; reflexivity.
Qed.

(** ** Tool dispatch *)

Lemma known_action_false (action : option string) :
  known_action action = false ->
  is_str action "screenshot" = false /\ is_str action "click" = false
  /\ is_str action "type" = false /\ is_str action "key" = false
  /\ is_str action "scroll" = false.
Proof.
  unfold known_action. intros H.
  repeat (apply orb_false_iff in H; destruct H as [H ?]). auto.
Qed.

Lemma docker_unknown_action E options (input : ToolInput) (w : World) :
  known_action (in_action input) = false ->
  ComputerUse.handleComputerAction E options input w
  = (Throw ("Unknown computer action: " +:+ render_str (in_action input)), w).
Proof.
  intros H. apply known_action_false in H as (H1 & H2 & H3 & H4 & H5).
  unfold ComputerUse.handleComputerAction. rewrite H1, H2, H3, H4, H5. reflexivity.
Qed.

Lemma page_unknown_action E options (input : ToolInput) (w : World) :
  known_action (in_action input) = false ->
  PuppeteerComputerUse.handleComputerAction E options input w
  = (Throw ("Unknown computer action: " +:+ render_str (in_action input)), w).
Proof.
  intros H. apply known_action_false in H as (H1 & H2 & H3 & H4 & H5).
  unfold PuppeteerComputerUse.handleComputerAction. rewrite H1, H2, H3, H4, H5.
  reflexivity.
Qed.

(** Whatever the tool does, the round that dispatched it appends the
    agent turn and the tool-result turn and continues. *)
Lemma round_feeds_result_back (E : Env) (B : Backend)
    (iteration : nat) (msgs : list Message) (w w1 : World) (shot : string)
    (bs : list Block) (id name : string) (input : ToolInput) :
  (forall w0, is_ok (fst (executeComputerUseTool name input w0)) = true) ->
  takeScreenshotForClaude w = (Ok shot, w1) ->
  messages_create E (trace w1)
    (mkRequest "claude-sonnet-4-20250514" 4096 getComputerUseTools
       (exchange iteration shot msgs)) = Ok bs ->
  find_tool_use bs = Some (id, name, input) ->
  exists text w',
    round E B iteration msgs w
    = (Ok (Continue (msgs ++ [ mkMessage assistant (blocks bs);
                               mkMessage user (blocks [tool_result id text]) ])), w').
Proof.
  intros Htotal Hshot Hagent Hfind. unfold round, bind. rewrite Hshot.
  unfold create at 1. rewrite Hagent, Hfind. cbn [is_ok].
  match goal with
  | |- context [match find_text bs with _ => _ end ?w2] =>
      assert (Hlog : exists w3,
        match find_text bs with
        | Some textContent => addLog E ("Claude: " +:+ textContent)
        | None => ret tt
        end w2 = (Ok tt, w3)) by (destruct (find_text bs); eexists; reflexivity)
  end.
  destruct Hlog as [w3 ->].
  specialize (Htotal w3).
  destruct (executeComputerUseTool name input w3) as [[text|e] w4]; [|discriminate].
  eexists _, _. reflexivity.
Qed.

(** C4 (as stated, refuted). The daemon refuses to start the command of
    a [bash] invocation: the text handed back is the bash handler's own
    ['Error executing command: ...'], which is not of the form
    ['Error: ...']. *)
Lemma bash_failure_text :
  fst (DockerManager.execute (scripted exec_refused answer_ok agent_done)
         "export DISPLAY=:99 && ls" with_container)
  = Throw ("Failed to execute command " +:+ dquote +:+ "export DISPLAY=:99 && ls"
           +:+ dquote +:+ ": socket hang up")
  /\ exists text,
      fst (ComputerUse.executeComputerUseTool
             (scripted exec_refused answer_ok agent_done) ∅ "bash" bash_ls with_container)
      = Ok text
      /\ text = "Error executing command: Failed to execute command " +:+ dquote
                +:+ "export DISPLAY=:99 && ls" +:+ dquote +:+ ": socket hang up"
      /\ String.prefix "Error: " text = false.
Proof.
  split; [vm_compute; reflexivity|].
  eexists. split; [vm_compute; reflexivity|]. split; vm_compute; reflexivity.
Qed.

(** C4 (amended). [executeComputerUseTool] always returns a text and
    never throws, on both backends.  An unknown tool name, an unknown
    action name and any error thrown by [handleComputerAction] come back
    as ['Error: ' + message]; a failing command of the container
    backend's [bash] tool comes back as
    ['Error executing command: ' + message].  The round that dispatched
    the invocation feeds the text back as the tool result and the loop
    continues. *)
Theorem tool_errors_are_text (E : Env) (options : gmap string JsVal)
    (name : string) (input : ToolInput) (w : World) :
  (exists text, fst (ComputerUse.executeComputerUseTool E options name input w) = Ok text)
  /\ (exists text,
       fst (PuppeteerComputerUse.executeComputerUseTool E options name input w) = Ok text)
  /\ (String.eqb name "computer" || String.eqb name "bash"
      || String.eqb name "text_editor" = false ->
      fst (ComputerUse.executeComputerUseTool E options name input w)
      = Ok ("Error: Unknown tool: " +:+ name))
  /\ (String.eqb name "computer" = false ->
      fst (PuppeteerComputerUse.executeComputerUseTool E options name input w)
      = Ok ("Error: Unknown tool: " +:+ name))
  /\ (known_action (in_action input) = false ->
      fst (ComputerUse.executeComputerUseTool E options "computer" input w)
      = Ok ("Error: Unknown computer action: " +:+ render_str (in_action input))
      /\ fst (PuppeteerComputerUse.executeComputerUseTool E options "computer" input w)
         = Ok ("Error: Unknown computer action: " +:+ render_str (in_action input)))
  /\ (forall e,
      fst (ComputerUse.handleComputerAction E options input w) = Throw e ->
      fst (ComputerUse.executeComputerUseTool E options "computer" input w)
      = Ok ("Error: " +:+ e))
  /\ (forall e,
      fst (PuppeteerComputerUse.handleComputerAction E options input w) = Throw e ->
      fst (PuppeteerComputerUse.executeComputerUseTool E options "computer" input w)
      = Ok ("Error: " +:+ e))
  /\ (forall e,
      fst (DockerManager.execute E ("export DISPLAY=:99 && " +:+ render_str (in_command input))
             (snd (addLog E ("Executing bash: " +:+ render_str (in_command input)) w)))
      = Throw e ->
      fst (ComputerUse.executeComputerUseTool E options "bash" input w)
      = Ok ("Error executing command: " +:+ e))
  /\ (forall iteration msgs shot w1 bs id,
      takeScreenshotForClaude (Backend := ComputerUse.backend E options) w = (Ok shot, w1) ->
      messages_create E (trace w1)
        (mkRequest "claude-sonnet-4-20250514" 4096 (ComputerUse.getComputerUseTools)
           (exchange iteration shot msgs)) = Ok bs ->
      find_tool_use bs = Some (id, name, input) ->
      exists text w',
        round E (ComputerUse.backend E options) iteration msgs w
        = (Ok (Continue (msgs ++ [ mkMessage assistant (blocks bs);
                                   mkMessage user (blocks [tool_result id text]) ])), w'))
  /\ (forall iteration msgs shot w1 bs id,
      takeScreenshotForClaude (Backend := PuppeteerComputerUse.backend E options) w
      = (Ok shot, w1) ->
      messages_create E (trace w1)
        (mkRequest "claude-sonnet-4-20250514" 4096 (PuppeteerComputerUse.getComputerUseTools)
           (exchange iteration shot msgs)) = Ok bs ->
      find_tool_use bs = Some (id, name, input) ->
      exists text w',
        round E (PuppeteerComputerUse.backend E options) iteration msgs w
        = (Ok (Continue (msgs ++ [ mkMessage assistant (blocks bs);
                                   mkMessage user (blocks [tool_result id text]) ])), w')).
Proof.
  split.
  { pose proof (docker_tool_total E options name input w) as H.
    destruct (fst _) as [text|e]; [eauto | discriminate]. }
  split.
  { pose proof (page_tool_total E options name input w) as H.
    destruct (fst _) as [text|e]; [eauto | discriminate]. }
  split.
  { intros H. repeat (apply orb_false_iff in H; destruct H as [H ?]).
    unfold ComputerUse.executeComputerUseTool. rewrite H, H0, H1. reflexivity. }
  split.
  { intros H. unfold PuppeteerComputerUse.executeComputerUseTool. rewrite H.
    reflexivity. }
  split.
  { intros H. split.
    - unfold ComputerUse.executeComputerUseTool, try_catch. cbn [String.eqb Ascii.eqb Bool.eqb].
      rewrite (docker_unknown_action E options input w H). reflexivity.
    - unfold PuppeteerComputerUse.executeComputerUseTool, try_catch.
      cbn [String.eqb Ascii.eqb Bool.eqb].
      rewrite (page_unknown_action E options input w H). reflexivity. }
  split.
  { intros e H. unfold ComputerUse.executeComputerUseTool, try_catch.
    cbn [String.eqb Ascii.eqb Bool.eqb].
    destruct (ComputerUse.handleComputerAction E options input w) as [r w'].
    cbn [fst] in H. subst r. reflexivity. }
  split.
  { intros e H. unfold PuppeteerComputerUse.executeComputerUseTool, try_catch.
    cbn [String.eqb Ascii.eqb Bool.eqb].
    destruct (PuppeteerComputerUse.handleComputerAction E options input w) as [r w'].
    cbn [fst] in H. subst r. reflexivity. }
  split.
  { intros e H. unfold ComputerUse.executeComputerUseTool, try_catch.
    cbn [String.eqb Ascii.eqb Bool.eqb].
    unfold ComputerUse.handleBashAction, bind, try_catch.
    unfold addLog at 1, modify at 1. unfold addLog, modify in H. cbn [snd] in H.
    destruct (DockerManager.execute E _ _) as [r w'].
    cbn [fst] in H. subst r. reflexivity. }
  split.
  { intros iteration msgs shot w1 bs id Hshot Hagent Hfind.
    eapply round_feeds_result_back; eauto.
    intros w0. apply docker_tool_total. }
  { intros iteration msgs shot w1 bs id Hshot Hagent Hfind.
    eapply round_feeds_result_back; eauto.
    intros w0. apply page_tool_total. }
Qed.

Lemma tool_errors_are_text_witness :
  fst (ComputerUse.executeComputerUseTool
         (scripted exec_refused answer_ok agent_done) ∅ "browser" bash_ls with_container)
  = Ok "Error: Unknown tool: browser"
  /\ fst (PuppeteerComputerUse.executeComputerUseTool
            (scripted exec_refused answer_ok agent_done) ∅ "computer" bash_ls with_page)
     = Ok "Error: Unknown computer action: undefined".
Proof.
  split.
  - apply (proj1 (proj2 (proj2 (tool_errors_are_text
             (scripted exec_refused answer_ok agent_done) ∅ "browser" bash_ls
             with_container)))).
    reflexivity.
  - apply (proj1 (proj2 (proj2 (proj2 (proj2 (tool_errors_are_text
             (scripted exec_refused answer_ok agent_done) ∅ "computer" bash_ls
             with_page)))))).
    reflexivity.
Defined.

(** ** Coordinates *)

(** C6 (as stated, refuted). A click at (5000, -7), outside the
    1280x720 display, is actuated by both adapters and reported as a
    success. *)
Lemma click_outside_display_is_actuated :
  (display_width < 5000)%Z /\ (-7 < 0)%Z
  /\ (let r := ComputerUse.executeComputerUseTool
                (scripted exec_ok answer_ok agent_done) ∅ "computer"
                (click_at 5000 (-7)) with_container in
      fst r = Ok "Clicked at (5000, -7)"
      /\ trace (snd r)
         = [ (ContainerExec "export DISPLAY=:99 && xdotool mousemove 5000 -7 click 1", true);
             (Sleep 1000, true) ])
  /\ (let r := PuppeteerComputerUse.executeComputerUseTool
                (scripted exec_ok answer_ok agent_done) ∅ "computer"
                (click_at 5000 (-7)) with_page in
      fst r = Ok "Clicked at (5000, -7)"
      /\ trace (snd r)
         = [ (MouseClick (Some 5000%Z) (Some (-7)%Z), true); (Sleep 1000, true) ]).
Proof. repeat split; vm_compute; reflexivity. Qed.

(** C6 (amended). The adapters do not validate coordinates: for every
    pair of integers received in a click invocation, the container
    adapter runs the pointer command with exactly these numbers and the
    process adapter clicks at exactly these numbers.  The display
    dimensions only appear in the tool description sent to the agent. *)
Theorem click_coordinates_are_forwarded (E : Env) (options : gmap string JsVal)
    (x y : Z) (w : World) :
  (container w = true ->
     exists ok rest,
       trace (snd (ComputerUse.handleComputerAction E options (click_at x y) w))
       = trace w
         ++ (ContainerExec ("export DISPLAY=:99 && xdotool mousemove "
                            +:+ pretty x +:+ " " +:+ pretty y +:+ " click 1"), ok)
            :: rest)
  /\ (page w = true ->
     exists ok rest,
       trace (snd (PuppeteerComputerUse.handleComputerAction E options (click_at x y) w))
       = trace w ++ (MouseClick (Some x) (Some y), ok) :: rest)
  /\ display_px <$> ComputerUse.getComputerUseTools
     = [Some (display_width, display_height); None; None]
  /\ display_px <$> PuppeteerComputerUse.getComputerUseTools
     = [Some (display_width, display_height)].
Proof.
  split; [|split; [|split; reflexivity]].
  - intros Hc. unfold ComputerUse.handleComputerAction.
    cbn [click_at in_action in_coordinate is_str String.eqb Ascii.eqb Bool.eqb
         lookup list_lookup render_num].
    unfold bind at 1. unfold DockerManager.execute. rewrite Hc. cbn [negb].
    destruct (is_ok _) eqn:Hok.
    + match goal with
      | |- context [match ?r with Ok _ => _ | Throw _ => _ end] =>
          destruct r as [out|e]; [|discriminate Hok]
      end.
      eexists _, _. unfold bind, addLog, sleep, modify, ret.
      cbn [snd trace emit set_trace set_log]. rewrite <- app_assoc. reflexivity.
    + match goal with
      | |- context [match ?r with Ok _ => _ | Throw _ => _ end] =>
          destruct r as [out|e]; [discriminate Hok|]
      end.
      eexists _, _. cbn [snd trace emit set_trace]. reflexivity.
  - intros Hp. unfold PuppeteerComputerUse.handleComputerAction.
    cbn [click_at in_action in_coordinate is_str String.eqb Ascii.eqb Bool.eqb
         lookup list_lookup].
    unfold bind at 1. unfold PuppeteerComputerUse.on_page. rewrite Hp.
    unfold call.
    destruct (respond E (trace w) (MouseClick (Some x) (Some y))) as [[]|e].
    + eexists _, _. unfold bind, addLog, sleep, modify, ret.
      cbn [snd trace emit set_trace set_log is_ok]. rewrite <- app_assoc. reflexivity.
    + eexists _, _. cbn [snd trace emit set_trace is_ok]. reflexivity.
Qed.

Lemma click_coordinates_are_forwarded_witness :
  (exists ok rest,
     trace (snd (ComputerUse.handleComputerAction
                   (scripted exec_ok answer_ok agent_done) ∅ (click_at 5000 (-7))
                   with_container))
     = [] ++ (ContainerExec "export DISPLAY=:99 && xdotool mousemove 5000 -7 click 1", ok)
             :: rest)
  /\ (exists ok rest,
     trace (snd (PuppeteerComputerUse.handleComputerAction
                   (scripted exec_ok answer_ok agent_done) ∅ (click_at 5000 (-7))
                   with_page))
     = [] ++ (MouseClick (Some 5000%Z) (Some (-7)%Z), ok) :: rest).
Proof.
  split.
  - apply (proj1 (click_coordinates_are_forwarded
                    (scripted exec_ok answer_ok agent_done) ∅ 5000 (-7) with_container)).
    reflexivity.
  - apply (proj1 (proj2 (click_coordinates_are_forwarded
                    (scripted exec_ok answer_ok agent_done) ∅ 5000 (-7) with_page))).
    reflexivity.
Defined.

(** ** The screenshot trail *)

Section DockerTrail.
Context (E : Env) (options : gmap string JsVal).
Hypothesis healthy : container_healthy E.

Lemma docker_capture_healthy (label : string) (w : World) :
  takeScreenshots options = true -> container w = true ->
  exists shot w',
    ComputerUse.captureScreenshot E options label w = (Ok (Some shot), w')
    /\ handles w' = handles w
    /\ screenshots w' = screenshots w ++ [shot] /\ step shot = label.
Proof.
  intros Hts Hc. unfold ComputerUse.captureScreenshot. rewrite Hts. cbn [negb].
  unfold try_catch, bind.
  destruct (docker_shot_healthy E w healthy Hc) as (data & w1 & -> & Hh & Hs & _).
  unfold get, modify, addLog, ret. cbn.
  eexists _, _. split; [reflexivity|]. cbn. rewrite Hs. repeat split.
  exact Hh.
Qed.

Lemma docker_navigate_healthy (w : World) :
  container w = true ->
  exists w',
    ComputerUse.navigateToWebsite E options w = (Ok tt, w')
    /\ handles w' = handles w
    /\ labels (screenshots w')
       = labels (screenshots w)
         ++ (if takeScreenshots options
             then ["Navigated to " +:+ websiteUrl options] else []).
Proof.
  intros Hc. unfold ComputerUse.navigateToWebsite.
  unfold bind at 1. unfold addLog at 1, modify at 1.
  unfold try_catch. unfold bind at 1.
  match goal with |- context [DockerManager.execute E ?c ?w0] =>
    destruct (execute_healthy E c w0 healthy Hc) as [out ->] end.
  unfold bind at 1.
  destruct (takeScreenshots options) eqn:Hts.
  - unfold bind at 1.
    match goal with |- context [ComputerUse.captureScreenshot E options ?l ?w0] =>
      destruct (docker_capture_healthy l w0 Hts Hc) as (shot & w1 & -> & Hh & Hs & Hl) end.
    unfold ret, addLog, modify. cbn.
    eexists. split; [reflexivity|]. cbn. split; [exact Hh|].
    rewrite Hs. unfold labels. rewrite fmap_app. cbn. now rewrite Hl.
  - unfold ret, addLog, modify. cbn.
    eexists. split; [reflexivity|]. cbn. split; [reflexivity|].
    now rewrite app_nil_r.
Qed.

Lemma docker_execute_first_round (instruction : string) (w : World) :
  declares_completion E 1 -> container w = true ->
  exists ex w',
    ComputerUse.execute E options instruction w = (Ok ex, w')
    /\ ex_result ex = mkLoopResult 1 true
    /\ labels (ex_screenshots ex)
       = labels (screenshots w)
         ++ (if takeScreenshots options
             then ["Initial state"; "Navigated to " +:+ websiteUrl options] else []).
Proof.
  intros Hdone Hc. unfold ComputerUse.execute.
  unfold bind at 1. unfold addLog at 1, modify at 1.
  unfold try_catch. unfold bind at 1.
  assert (Hfirst : exists w1,
    (if takeScreenshots options
     then ComputerUse.captureScreenshot E options "Initial state" ;;; ret tt
     else ret tt)
      (set_log
         (log w +:+ "[" +:+ toISOString E (Date_now E (trace w)) +:+ "] "
          +:+ ("Starting execution: " +:+ instruction) +:+ nl) w)
    = (Ok tt, w1)
    /\ container w1 = true
    /\ labels (screenshots w1)
       = labels (screenshots w)
         ++ (if takeScreenshots options then ["Initial state"] else [])).
  { destruct (takeScreenshots options) eqn:Hts.
    - unfold bind.
      match goal with |- context [ComputerUse.captureScreenshot E options ?l ?w0] =>
        destruct (docker_capture_healthy l w0 Hts Hc) as (shot & w1 & -> & Hh & Hs & Hl) end.
      eexists. split; [reflexivity|]. split.
      + unfold handles in Hh. cbn in Hh. congruence.
      + rewrite Hs. unfold labels. rewrite fmap_app. cbn. now rewrite Hl.
    - eexists. split; [reflexivity|]. split; [exact Hc|]. now rewrite app_nil_r. }
  destruct Hfirst as (w1 & -> & Hc1 & L1).
  unfold bind at 1.
  destruct (docker_navigate_healthy w1 Hc1) as (w2 & -> & Hh2 & L2).
  assert (Hc2 : container w2 = true) by (unfold handles in Hh2; congruence).
  unfold bind at 1.
  unfold ComputerUse.runClaudeWithComputerUse, runClaudeWithComputerUse. unfold bind at 1.
  destruct (docker_completes E options healthy 1 instruction w2)
    as (msgs' & w3 & -> & _ & _ & _ & Hsame); try assumption;
    [unfold maxIterations; lia | intros j Hj; lia |].
  destruct (Hsame eq_refl) as [_ S3].
  cbn [Nat.ltb Nat.leb maxIterations ret fst].
  unfold bind, addLog, modify, get, ret. cbn.
  eexists _, _. split; [reflexivity|]. cbn. split; [reflexivity|].
  change (step <$> screenshots w3) with (labels (screenshots w3)).
  rewrite S3, L2, L1. rewrite <- app_assoc.
  destruct (takeScreenshots options); reflexivity.
Qed.

End DockerTrail.

Section PageTrail.
Context (E : Env) (options : gmap string JsVal).
Hypothesis healthy : browser_healthy E.

Lemma initializeBrowser_healthy (w : World) :
  exists w',
    PuppeteerComputerUse.initializeBrowser E w = (Ok tt, w')
    /\ browser w' = true /\ page w' = true
    /\ screenshots w' = screenshots w.
Proof.
  destruct healthy as [Hcalls _].
  unfold PuppeteerComputerUse.initializeBrowser, try_catch, bind, call, addLog, modify, ret.
  cbn [trace set_log set_browser set_page emit set_trace].
  rewrite !Hcalls. cbn.
  eexists. split; [reflexivity|]. repeat split.
Qed.

Lemma page_capture_healthy (label : string) (w : World) :
  takeScreenshots options = true -> page w = true -> browser w = true ->
  exists shot w',
    PuppeteerComputerUse.captureScreenshot E options label w = (Ok (Some shot), w')
    /\ handles w' = handles w
    /\ screenshots w' = screenshots w ++ [shot] /\ step shot = label.
Proof.
  intros Hts Hp Hb. unfold PuppeteerComputerUse.captureScreenshot.
  rewrite Hts, Hp, Hb. cbn [negb orb].
  unfold try_catch, bind.
  destruct (page_shot_healthy E w healthy Hp) as (data & ->).
  unfold get, modify, addLog, ret. cbn.
  eexists _, _. split; [reflexivity|]. cbn. repeat split.
Qed.

Lemma page_navigate_healthy (w : World) :
  page w = true -> browser w = true ->
  exists w',
    PuppeteerComputerUse.navigateToWebsite E options w = (Ok tt, w')
    /\ handles w' = handles w
    /\ labels (screenshots w')
       = labels (screenshots w)
         ++ (if takeScreenshots options
             then ["Navigated to " +:+ websiteUrl options] else []).
Proof.
  intros Hp Hb. unfold PuppeteerComputerUse.navigateToWebsite.
  unfold bind at 1. unfold addLog at 1, modify at 1.
  unfold try_catch. unfold bind at 1.
  unfold PuppeteerComputerUse.on_page at 1. cbn [page set_log]. rewrite Hp.
  unfold call at 1. rewrite (proj1 healthy). cbn [is_ok].
  unfold bind at 1.
  destruct (takeScreenshots options) eqn:Hts.
  - unfold bind at 1.
    match goal with
    | |- context [PuppeteerComputerUse.captureScreenshot E options ?l ?w0] =>
        destruct (page_capture_healthy l w0 Hts Hp Hb)
          as (shot & w1 & -> & Hh & Hs & Hl)
    end.
    unfold ret, addLog, modify. cbn.
    eexists. split; [reflexivity|]. cbn. split; [exact Hh|].
    rewrite Hs. unfold labels. rewrite fmap_app. cbn. now rewrite Hl.
  - unfold ret, addLog, modify. cbn.
    eexists. split; [reflexivity|]. cbn. split; [reflexivity|].
    now rewrite app_nil_r.
Qed.

Lemma page_cleanup_healthy (w : World) :
  exists w', PuppeteerComputerUse.cleanup E w = (Ok tt, w').
Proof.
  unfold PuppeteerComputerUse.cleanup. destruct (browser w); [|eexists; reflexivity].
  unfold try_catch, bind, call. rewrite (proj1 healthy).
  eexists. reflexivity.
Qed.

Lemma page_execute_first_round (instruction : string) (w : World) :
  declares_completion E 1 ->
  exists ex w',
    PuppeteerComputerUse.execute E options instruction w = (Ok ex, w')
    /\ ex_result ex = mkLoopResult 1 true
    /\ labels (ex_screenshots ex)
       = labels (screenshots w)
         ++ (if takeScreenshots options
             then ["Navigated to " +:+ websiteUrl options; "Initial state"] else []).
Proof.
  intros Hdone. unfold PuppeteerComputerUse.execute.
  unfold bind at 1. unfold addLog at 1, modify at 1.
  unfold try_finally, try_catch. unfold bind at 1.
  match goal with
  | |- context [PuppeteerComputerUse.initializeBrowser E ?w0] =>
      destruct (initializeBrowser_healthy w0) as (w1 & -> & Hb1 & Hp1 & S1)
  end.
  unfold bind at 1.
  destruct (page_navigate_healthy w1 Hp1 Hb1) as (w2 & -> & Hh2 & L2).
  assert (Hp2 : page w2 = true) by (unfold handles in Hh2; congruence).
  assert (Hb2 : browser w2 = true) by (unfold handles in Hh2; congruence).
  unfold bind at 1.
  assert (Hinitial : exists w3,
    (if takeScreenshots options
     then PuppeteerComputerUse.captureScreenshot E options "Initial state" ;;; ret tt
     else ret tt) w2 = (Ok tt, w3)
    /\ page w3 = true
    /\ labels (screenshots w3)
       = labels (screenshots w2)
         ++ (if takeScreenshots options then ["Initial state"] else [])).
  { destruct (takeScreenshots options) eqn:Hts.
    - unfold bind.
      destruct (page_capture_healthy "Initial state" w2 Hts Hp2 Hb2)
        as (shot & w3 & -> & Hh & Hs & Hl).
      eexists. split; [reflexivity|]. split.
      + unfold handles in Hh. congruence.
      + rewrite Hs. unfold labels. rewrite fmap_app. cbn. now rewrite Hl.
    - eexists. split; [reflexivity|]. split; [exact Hp2|]. now rewrite app_nil_r. }
  destruct Hinitial as (w3 & -> & Hp3 & L3).
  unfold bind at 1.
  unfold PuppeteerComputerUse.runClaudeWithComputerUse, runClaudeWithComputerUse.
  unfold bind at 1.
  destruct (page_completes E options healthy 1 instruction w3)
    as (msgs' & w4 & -> & _ & _ & _ & Hsame); try assumption;
    [unfold maxIterations; lia | intros j Hj; lia |].
  destruct (Hsame eq_refl) as [_ S4].
  cbn [Nat.ltb Nat.leb maxIterations ret fst].
  unfold bind at 1. unfold addLog at 1, modify at 1, get, ret.
  unfold bind at 1.
  match goal with
  | |- context [PuppeteerComputerUse.cleanup E ?w0] =>
      destruct (page_cleanup_healthy w0) as (w5 & ->)
  end.
  eexists _, _. split; [reflexivity|]. cbn. split; [reflexivity|].
  change (step <$> screenshots w4) with (labels (screenshots w4)).
  rewrite S4, L3, L2. rewrite <- app_assoc.
  unfold labels. rewrite S1. cbn.
  destruct (takeScreenshots options); reflexivity.
Qed.

End PageTrail.

(** C7 (as stated, refuted). With capture enabled and an agent that
    declares completion in round 1, the process backend records
    'Navigated to <site>' first and 'Initial state' second. *)
Lemma puppeteer_trail_order :
  exists ex w',
    PuppeteerComputerUse.execute (scripted exec_ok answer_ok agent_done) capture_enabled
      "take a screenshot of the homepage" initial = (Ok ex, w')
    /\ ex_result ex = mkLoopResult 1 true
    /\ labels (ex_screenshots ex) = ["Navigated to app.giftround.com"; "Initial state"]
    /\ labels (ex_screenshots ex) <> ["Initial state"; "Navigated to app.giftround.com"].
Proof.
  eexists _, _. split; [vm_compute; reflexivity|].
  split; [reflexivity|]. split; [reflexivity | discriminate].
Qed.

(** C7 (amended). On a cooperative backend with a fresh trail, when the
    agent declares completion in round 1 the run succeeds with
    [iterations = 1]; with capture enabled the trail holds exactly two
    entries, 'Initial state' then 'Navigated to <site>' on the container
    backend and 'Navigated to <site>' then 'Initial state' on the
    process backend; with capture disabled it is empty. *)
Theorem trail_after_immediate_completion (E : Env) (options : gmap string JsVal)
    (instruction : string) (w : World) :
  declares_completion E 1 -> screenshots w = [] ->
  (container_healthy E -> container w = true ->
     exists ex w',
       ComputerUse.execute E options instruction w = (Ok ex, w')
       /\ ex_result ex = mkLoopResult 1 true
       /\ labels (ex_screenshots ex)
          = if takeScreenshots options
            then ["Initial state"; "Navigated to " +:+ websiteUrl options] else [])
  /\ (browser_healthy E ->
     exists ex w',
       PuppeteerComputerUse.execute E options instruction w = (Ok ex, w')
       /\ ex_result ex = mkLoopResult 1 true
       /\ labels (ex_screenshots ex)
          = if takeScreenshots options
            then ["Navigated to " +:+ websiteUrl options; "Initial state"] else []).
Proof.
  intros Hdone Hfresh. split.
  - intros Hh Hc.
    destruct (docker_execute_first_round E options Hh instruction w Hdone Hc)
      as (ex & w' & Hrun & Hres & Hl).
    exists ex, w'. rewrite Hfresh in Hl. auto.
  - intros Hh.
    destruct (page_execute_first_round E options Hh instruction w Hdone)
      as (ex & w' & Hrun & Hres & Hl).
    exists ex, w'. rewrite Hfresh in Hl. auto.
Qed.

Lemma agent_done_declares exec answer (k : nat) :
  declares_completion (scripted exec answer agent_done) k.
Proof. intros tr req _. eexists. split; reflexivity. Qed.

Lemma trail_after_immediate_completion_witness :
  (exists ex w',
     ComputerUse.execute (scripted exec_ok answer_ok agent_done) capture_enabled
       "take a screenshot of the homepage" with_container = (Ok ex, w')
     /\ ex_result ex = mkLoopResult 1 true
     /\ labels (ex_screenshots ex) = ["Initial state"; "Navigated to app.giftround.com"])
  /\ (exists ex w',
     PuppeteerComputerUse.execute (scripted exec_ok answer_ok agent_done) capture_disabled
       "take a screenshot of the homepage" initial = (Ok ex, w')
     /\ ex_result ex = mkLoopResult 1 true
     /\ labels (ex_screenshots ex) = []).
Proof.
  split.
  - apply (proj1 (trail_after_immediate_completion
                    (scripted exec_ok answer_ok agent_done) capture_enabled
                    "take a screenshot of the homepage" with_container
                    (agent_done_declares exec_ok answer_ok 1) eq_refl)).
    + apply scripted_container_healthy.
    + reflexivity.
  - apply (proj2 (trail_after_immediate_completion
                    (scripted exec_ok answer_ok agent_done) capture_disabled
                    "take a screenshot of the homepage" initial
                    (agent_done_declares exec_ok answer_ok 1) eq_refl)).
    apply scripted_browser_healthy.
Defined.

(** ** Set-up and teardown *)

Lemma lifecycle_emit (c : Call) (ok : bool) (w : World) :
  lifecycle (emit c ok w) = lifecycle w ++ (if lifecycle_call c then [(c, ok)] else []).
Proof.
  unfold lifecycle, emit. cbn [trace set_trace]. rewrite filter_app. f_equal.
  cbn [filter list_filter].
  destruct (decide (lifecycle_event (c, ok))) as [H|H];
    unfold lifecycle_event in H; cbn [fst] in H;
    destruct (lifecycle_call c); simpl in *; try reflexivity; tauto.
Qed.

Lemma backend_state_emit (c : Call) (ok : bool) (w : World) :
  lifecycle_call c = false -> backend_state (emit c ok w) = backend_state w.
Proof.
  intros Hc. unfold backend_state. rewrite lifecycle_emit, Hc, app_nil_r. reflexivity.
Qed.

Lemma backend_state_act (c : Call) (ok : bool) (w : World) :
  actuation c = true -> backend_state (emit c ok w) = backend_state w.
Proof. intros Hc. apply backend_state_emit. destruct c; try discriminate Hc; reflexivity. Qed.

Section RunsKeep.
Context {X : Type} (obs : World -> X).
Hypothesis obs_log : forall l w, obs (set_log l w) = obs w.
Hypothesis obs_shots : forall s w, obs (set_screenshots s w) = obs w.
Hypothesis obs_act : forall c ok w, actuation c = true -> obs (emit c ok w) = obs w.
Hypothesis obs_agent : forall req ok w, obs (emit (MessagesCreate req) ok w) = obs w.
Context (E : Env) (options : gmap string JsVal).

Lemma keeps_create (req : Request) : keeps obs (create E req).
Proof. intros w. apply obs_agent. Qed.

Section AnyBackend.
Context (B : Backend).
Hypothesis shot_keeps : keeps obs takeScreenshotForClaude.
Hypothesis tool_keeps : forall name input, keeps obs (executeComputerUseTool name input).

Lemma keeps_round (iteration : nat) (msgs : list Message) :
  keeps obs (round E B iteration msgs).
Proof.
  unfold round. keeps_auto; apply keeps_create.
Qed.

Lemma keeps_while_loop (remaining : nat) :
  forall iteration msgs, keeps obs (while_loop E B remaining iteration msgs).
Proof.
  induction remaining as [|remaining IH]; intros iteration msgs;
    cbn [while_loop]; keeps_auto.
  apply keeps_round.
Qed.

Lemma keeps_run_loop (instruction : string) : keeps obs (run_loop E B instruction).
Proof.
  unfold run_loop. keeps_auto. apply keeps_while_loop.
Qed.

Lemma keeps_runClaude (instruction : string) :
  keeps obs (runClaudeWithComputerUse E B instruction).
Proof. unfold runClaudeWithComputerUse. keeps_auto. apply keeps_run_loop. Qed.

End AnyBackend.

Lemma keeps_docker_execute (instruction : string) :
  keeps obs (ComputerUse.execute E options instruction).
Proof.
  unfold ComputerUse.execute. keeps_auto.
  - now apply keeps_docker_capture.
  - now apply keeps_docker_navigate.
  - apply keeps_runClaude.
    + now apply keeps_docker_shot.
    + intros; now apply keeps_docker_tool.
Qed.

Lemma keeps_errorState {A} (computerUse : option ExecutionMode) (e : string) :
  keeps obs (@Handler.errorState E A computerUse options e).
Proof.
  unfold Handler.errorState. keeps_auto.
  - now apply keeps_docker_capture.
  - now apply keeps_page_capture.
Qed.

End RunsKeep.

Ltac backend_state_obs :=
  first [ intros; reflexivity
        | intros; apply backend_state_act; assumption
        | intros; apply backend_state_emit; reflexivity ].

Lemma setup_keeps_backend E (commands : list string) :
  keeps backend_state (DockerManager.run_setup E commands).
Proof.
  induction commands as [|command rest IH]; cbn [DockerManager.run_setup].
  - apply keeps_ret.
  - repeat first [ apply keeps_bind; [|intros ?] | apply keeps_try_catch; [|intros ?]
                 | apply keeps_ret | exact IH
                 | apply keeps_execute; backend_state_obs ].
Qed.

Lemma initialize_backend E (testId : string) (w : World) :
  browser (snd (DockerManager.initialize E testId w)) = browser w
  /\ page (snd (DockerManager.initialize E testId w)) = page w
  /\ exists created,
      container (snd (DockerManager.initialize E testId w)) = (created || container w)
      /\ lifecycle (snd (DockerManager.initialize E testId w))
         = lifecycle w ++ [(CreateContainer (DockerManager.containerName testId), created)].
Proof.
  unfold DockerManager.initialize, DockerManager.setupContainerEnvironment,
    try_catch, bind, call, modify, ret, throw.
  destruct (respond E (trace w) (DockerPull "ubuntu:22.04")) as [[]|e0];
    cbn [is_ok fst snd].
  all: destruct (respond E _ (CreateContainer _)) as [[]|e1]; cbn [is_ok fst snd].
  all: try (split; [reflexivity|]; split; [reflexivity|]; exists false;
            split; [reflexivity|];
            rewrite !lifecycle_emit, app_nil_r; reflexivity).
  all: destruct (respond E _ ContainerStart) as [[]|e2]; cbn [is_ok fst snd].
  all: try (split; [reflexivity|]; split; [reflexivity|]; exists true;
            split; [reflexivity|];
            rewrite lifecycle_emit, app_nil_r;
            change (lifecycle (set_container true ?x)) with (lifecycle x);
            rewrite !lifecycle_emit, app_nil_r; reflexivity).
  all: match goal with
       | |- context [DockerManager.run_setup ?env ?c ?w0] =>
           destruct (run_setup_total env c w0) as [w' Hs];
           pose proof (setup_keeps_backend env c w0) as Hk;
           rewrite Hs in Hk |- *; cbn [fst snd] in Hk |- *
       end;
    unfold backend_state, handles in Hk; injection Hk as Hc Hb Hp Hl;
    rewrite Hl, Hc, Hb, Hp;
    (split; [reflexivity|]; split; [reflexivity|]; exists true;
     split; [reflexivity|];
     rewrite lifecycle_emit, app_nil_r;
     change (lifecycle (set_container true ?x)) with (lifecycle x);
     rewrite !lifecycle_emit, app_nil_r; reflexivity).
Qed.

Lemma docker_cleanup_backend E (w : World) :
  fst (DockerManager.cleanup E w) = Ok tt
  /\ container (snd (DockerManager.cleanup E w)) = false
  /\ browser (snd (DockerManager.cleanup E w)) = browser w
  /\ exists removed,
      lifecycle (snd (DockerManager.cleanup E w))
      = lifecycle w ++ (if container w then [(ContainerRemove, removed)] else []).
Proof.
  unfold DockerManager.cleanup. destruct (container w) eqn:Hc; cbn [negb].
  - unfold try_finally, try_catch, bind, call, modify, ret, throw.
    destruct (respond E (trace w) ContainerStop) as [[]|e0]; cbn [is_ok fst snd].
    all: destruct (respond E _ ContainerRemove) as [[]|e1]; cbn [is_ok fst snd].
    all: split; [reflexivity|]; split; [reflexivity|]; split; [reflexivity|];
      eexists;
      change (lifecycle (set_container false ?x)) with (lifecycle x);
      rewrite !lifecycle_emit, app_nil_r; reflexivity.
  - split; [reflexivity|]. split; [exact Hc|]. split; [reflexivity|].
    exists true. now rewrite app_nil_r.
Qed.

Lemma docker_cleanup_idle E (w : World) :
  container w = false -> DockerManager.cleanup E w = (Ok tt, w).
Proof. intros Hc. unfold DockerManager.cleanup. now rewrite Hc. Qed.

Lemma initializeBrowser_backend E (w : World) :
  container (snd (PuppeteerComputerUse.initializeBrowser E w)) = container w
  /\ exists launched,
      browser (snd (PuppeteerComputerUse.initializeBrowser E w)) = (launched || browser w)
      /\ lifecycle (snd (PuppeteerComputerUse.initializeBrowser E w))
         = lifecycle w ++ [(PuppeteerLaunch (negb (NODE_ENV_production E)), launched)].
Proof.
  unfold PuppeteerComputerUse.initializeBrowser, try_catch, bind, call, addLog, modify,
    ret, throw.
  cbn [trace set_log].
  destruct (respond E (trace w) (PuppeteerLaunch _)) as [[]|e0]; cbn [is_ok fst snd].
  2: { split; [reflexivity|]. exists false. split; [reflexivity|].
       rewrite lifecycle_emit. reflexivity. }
  destruct (respond E _ NewPage) as [[]|e1]; cbn [is_ok fst snd].
  2: { split; [reflexivity|]. exists true. split; [reflexivity|].
       rewrite lifecycle_emit, app_nil_r.
       change (lifecycle (set_browser true ?x)) with (lifecycle x).
       rewrite lifecycle_emit. reflexivity. }
  destruct (respond E _ (SetViewport _ _)) as [[]|e2]; cbn [is_ok fst snd].
  all: split; [reflexivity|]; exists true; split; [reflexivity|].
  all: repeat first
         [ rewrite lifecycle_emit
         | progress change (lifecycle (set_log ?l ?x)) with (lifecycle x)
         | progress change (lifecycle (set_page ?b ?x)) with (lifecycle x)
         | progress change (lifecycle (set_browser ?b ?x)) with (lifecycle x) ];
    cbn [lifecycle_call]; rewrite ?app_nil_r; reflexivity.
Qed.

Lemma page_cleanup_backend E (w : World) :
  fst (PuppeteerComputerUse.cleanup E w) = Ok tt
  /\ container (snd (PuppeteerComputerUse.cleanup E w)) = container w
  /\ if browser w
     then exists closed,
            browser (snd (PuppeteerComputerUse.cleanup E w)) = negb closed
            /\ lifecycle (snd (PuppeteerComputerUse.cleanup E w))
               = lifecycle w ++ [(BrowserClose, closed)]
     else snd (PuppeteerComputerUse.cleanup E w) = w.
Proof.
  unfold PuppeteerComputerUse.cleanup. destruct (browser w) eqn:Hb.
  - unfold try_catch, bind, call, addLog, modify, ret.
    destruct (respond E (trace w) BrowserClose) as [[]|e0]; cbn [is_ok fst snd].
    + split; [reflexivity|]. split; [reflexivity|]. exists true.
      split; [reflexivity|].
      change (lifecycle (set_log ?l ?x)) with (lifecycle x).
      change (lifecycle (set_page false ?x)) with (lifecycle x).
      change (lifecycle (set_browser false ?x)) with (lifecycle x).
      rewrite lifecycle_emit. reflexivity.
    + split; [reflexivity|]. split; [reflexivity|]. exists false.
      split; [exact Hb|].
      change (lifecycle (set_log ?l ?x)) with (lifecycle x).
      rewrite lifecycle_emit. reflexivity.
  - repeat split.
Qed.

Lemma snd_try_finally {A} (m : M A) (f : M unit) (w : World) :
  snd (try_finally m f w) = snd (f (snd (m w))).
Proof.
  unfold try_finally. destruct (m w) as [r w1]. cbn [snd].
  destruct (f w1) as [[[]|e] w2]; reflexivity.
Qed.

Lemma docker_run_backend E (testId instruction : string)
    (options : gmap string JsVal) (w : World) :
  container w = false ->
  container (snd (Handler.runTest E testId instruction options docker w)) = false
  /\ browser (snd (Handler.runTest E testId instruction options docker w)) = browser w
  /\ exists created removed : bool,
      lifecycle (snd (Handler.runTest E testId instruction options docker w))
      = lifecycle w
        ++ (CreateContainer (DockerManager.containerName testId), created)
           :: (if created then [(ContainerRemove, removed)] else []).
Proof.
  intros Hc. unfold Handler.runTest. rewrite snd_try_finally.
  match goal with |- context [snd (?b w)] => set (body := b) end.
  assert (Hbody : backend_state (snd (body w))
                  = backend_state (snd (DockerManager.initialize E testId w))).
  { unfold body. rewrite after_bind.
    - apply after_try_catch. intros e. apply keeps_throw.
    - intros _. apply keeps_try_catch.
      + apply keeps_bind; [|intros; apply keeps_ret].
        apply keeps_docker_execute; backend_state_obs.
      + intros e. apply keeps_errorState; backend_state_obs. }
  destruct (initialize_backend E testId w) as (Hb1 & _ & created & Hc1 & Hl1).
  unfold backend_state, handles in Hbody. injection Hbody as Hcb Hbb Hpb Hlb.
  set (wb := snd (body w)) in *.
  assert (Hclean : snd (try_catch (DockerManager.cleanup E) (fun _ => ret tt) wb)
                   = snd (DockerManager.cleanup E wb)).
  { unfold try_catch.
    destruct (docker_cleanup_backend E wb) as (Hok & _).
    destruct (DockerManager.cleanup E wb) as [[[]|e] w2]; [reflexivity | discriminate]. }
  rewrite Hclean.
  destruct (docker_cleanup_backend E wb) as (_ & Hc2 & Hb2 & removed & Hl2).
  split; [exact Hc2|]. split; [congruence|].
  exists created, removed. rewrite Hl2, Hlb, Hl1, Hcb, Hc1, Hc, orb_false_r.
  rewrite <- app_assoc. reflexivity.
Qed.

Lemma page_execute_backend E (instruction : string)
    (options : gmap string JsVal) (w : World) :
  browser w = false ->
  fst (PuppeteerComputerUse.cleanup E
         (snd (PuppeteerComputerUse.execute E options instruction w))) = Ok tt
  /\ container (snd (PuppeteerComputerUse.execute E options instruction w)) = container w
  /\ exists launched closed : bool,
      lifecycle (snd (PuppeteerComputerUse.execute E options instruction w))
      = lifecycle w
        ++ (PuppeteerLaunch (negb (NODE_ENV_production E)), launched)
           :: (if launched then [(BrowserClose, closed)] else [])
      /\ browser (snd (PuppeteerComputerUse.execute E options instruction w))
         = launched && negb closed.
Proof.
  intros Hb. split; [apply page_cleanup_backend|].
  assert (Hrun : exists w0 wb,
    backend_state w0 = backend_state w
    /\ snd (PuppeteerComputerUse.execute E options instruction w)
       = snd (PuppeteerComputerUse.cleanup E wb)
    /\ backend_state wb
       = backend_state (snd (PuppeteerComputerUse.initializeBrowser E w0))).
  { exists (snd (addLog E ("Starting execution with Puppeteer: " +:+ instruction) w)).
    eexists. split; [reflexivity|]. split.
    { unfold PuppeteerComputerUse.execute. unfold bind at 1.
      unfold addLog at 1, modify at 1. rewrite snd_try_finally. reflexivity. }
    rewrite after_try_catch.
    - apply after_bind. intros _.
      repeat first
        [ apply keeps_page_navigate; backend_state_obs
        | apply keeps_page_capture; backend_state_obs
        | apply keeps_addLog; backend_state_obs
        | apply keeps_runClaude;
          first [ apply keeps_page_shot; backend_state_obs
                | intros ? ?; apply keeps_page_tool; backend_state_obs
                | backend_state_obs ]
        | apply keeps_ret | apply keeps_get
        | match goal with |- keeps _ (if ?c then _ else _) => destruct c end
        | apply keeps_bind; [|intros ?] ].
    - intros e. apply keeps_bind; [|intros; apply keeps_throw].
      apply keeps_addLog; backend_state_obs. }
  destruct Hrun as (w0 & wb & Hw0 & -> & Hbody).
  unfold backend_state, handles in Hw0. injection Hw0 as Hc0 Hb0 Hp0 Hl0.
  destruct (initializeBrowser_backend E w0) as (Hc1 & launched & Hb1 & Hl1).
  unfold backend_state, handles in Hbody. injection Hbody as Hcb Hbb Hpb Hlb.
  destruct (page_cleanup_backend E wb) as (_ & Hc2 & Hrest).
  split; [congruence|].
  rewrite Hb0, Hb, orb_false_r in Hb1. rewrite Hl0 in Hl1.
  rewrite Hbb, Hb1 in Hrest. destruct launched.
  - destruct Hrest as (closed & Hb3 & Hl3). exists true, closed.
    rewrite Hl3, Hlb, Hl1, Hb3, <- app_assoc. split; reflexivity.
  - exists false, true. rewrite Hrest, Hlb, Hl1, Hbb, Hb1. split; reflexivity.
Qed.

Lemma page_run_backend E (testId instruction : string)
    (options : gmap string JsVal) (w : World) :
  browser w = false ->
  container (snd (Handler.runTest E testId instruction options puppeteer w)) = container w
  /\ exists launched closed : bool,
      lifecycle (snd (Handler.runTest E testId instruction options puppeteer w))
      = lifecycle w
        ++ (PuppeteerLaunch (negb (NODE_ENV_production E)), launched)
           :: (if launched then [(BrowserClose, closed)] else [])
      /\ browser (snd (Handler.runTest E testId instruction options puppeteer w))
         = launched && negb closed.
Proof.
  intros Hb. unfold Handler.runTest. rewrite snd_try_finally. cbn [ret snd].
  match goal with |- context [snd (?b w)] => set (body := b) end.
  assert (Hbody : backend_state (snd (body w))
                  = backend_state (snd (PuppeteerComputerUse.execute E options instruction w))).
  { unfold body. rewrite after_try_catch.
    - apply after_bind. intros; apply keeps_ret.
    - intros e. apply keeps_errorState; backend_state_obs. }
  destruct (page_execute_backend E instruction options w Hb)
    as (_ & Hc1 & launched & closed & Hl1 & Hb1).
  unfold backend_state, handles in Hbody. injection Hbody as Hcb Hbb Hpb Hlb.
  split; [congruence|]. exists launched, closed. split; congruence.
Qed.

Lemma race_effects E {A} (delay : option Z) (run : M A) (w : World) :
  snd (Handler.race E delay run w)
  = snd (run (emit (RaceTimer delay) (negb (timer_first E (trace w) delay)) w))
  /\ (timer_first E (trace w) delay = true ->
      fst (Handler.race E delay run w) = Throw "Test timeout").
Proof.
  unfold Handler.race.
  destruct (run (emit (RaceTimer delay) (negb (timer_first E (trace w) delay)) w))
    as [r w'].
  split; [reflexivity|]. intros ->. reflexivity.
Qed.

(** C3 (as stated, refuted). On the process backend the browser refuses
    to close: after the run the browser handle is still set, and a
    further [cleanup] is not a no-op, it asks the browser to close
    again. *)
Lemma browser_handle_kept_when_close_fails :
  let E := scripted exec_ok answer_close_fails agent_done in
  let w' := snd (Handler.runTest E "test-1" "take a screenshot of the homepage"
                   capture_disabled puppeteer initial) in
  browser w' = true
  /\ lifecycle w' = [(PuppeteerLaunch true, true); (BrowserClose, false)]
  /\ lifecycle (snd (PuppeteerComputerUse.cleanup E w'))
     = [(PuppeteerLaunch true, true); (BrowserClose, false); (BrowserClose, false)].
Proof. repeat split; vm_compute; reflexivity. Qed.

(** C3 (amended). A run that starts with no backend, raced against the
    deadline timer, tears its backend down exactly once whatever its
    outcome and whoever wins the race (the run is not cancelled when the
    timer wins): the container backend makes one creation attempt and,
    if the container was created, exactly one removal, the handle is
    null afterwards and a further [cleanup] changes nothing; the process
    backend makes one launch attempt and, if the browser was launched,
    exactly one close attempt, its handle is null afterwards exactly
    when the close succeeded (or nothing was launched), a further
    [cleanup] never throws and changes nothing once the handle is
    null. *)
Theorem teardown_runs_once (E : Env) (testId instruction : string)
    (options : gmap string JsVal) (delay : option Z) (w : World) :
  container w = false -> browser w = false ->
  (let r := Handler.race E delay (Handler.runTest E testId instruction options docker) w in
   (timer_first E (trace w) delay = true -> fst r = Throw "Test timeout")
   /\ container (snd r) = false
   /\ DockerManager.cleanup E (snd r) = (Ok tt, snd r)
   /\ exists created removed : bool,
       lifecycle (snd r)
       = lifecycle w
         ++ (CreateContainer (DockerManager.containerName testId), created)
            :: (if created then [(ContainerRemove, removed)] else []))
  /\ (let r := Handler.race E delay (Handler.runTest E testId instruction options puppeteer) w in
     (timer_first E (trace w) delay = true -> fst r = Throw "Test timeout")
     /\ fst (PuppeteerComputerUse.cleanup E (snd r)) = Ok tt
     /\ (browser (snd r) = false ->
         PuppeteerComputerUse.cleanup E (snd r) = (Ok tt, snd r))
     /\ exists launched closed : bool,
         lifecycle (snd r)
         = lifecycle w
           ++ (PuppeteerLaunch (negb (NODE_ENV_production E)), launched)
              :: (if launched then [(BrowserClose, closed)] else [])
         /\ browser (snd r) = launched && negb closed).
Proof.
  intros Hc Hb. split; intros r.
  - destruct (race_effects E delay (Handler.runTest E testId instruction options docker) w)
      as [Hw Ht].
    fold r in Hw, Ht. split; [exact Ht|]. rewrite Hw.
    set (w0 := emit _ _ w).
    destruct (docker_run_backend E testId instruction options w0 Hc)
      as (Hc' & _ & created & removed & Hl).
    split; [exact Hc'|]. split; [now apply docker_cleanup_idle|].
    exists created, removed. rewrite Hl. unfold w0. rewrite lifecycle_emit.
    cbn [lifecycle_call]. now rewrite app_nil_r.
  - destruct (race_effects E delay (Handler.runTest E testId instruction options puppeteer) w)
      as [Hw Ht].
    fold r in Hw, Ht. split; [exact Ht|]. rewrite Hw.
    set (w0 := emit _ _ w).
    destruct (page_run_backend E testId instruction options w0 Hb)
      as (_ & launched & closed & Hl & Hb').
    split; [apply page_cleanup_backend|]. split.
    + intros Hnull. unfold PuppeteerComputerUse.cleanup. now rewrite Hnull.
    + exists launched, closed. rewrite Hl, Hb'. unfold w0. rewrite lifecycle_emit.
      cbn [lifecycle_call]. now rewrite app_nil_r.
Qed.

Lemma teardown_runs_once_witness :
  (let r := Handler.race (scripted exec_ok answer_ok agent_done) (Some 300000%Z)
              (Handler.runTest (scripted exec_ok answer_ok agent_done) "test-1"
                 "take a screenshot of the homepage" capture_disabled docker) initial in
   (timer_first (scripted exec_ok answer_ok agent_done) (trace initial) (Some 300000%Z) = true ->
    fst r = Throw "Test timeout")
   /\ container (snd r) = false
   /\ DockerManager.cleanup (scripted exec_ok answer_ok agent_done) (snd r) = (Ok tt, snd r)
   /\ exists created removed : bool,
       lifecycle (snd r)
       = lifecycle initial
         ++ (CreateContainer (DockerManager.containerName "test-1"), created)
            :: (if created then [(ContainerRemove, removed)] else [])).
Proof.
  apply (proj1 (teardown_runs_once (scripted exec_ok answer_ok agent_done) "test-1"
                  "take a screenshot of the homepage" capture_disabled (Some 300000%Z)
                  initial eq_refl eq_refl)).
Defined.

(** ** The deadline of a run *)

Lemma timers_emit (c : Call) (ok : bool) (w : World) :
  timers (emit c ok w) = timers w ++ (if timer_call c then [(c, ok)] else []).
Proof.
  unfold timers, emit. cbn [trace set_trace]. rewrite filter_app. f_equal.
  cbn [filter list_filter].
  destruct (decide (timer_event (c, ok))) as [H|H];
    unfold timer_event in H; cbn [fst] in H;
    destruct (timer_call c); simpl in *; try reflexivity; tauto.
Qed.

Lemma timers_quiet (c : Call) (ok : bool) (w : World) :
  timer_call c = false -> timers (emit c ok w) = timers w.
Proof. intros Hc. now rewrite timers_emit, Hc, app_nil_r. Qed.

Section TimersKeep.
Context (E : Env) (options : gmap string JsVal).

Lemma timers_log (l : string) (w : World) : timers (set_log l w) = timers w.
Proof. reflexivity. Qed.

Lemma timers_shots (s : list Screenshot) (w : World) :
  timers (set_screenshots s w) = timers w.
Proof. reflexivity. Qed.

Lemma timers_act (c : Call) (ok : bool) (w : World) :
  actuation c = true -> timers (emit c ok w) = timers w.
Proof. intros Hc. apply timers_quiet. destruct c; try discriminate Hc; reflexivity. Qed.

Lemma timers_agent (req : Request) (ok : bool) (w : World) :
  timers (emit (MessagesCreate req) ok w) = timers w.
Proof. now apply timers_quiet. Qed.

Lemma keeps_timers_call (c : Call) : timer_call c = false -> keeps timers (call E c).
Proof. intros Hc w. now apply timers_quiet. Qed.

Ltac timers_step :=
  first
    [ apply keeps_timers_call; reflexivity
    | apply keeps_modify; intros ?; reflexivity
    | apply keeps_addLog; exact timers_log
    | apply keeps_execute; exact timers_act
    | apply keeps_page_navigate; first [exact timers_log | exact timers_shots | exact timers_act]
    | apply keeps_page_capture; first [exact timers_log | exact timers_shots | exact timers_act]
    | apply keeps_docker_execute;
      first [exact timers_log | exact timers_shots | exact timers_act | exact timers_agent]
    | apply keeps_errorState; first [exact timers_log | exact timers_shots | exact timers_act]
    | apply keeps_runClaude;
      first [ exact timers_log | exact timers_act | exact timers_agent
            | apply keeps_page_shot; exact timers_act
            | intros ? ?; apply keeps_page_tool;
              first [exact timers_log | exact timers_shots | exact timers_act] ]
    | apply keeps_ret | apply keeps_throw | apply keeps_get
    | match goal with |- keeps _ (if ?c then _ else _) => destruct c end
    | apply keeps_try_finally
    | apply keeps_try_catch; [|intros ?]
    | apply keeps_bind; [|intros ?] ].

Lemma keeps_timers_setup (commands : list string) :
  keeps timers (DockerManager.run_setup E commands).
Proof.
  induction commands as [|command rest IH]; cbn [DockerManager.run_setup].
  - apply keeps_ret.
  - apply keeps_bind; [|intros _; exact IH]. repeat timers_step.
Qed.

Lemma keeps_timers_initialize (testId : string) :
  keeps timers (DockerManager.initialize E testId).
Proof.
  unfold DockerManager.initialize, DockerManager.setupContainerEnvironment.
  repeat first [apply keeps_timers_setup | timers_step].
Qed.

Lemma keeps_timers_docker_cleanup : keeps timers (DockerManager.cleanup E).
Proof.
  intros w. unfold DockerManager.cleanup. destruct (container w); [|reflexivity].
  cbn [negb]. revert w.
  change (keeps timers
    (try_finally
       (try_catch
          (try_catch (call E ContainerStop) (fun _ => ret tt) ;;;
           try_catch (call E ContainerRemove) (fun _ => ret tt))
          (fun e => throw e))
       (modify (set_container false)))).
  repeat timers_step.
Qed.

Lemma keeps_timers_page_cleanup : keeps timers (PuppeteerComputerUse.cleanup E).
Proof.
  intros w. unfold PuppeteerComputerUse.cleanup. destruct (browser w); [|reflexivity].
  revert w.
  change (keeps timers
    (try_catch
       (call E BrowserClose ;;;
        modify (set_browser false) ;;;
        modify (set_page false) ;;;
        addLog E "Browser closed successfully")
       (fun e => addLog E ("Failed to close browser: " +:+ e)))).
  repeat timers_step.
Qed.

Lemma keeps_timers_page_execute (instruction : string) :
  keeps timers (PuppeteerComputerUse.execute E options instruction).
Proof.
  unfold PuppeteerComputerUse.execute, PuppeteerComputerUse.initializeBrowser.
  repeat first [apply keeps_timers_page_cleanup | timers_step].
Qed.

Lemma keeps_timers_runTest (testId instruction : string) (mode : ExecutionMode) :
  keeps timers (Handler.runTest E testId instruction options mode).
Proof.
  unfold Handler.runTest. destruct mode.
  - repeat first [ apply keeps_timers_initialize | apply keeps_timers_docker_cleanup
                 | timers_step ].
  - repeat first [apply keeps_timers_page_execute | timers_step].
Qed.

End TimersKeep.

Lemma testOptions_spread E (options : gmap string JsVal) (k : string) (v : JsVal) :
  options !! k = Some v -> Handler.testOptions E options !! k = Some v.
Proof. intros Hk. unfold Handler.testOptions. now apply lookup_union_Some_l. Qed.

Lemma handler_arms_one_timer E (instr key : string)
    (opts : gmap string JsVal) (w : World) :
  ANTHROPIC_API_KEY E = Some key -> key <> "" -> instr <> "" ->
  activeTests w = ∅ ->
  exists fired : bool,
    timers (snd (Handler.handler E "POST"
                   (Ok (mkBody (Some (JStr instr)) (Some opts))) w))
    = timers w
      ++ [(RaceTimer (Handler.deadline E (Handler.testOptions E opts)), fired)].
Proof.
  intros Hkey Hne Hinstr Hactive. unfold Handler.handler.
  cbn [String.eqb Ascii.eqb Bool.eqb negb]. rewrite Hkey.
  destruct (String.eqb_spec key "") as [->|_]; [congruence|]. cbn [negb].
  cbn [instruction options default found id].
  destruct instr as [|c rest]; [congruence|].
  rewrite Hactive, size_empty. cbn [Nat.leb].
  rewrite snd_try_finally.
  match goal with
  | |- context [snd (modify ?f ?w1)] =>
      change (timers (snd (modify f w1))) with (timers w1)
  end.
  match goal with
  | |- context [timers (snd (bind ?m ?k w))] =>
      replace (timers (snd (bind m k w))) with (timers (snd (k tt (snd (m w)))))
        by reflexivity
  end.
  cbn [modify snd].
  rewrite after_try_catch by (intros e; apply keeps_ret).
  rewrite after_bind by (intros a; apply keeps_ret).
  match goal with
  | |- context [Handler.race E ?d ?run ?w1] =>
      destruct (race_effects E d run w1) as [-> _]
  end.
  rewrite keeps_timers_runTest, timers_emit. cbn [timer_call].
  eexists. reflexivity.
Qed.

(** C10. When the caller's options carry a [timeout], the merged options
    hold the caller's raw value, not the clamped one, because the spread
    of the caller's options comes after the clamped field; the one
    deadline timer the handler arms for the race has that value times
    1000 as its delay, also when it exceeds [MAX_TEST_DURATION]; and a
    caller-supplied [websiteUrl] likewise replaces the configured one. *)
Theorem caller_timeout_overrides_clamp (E : Env) (options : gmap string JsVal)
    (v : JsVal) (instruction key : string) (w : World) :
  options !! "timeout" = Some v ->
  ANTHROPIC_API_KEY E = Some key -> key <> "" -> instruction <> "" ->
  activeTests w = ∅ ->
  Handler.testOptions E options !! "timeout" = Some v
  /\ Handler.deadline E (Handler.testOptions E options)
     = match Handler.toNumber E v with Some n => Some (n * 1000)%Z | None => None end
  /\ (exists fired : bool,
       timers (snd (Handler.handler E "POST"
                      (Ok (mkBody (Some (JStr instruction)) (Some options))) w))
       = timers w
         ++ [(RaceTimer
                match Handler.toNumber E v with
                | Some n => Some (n * 1000)%Z
                | None => None
                end, fired)])
  /\ (forall n, v = JNum n -> (MAX_TEST_DURATION E < n)%Z ->
       exists d, Handler.deadline E (Handler.testOptions E options) = Some d
                 /\ (MAX_TEST_DURATION E * 1000 < d)%Z)
  /\ (forall u, options !! "websiteUrl" = Some u ->
       Handler.testOptions E options !! "websiteUrl" = Some u).
Proof.
  intros Hv Hkey Hne Hinstr Hactive.
  pose proof (testOptions_spread E options "timeout" v Hv) as Ht.
  assert (Hd : Handler.deadline E (Handler.testOptions E options)
               = match Handler.toNumber E v with
                 | Some n => Some (n * 1000)%Z
                 | None => None
                 end).
  { unfold Handler.deadline. now rewrite Ht. }
  split; [exact Ht|]. split; [exact Hd|]. split.
  - destruct (handler_arms_one_timer E instruction key options w Hkey Hne Hinstr Hactive)
      as [fired Hf].
    exists fired. now rewrite Hf, Hd.
  - split.
    + intros n -> Hn. rewrite Hd. cbn [Handler.toNumber].
      eexists. split; [reflexivity | lia].
    + intros u Hu. now apply testOptions_spread.
Qed.

Lemma caller_timeout_overrides_clamp_witness :
  Handler.testOptions (scripted exec_ok answer_ok agent_done) options_ten_minutes
    !! "timeout" = Some (JNum 600)
  /\ Handler.deadline (scripted exec_ok answer_ok agent_done)
       (Handler.testOptions (scripted exec_ok answer_ok agent_done) options_ten_minutes)
     = Some 600000%Z
  /\ (MAX_TEST_DURATION (scripted exec_ok answer_ok agent_done) < 600)%Z.
Proof.
  destruct (caller_timeout_overrides_clamp (scripted exec_ok answer_ok agent_done)
              options_ten_minutes (JNum 600) "take a screenshot of the homepage"
              "sk-test" initial)
    as (Ht & Hd & _).
  - reflexivity.
  - reflexivity.
  - discriminate.
  - discriminate.
  - reflexivity.
  - split; [exact Ht|]. split; [exact Hd | reflexivity].
Defined.




(** ** The request-rate governor *)

Section Governor.
Import RateLimiter.
Local Open Scope Z_scope.

Lemma ceil_div_pos (x : Z) : 0 < x -> 1 <= ceil_div x 1000.
Proof.
  intros Hx. unfold ceil_div.
  assert ((- x) / 1000 < 0) by (apply Z.div_lt_upper_bound; lia). lia.
Qed.

Ltac split_ifs :=
  repeat (match goal with
          | |- context [(?a <? ?b)%Z] => destruct (Z.ltb_spec a b)
          | |- context [(?a <=? ?b)%Z] => destruct (Z.leb_spec a b)
          end; cbn [count resetTime blocked blockUntil]).

(** X1. Whatever the state of the limiter, the answer of
    [isRequestAllowed] never announces a negative [remaining]; an
    allowing answer carries neither reason nor [retryAfter]; and, when
    the block duration is at least a minute, a refusing answer carries
    one of the three reasons and a [retryAfter] of at least one
    second. *)
Theorem refusal_carries_retry (config : Config) (now : Z) (clientIP : string) (s : State) :
  1 <= blockDurationMinutes config ->
  let d := fst (isRequestAllowed config now clientIP s) in
  0 <= remaining d /\
  (allowed d = true -> reason d = None /\ retryAfter d = None) /\
  (allowed d = false ->
   exists secs, retryAfter d = Some secs /\ 1 <= secs /\
     (reason d = Some "IP temporarily blocked" \/
      reason d = Some "Rate limit exceeded" \/
      reason d = Some "Too many concurrent tests")).
Proof.
  intros Hb. unfold isRequestAllowed.
  destruct (requests s !! clientIP) as [data|]; cbn [blocked blockUntil resetTime count].
  - destruct (blocked data && (now <? blockUntil data)) eqn:Hblk; cbn.
    + apply andb_true_iff in Hblk as [_ Hlt%Z.ltb_lt].
      (split; [lia|]); split; intros Hd; try discriminate Hd.
      eexists. split; [reflexivity|]. split; [apply ceil_div_pos; lia | auto].
    + split_ifs; cbn.
      all: (split; [lia|]); split; intros Hd; try discriminate Hd; auto.
      all: eexists; (split; [reflexivity|]); (split; [lia | auto]).
  - cbn. split_ifs; cbn.
      all: (split; [lia|]); split; intros Hd; try discriminate Hd; auto.
      all: eexists; (split; [reflexivity|]); (split; [lia | auto]).
Qed.

Lemma refusal_carries_retry_witness :
  (0 <= remaining (fst (isRequestAllowed default_config 5 "203.0.113.7" exhausted_client)))%Z.
Proof.
  refine (proj1 (refusal_carries_retry default_config 5 "203.0.113.7" exhausted_client _)).
  vm_compute. discriminate.
Defined.

Lemma unknown_as_new (config : Config) (now : Z) (clientIP : string) (s : State) :
  requests s !! clientIP = None ->
  isRequestAllowed config now clientIP s
  = isRequestAllowed config now clientIP (with_record clientIP (new_record now) s).
Proof.
  intros Hnone. unfold isRequestAllowed, with_record. cbn [requests tests].
  rewrite Hnone, lookup_insert_eq. fold (new_record now).
  rewrite !insert_insert_eq. reflexivity.
Qed.

Lemma serve_step (config : Config) (now : Z) (clientIP : string) (s : State)
    (data : RequestData) :
  requests s !! clientIP = Some data ->
  (blocked data = true -> maxRequestsPerHour config <= count data) ->
  Z.of_nat (size (tests s)) < maxConcurrentTests config ->
  now <= resetTime data ->
  exists data',
    requests (snd (serve config now clientIP s)) !! clientIP = Some data' /\
    tests (snd (serve config now clientIP s)) = tests s /\
    resetTime data' = resetTime data /\
    (blocked data' = true -> maxRequestsPerHour config <= count data') /\
    ((count data < maxRequestsPerHour config /\
      allowed (fst (serve config now clientIP s)) = true /\
      count data' = count data + 1) \/
     (maxRequestsPerHour config <= count data /\
      allowed (fst (serve config now clientIP s)) = false /\
      count data' = count data)).
Proof.
  intros Hdata Hinv Htests Hnow.
  unfold serve, isRequestAllowed. rewrite Hdata.
  destruct (blocked data && (now <? blockUntil data)) eqn:Hblk.
  - apply andb_true_iff in Hblk as [Hb _]. cbn.
    rewrite lookup_insert_eq. exists data. repeat split; auto.
  - destruct (Z.ltb_spec (resetTime data) now); [lia|].
    destruct (Z.leb_spec (maxRequestsPerHour config) (count data)).
    + cbn. rewrite lookup_insert_eq. eexists. repeat split; cbn; auto.
    + destruct (Z.leb_spec (maxConcurrentTests config) (Z.of_nat (size (tests s)))); [lia|].
      cbn. unfold recordRequest. cbn. rewrite lookup_insert_eq. cbn.
      rewrite lookup_insert_eq. eexists. repeat split; cbn; auto.
      intros Hb. destruct (blocked data); [specialize (Hinv eq_refl); lia | discriminate].
Qed.

Lemma serve_all_quota (config : Config) (times : list Z) (clientIP : string) :
  forall (s : State) (data : RequestData),
  requests s !! clientIP = Some data ->
  (blocked data = true -> maxRequestsPerHour config <= count data) ->
  Z.of_nat (size (tests s)) < maxConcurrentTests config ->
  Forall (fun now => now <= resetTime data) times ->
  allowed <$> fst (serve_all config times clientIP s)
  = replicate (length times `min` Z.to_nat (maxRequestsPerHour config - count data)) true
    ++ replicate (length times - Z.to_nat (maxRequestsPerHour config - count data)) false.
Proof.
  induction times as [|now rest IH]; intros s data Hdata Hinv Htests Hall.
  - reflexivity.
  - apply Forall_cons in Hall as [Hnow Hrest].
    destruct (serve_step config now clientIP s data Hdata Hinv Htests Hnow)
      as (data' & Hdata' & Htests' & Hreset & Hinv' & Hcase).
    cbn [serve_all fst fmap list_fmap length].
    rewrite (IH _ data' Hdata' Hinv'); [| rewrite Htests'; exact Htests | rewrite Hreset; exact Hrest].
    destruct Hcase as [(Hlt & -> & ->) | (Hge & -> & ->)].
    + replace (Z.to_nat (maxRequestsPerHour config - count data))
        with (S (Z.to_nat (maxRequestsPerHour config - (count data + 1)))) by lia.
      reflexivity.
    + replace (Z.to_nat (maxRequestsPerHour config - count data)) with 0%nat by lia.
      rewrite !Nat.min_0_r, !Nat.sub_0_r. reflexivity.
Qed.

(** X2. A client the limiter does not know yet sends requests, each
    served by [isRequestAllowed] followed, when allowed, by
    [recordRequest]; the first at [first], the later ones at any
    readings of the clock up to the end of the window it opens; no test
    slot is missing.  Then exactly the first [maxRequestsPerHour] of
    them are allowed and every later one is refused. *)
Theorem quota_within_window (config : Config) (first : Z) (later : list Z)
    (clientIP : string) (s : State) :
  requests s !! clientIP = None ->
  Z.of_nat (size (tests s)) < maxConcurrentTests config ->
  Forall (fun now => now <= first + hourInMs) later ->
  allowed <$> fst (serve_all config (first :: later) clientIP s)
  = replicate (S (length later) `min` Z.to_nat (maxRequestsPerHour config)) true
    ++ replicate (S (length later) - Z.to_nat (maxRequestsPerHour config)) false.
Proof.
  intros Hnone Htests Hall.
  assert (Hsame : serve_all config (first :: later) clientIP s
                  = serve_all config (first :: later) clientIP (with_record clientIP (new_record first) s)).
  { cbn [serve_all]. unfold serve. rewrite <- unknown_as_new by exact Hnone. reflexivity. }
  rewrite Hsame.
  rewrite (serve_all_quota config (first :: later) clientIP _ (new_record first)).
  - cbn [count new_record length]. rewrite Z.sub_0_r. reflexivity.
  - unfold with_record. cbn. apply lookup_insert_eq.
  - discriminate.
  - exact Htests.
  - constructor; [cbn; unfold hourInMs; lia | exact Hall].
Qed.

Lemma quota_within_window_witness :
  allowed <$> fst (serve_all default_config
                     [0; 1; 2; 3; 4; 5; 6; 7; 8; 9; 10; 3600000] "203.0.113.7" no_clients)
  = replicate 10 true ++ replicate 2 false.
Proof.
  apply (quota_within_window default_config 0
           [1; 2; 3; 4; 5; 6; 7; 8; 9; 10; 3600000] "203.0.113.7" no_clients).
  - reflexivity.
  - vm_compute. reflexivity.
  - repeat (constructor; [vm_compute; discriminate|]). constructor.
Defined.

(** X3. Once a request has been refused with 'Rate limit exceeded', every
    request of that client up to the end of the block, also one that
    arrives after the window of the client has expired, is refused with
    'IP temporarily blocked', announces the whole seconds left of the
    block (at least one) and leaves the limiter as it was. *)
Theorem block_outlives_window (config : Config) (now later : Z) (clientIP : string)
    (s : State) :
  reason (fst (isRequestAllowed config now clientIP s)) = Some "Rate limit exceeded" ->
  later < now + blockDurationMinutes config * 60 * 1000 ->
  let blocked_state := snd (isRequestAllowed config now clientIP s) in
  let d := fst (isRequestAllowed config later clientIP blocked_state) in
  allowed d = false /\
  reason d = Some "IP temporarily blocked" /\
  retryAfter d
  = Some (ceil_div (now + blockDurationMinutes config * 60 * 1000 - later) 1000) /\
  1 <= ceil_div (now + blockDurationMinutes config * 60 * 1000 - later) 1000 /\
  remaining d = 0 /\
  snd (isRequestAllowed config later clientIP blocked_state) = blocked_state.
Proof.
  intros Hreason Hlater. cbv zeta.
  assert (Hblocked : exists data,
             snd (isRequestAllowed config now clientIP s)
             = with_record clientIP (mkData (count data) (resetTime data) true
                                 (now + blockDurationMinutes config * 60 * 1000)) s).
  { revert Hreason. unfold isRequestAllowed.
    destruct (blocked _ && _); [discriminate|].
    destruct (_ <=? _); [|destruct (_ <=? _); discriminate].
    intros _. eexists. reflexivity. }
  destruct Hblocked as [data ->].
  unfold isRequestAllowed, with_record. cbn [requests tests].
  rewrite lookup_insert_eq. cbn [blocked blockUntil andb].
  destruct (Z.ltb_spec later (now + blockDurationMinutes config * 60 * 1000)); [|lia].
  cbn. rewrite insert_insert_eq.
  repeat split. apply ceil_div_pos. lia.
Qed.

Lemma block_outlives_window_witness :
  reason (fst (isRequestAllowed default_config 3600001 "203.0.113.7"
                 (snd (isRequestAllowed default_config 5 "203.0.113.7" exhausted_client))))
  = Some "IP temporarily blocked".
Proof.
  refine (proj1 (proj2 (block_outlives_window default_config 5 3600001 "203.0.113.7"
                          exhausted_client _ _))).
  - reflexivity.
  - vm_compute. reflexivity.
Defined.

Lemma tests_register_unregister (testId : string) (s : State) :
  testId ∉ tests s ->
  tests (unregisterTest testId (registerTest testId s)) = tests s.
Proof.
  intros Hfree. cbn. apply set_eq. intros x.
  rewrite elem_of_difference, elem_of_union, elem_of_singleton.
  split; [tauto|]. intros Hx. split; [tauto|]. congruence.
Qed.

Lemma size_register (testId : string) (s : State) :
  testId ∉ tests s ->
  Z.of_nat (size (tests (registerTest testId s))) = Z.of_nat (size (tests s)) + 1.
Proof.
  intros Hfree. cbn. rewrite size_union, size_singleton; [lia|].
  intros x Hx%elem_of_singleton. congruence.
Qed.

(** X4. A request that would be allowed is, once the test that takes the
    last slot has been registered, refused with 'Too many concurrent
    tests'; the refusal announces one more [remaining] than the allowing
    answer, as it consumes nothing; and after [unregisterTest] the
    request gets the answer, and leaves the state, it would have without
    the detour. *)
Theorem concurrency_gate_round_trip (config : Config) (now : Z) (clientIP testId : string)
    (s : State) :
  allowed (fst (isRequestAllowed config now clientIP s)) = true ->
  testId ∉ tests s ->
  maxConcurrentTests config <= Z.of_nat (size (tests s)) + 1 ->
  let busy := isRequestAllowed config now clientIP (registerTest testId s) in
  allowed (fst busy) = false /\
  reason (fst busy) = Some "Too many concurrent tests" /\
  remaining (fst busy) = remaining (fst (isRequestAllowed config now clientIP s)) + 1 /\
  isRequestAllowed config now clientIP (unregisterTest testId (snd busy))
  = isRequestAllowed config now clientIP s.
Proof.
  intros Hallowed Hfree Hlast. cbv zeta.
  pose proof (size_register testId s Hfree) as Hsize.
  pose proof (tests_register_unregister testId s Hfree) as Hback.
  revert Hallowed. unfold isRequestAllowed.
  cbn [requests registerTest unregisterTest] in *.
  set (data := match requests s !! clientIP with
               | Some data => data
               | None => mkData 0 (now + hourInMs) false 0
               end).
  destruct (blocked data && (now <? blockUntil data)) eqn:Hblk; [discriminate|].
  set (data' := if resetTime data <? now then mkData 0 (now + hourInMs) false 0 else data).
  destruct (Z.leb_spec (maxRequestsPerHour config) (count data')); [discriminate|].
  destruct (Z.leb_spec (maxConcurrentTests config) (Z.of_nat (size (tests s)))); [discriminate|].
  intros _. cbn [tests] in *. rewrite Hsize.
  destruct (Z.leb_spec (maxConcurrentTests config) (Z.of_nat (size (tests s)) + 1)); [|lia].
  cbn [fst snd allowed reason remaining requests tests].
  cbn in Hback. unfold unregisterTest, registerTest in *. cbn [requests tests] in *.
  rewrite lookup_insert_eq, insert_insert_eq, Hback.
  assert (Hopen : blocked data' && (now <? blockUntil data') = false).
  { subst data'. destruct (resetTime data <? now); [reflexivity | exact Hblk]. }
  assert (Hwindow : (resetTime data' <? now) = false).
  { subst data'. destruct (Z.ltb_spec (resetTime data) now); cbn.
    - apply Z.ltb_ge. unfold hourInMs. lia.
    - apply Z.ltb_ge. lia. }
  rewrite Hopen, Hwindow.
  destruct (Z.leb_spec (maxRequestsPerHour config) (count data')); [lia|].
  destruct (Z.leb_spec (maxConcurrentTests config) (Z.of_nat (size (tests s)))); [lia|].
  repeat split; [lia|]. rewrite insert_insert_eq. reflexivity.
Qed.

Lemma concurrency_gate_round_trip_witness :
  reason (fst (isRequestAllowed default_config 0 "203.0.113.7"
                 (registerTest "test-1" no_clients)))
  = Some "Too many concurrent tests".
Proof.
  refine (proj1 (proj2 (concurrency_gate_round_trip default_config 0 "203.0.113.7" "test-1"
                          no_clients _ _ _))).
  - reflexivity.
  - apply not_elem_of_empty.
  - vm_compute. discriminate.
Defined.

Lemma cleanup_lookup (now : Z) (clientIP : string) (s : State) :
  requests (cleanupTick now s) !! clientIP
  = match requests s !! clientIP with
    | Some data => if expired now data then None else Some data
    | None => None
    end.
Proof.
  unfold cleanupTick. cbn [requests].
  destruct (requests s !! clientIP) as [data|] eqn:Hdata.
  - destruct (expired now data) eqn:Hexp.
    + apply map_lookup_filter_None. right. intros x Hx. cbn. congruence.
    + apply map_lookup_filter_Some. split; [exact Hdata | exact Hexp].
  - apply map_lookup_filter_None. left. exact Hdata.
Qed.

(** X5. The clean-up timer is invisible to [isRequestAllowed]: a request
    that arrives no earlier than a tick of the timer gets the same
    answer, and leaves the same record for its client, whether or not
    the tick took place.  (It is visible to [getRateLimitInfo], which
    reports a removed client as untracked.) *)
Theorem cleanup_never_changes_a_decision (config : Config) (now later : Z)
    (clientIP : string) (s : State) :
  now <= later ->
  fst (isRequestAllowed config later clientIP (cleanupTick now s))
  = fst (isRequestAllowed config later clientIP s) /\
  requests (snd (isRequestAllowed config later clientIP (cleanupTick now s))) !! clientIP
  = requests (snd (isRequestAllowed config later clientIP s)) !! clientIP.
Proof.
  intros Hlater. unfold isRequestAllowed. rewrite cleanup_lookup.
  assert (Htests : tests (cleanupTick now s) = tests s) by reflexivity.
  rewrite Htests.
  destruct (requests s !! clientIP) as [data|].
  - destruct (expired now data) eqn:Hexp.
    + unfold expired in Hexp. apply andb_true_iff in Hexp as [Hpast%Z.ltb_lt Hfree].
      assert (Hopen : blocked data && (later <? blockUntil data) = false).
      { destruct (blocked data); [|reflexivity]. cbn in *.
        apply Z.ltb_lt in Hfree. apply Z.ltb_ge. lia. }
      assert (Hkeep : (later + hourInMs <? later) = false)
        by (apply Z.ltb_ge; unfold hourInMs; lia).
      assert (Hnew : (resetTime data <? later) = true) by (apply Z.ltb_lt; lia).
      rewrite Hopen, Hnew. cbn [blocked blockUntil andb resetTime]. rewrite Hkeep.
      cbn [count resetTime].
      split_ifs; cbn; rewrite !lookup_insert_eq; split; reflexivity.
    + destruct (blocked data && _); [cbn; rewrite !lookup_insert_eq; split; reflexivity|].
      destruct (resetTime data <? later); cbn [count resetTime].
      all: split_ifs; cbn; rewrite !lookup_insert_eq; split; reflexivity.
  - cbn [blocked andb resetTime count]. destruct (_ <? _).
    all: split_ifs; cbn; rewrite !lookup_insert_eq; split; reflexivity.
Qed.

Lemma cleanup_never_changes_a_decision_witness :
  requests (cleanupTick 3600001 exhausted_client) !! "203.0.113.7" = None
  /\ fst (isRequestAllowed default_config 3600002 "203.0.113.7"
            (cleanupTick 3600001 exhausted_client))
     = fst (isRequestAllowed default_config 3600002 "203.0.113.7" exhausted_client).
Proof.
  split; [reflexivity|].
  refine (proj1 (cleanup_never_changes_a_decision default_config 3600001 3600002
                   "203.0.113.7" exhausted_client _)).
  vm_compute. discriminate.
Defined.

(** X6. After an allowed request has been recorded, [getRateLimitInfo]
    reports, at any later reading of the clock, the [remaining] and the
    [resetTime] the allowing answer announced, and as [requests] the
    quota less that [remaining]. *)
Theorem announced_remaining_is_kept (config : Config) (now later : Z)
    (clientIP : string) (s : State) :
  allowed (fst (isRequestAllowed config now clientIP s)) = true ->
  let d := fst (isRequestAllowed config now clientIP s) in
  let info := getRateLimitInfo config later clientIP
                (recordRequest clientIP (snd (isRequestAllowed config now clientIP s))) in
  i_remaining info = remaining d /\
  i_requests info = maxRequestsPerHour config - remaining d /\
  i_resetTime info = d_resetTime d.
Proof.
  cbv zeta. unfold isRequestAllowed.
  set (data := match requests s !! clientIP with
               | Some data => data
               | None => mkData 0 (now + hourInMs) false 0
               end).
  destruct (blocked data && (now <? blockUntil data)) eqn:Hblk; [discriminate|].
  set (data' := if resetTime data <? now then mkData 0 (now + hourInMs) false 0 else data).
  destruct (Z.leb_spec (maxRequestsPerHour config) (count data')); [discriminate|].
  destruct (Z.leb_spec (maxConcurrentTests config) (Z.of_nat (size (tests s)))); [discriminate|].
  intros _. unfold recordRequest, getRateLimitInfo.
  cbn [fst snd requests tests remaining d_resetTime].
  rewrite lookup_insert_eq. cbn [requests]. rewrite lookup_insert_eq.
  cbn [i_remaining i_requests i_resetTime i_blocked count resetTime blocked blockUntil].
  repeat split; lia.
Qed.

Lemma announced_remaining_is_kept_witness :
  i_remaining (getRateLimitInfo default_config 60000 "203.0.113.7"
                 (recordRequest "203.0.113.7"
                    (snd (isRequestAllowed default_config 0 "203.0.113.7" no_clients))))
  = 9.
Proof.
  refine (proj1 (announced_remaining_is_kept default_config 0 60000 "203.0.113.7"
                   no_clients _)).
  reflexivity.
Defined.

(** X7. [clearRateLimit] answers whether the client was tracked, touches
    no other client and no test, and lifts a block: with a positive
    quota and a free test slot the next request of the cleared client is
    allowed with the whole quota of a new window. *)
Theorem clear_lifts_block (config : Config) (now : Z) (clientIP : string) (s : State) :
  0 < maxRequestsPerHour config ->
  Z.of_nat (size (tests s)) < maxConcurrentTests config ->
  let cleared := snd (clearRateLimit clientIP s) in
  fst (isRequestAllowed config now clientIP cleared)
  = mkDecision true None None (maxRequestsPerHour config - 1) (now + hourInMs)
      (Some (Z.of_nat (size (tests s)))) /\
  (forall other, other <> clientIP -> requests cleared !! other = requests s !! other) /\
  tests cleared = tests s /\
  fst (clearRateLimit clientIP s) = bool_decide (is_Some (requests s !! clientIP)).
Proof.
  intros Hmax Htests. cbv zeta.
  assert (Hgone : requests (snd (clearRateLimit clientIP s)) !! clientIP = None).
  { unfold clearRateLimit. destruct (requests s !! clientIP) eqn:Hdata; cbn.
    - apply lookup_delete_eq.
    - exact Hdata. }
  assert (Hsame : tests (snd (clearRateLimit clientIP s)) = tests s).
  { unfold clearRateLimit. destruct (requests s !! clientIP); reflexivity. }
  split; [|split; [|split]].
  - unfold isRequestAllowed. rewrite Hgone, Hsame.
    cbn [blocked andb resetTime count].
    destruct (Z.ltb_spec (now + hourInMs) now); [unfold hourInMs in *; lia|].
    cbn [count resetTime].
    destruct (Z.leb_spec (maxRequestsPerHour config) 0); [lia|].
    destruct (Z.leb_spec (maxConcurrentTests config) (Z.of_nat (size (tests s)))); [lia|].
    cbn. rewrite Z.sub_0_r. reflexivity.
  - intros other Hother. unfold clearRateLimit.
    destruct (requests s !! clientIP); cbn; [|reflexivity].
    apply lookup_delete_ne. congruence.
  - exact Hsame.
  - unfold clearRateLimit. destruct (requests s !! clientIP); reflexivity.
Qed.

Lemma clear_lifts_block_witness :
  allowed (fst (isRequestAllowed default_config 6 "203.0.113.7"
                  (snd (isRequestAllowed default_config 5 "203.0.113.7" exhausted_client))))
  = false
  /\ allowed (fst (isRequestAllowed default_config 6 "203.0.113.7"
                     (snd (clearRateLimit "203.0.113.7"
                             (snd (isRequestAllowed default_config 5 "203.0.113.7"
                                     exhausted_client))))))
     = true.
Proof.
  split; [reflexivity|].
  rewrite (proj1 (clear_lifts_block default_config 6 "203.0.113.7"
                    (snd (isRequestAllowed default_config 5 "203.0.113.7" exhausted_client))
                    ltac:(vm_compute; reflexivity) ltac:(vm_compute; reflexivity))).
  reflexivity.
Defined.

Lemma or_header_nonempty (a : option string) (rest : string) :
  rest <> EmptyString -> or_header a rest <> EmptyString.
Proof.
  intros Hrest. unfold or_header. destruct a as [v|]; [|exact Hrest].
  destruct (String.eqb v EmptyString) eqn:Hv; [exact Hrest|].
  apply String.eqb_neq. exact Hv.
Qed.

(** X8. The key under which a client is tracked is never the empty
    string: a header that is present but empty is passed over exactly as
    if it were missing, down to the shared key 'unknown'. *)
Theorem client_key_is_never_empty (headers : gmap string string) (sourceIp : option string) :
  getClientIP headers sourceIp <> EmptyString /\
  getClientIP (<["x-forwarded-for" := EmptyString]> headers) sourceIp
  = getClientIP (delete "x-forwarded-for" headers) sourceIp /\
  getClientIP (<["x-real-ip" := EmptyString]> headers) sourceIp
  = getClientIP (delete "x-real-ip" headers) sourceIp /\
  getClientIP (<["client-ip" := EmptyString]> headers) sourceIp
  = getClientIP (delete "client-ip" headers) sourceIp /\
  getClientIP headers (Some EmptyString) = getClientIP headers None.
Proof.
  split; [|repeat split].
  - unfold getClientIP. repeat apply or_header_nonempty. discriminate.
  - unfold getClientIP. rewrite lookup_insert_eq, lookup_delete_eq.
    rewrite !lookup_insert_ne, !lookup_delete_ne by discriminate. reflexivity.
  - unfold getClientIP. rewrite lookup_insert_eq, lookup_delete_eq.
    rewrite !lookup_insert_ne, !lookup_delete_ne by discriminate. reflexivity.
  - unfold getClientIP. rewrite lookup_insert_eq, lookup_delete_eq.
    rewrite !lookup_insert_ne, !lookup_delete_ne by discriminate. reflexivity.
Qed.

End Governor.

(** ** The container manager outside the life of its container *)

Lemma execute_null E (command : string) (w : World) :
  container w = false ->
  DockerManager.execute E command w = (Throw "Container not initialized", w).
Proof. intros Hc. unfold DockerManager.execute. now rewrite Hc. Qed.

Lemma getFile_null E (path : string) (w : World) :
  container w = false ->
  DockerManager.getFile E path w = (Throw "Container not initialized", w).
Proof. intros Hc. unfold DockerManager.getFile. now rewrite Hc. Qed.

Lemma run_setup_null E (commands : list string) (w : World) :
  container w = false -> DockerManager.run_setup E commands w = (Ok tt, w).
Proof.
  intros Hc. induction commands as [|command rest IH]; [reflexivity|].
  cbn [DockerManager.run_setup]. unfold bind at 1, try_catch, bind.
  rewrite (execute_null E command w Hc). exact IH.
Qed.

(** X9. Once [cleanup] has run, and likewise before [initialize], the
    manager reaches the daemon no more: [execute] and [getFile] reject
    with 'Container not initialized' and [takeScreenshotForClaude] with
    that message wrapped, all three without an external call;
    [setupContainerEnvironment] swallows the twelve rejections and
    reports success, again without a call; and a further [cleanup] is a
    no-op. *)
Theorem nothing_reaches_a_removed_container (E : Env) (command path : string) (w : World) :
  let w' := snd (DockerManager.cleanup E w) in
  DockerManager.execute E command w' = (Throw "Container not initialized", w')
  /\ DockerManager.getFile E path w' = (Throw "Container not initialized", w')
  /\ ComputerUse.takeScreenshotForClaude E w'
     = (Throw "Failed to take screenshot: Container not initialized", w')
  /\ DockerManager.setupContainerEnvironment E w' = (Ok tt, w')
  /\ DockerManager.cleanup E w' = (Ok tt, w').
Proof.
  cbv zeta.
  destruct (docker_cleanup_backend E w) as (_ & Hc & _).
  set (w' := snd (DockerManager.cleanup E w)) in *.
  split; [now apply execute_null|]. split; [now apply getFile_null|].
  split; [|split; [now apply run_setup_null | now apply docker_cleanup_idle]].
  unfold ComputerUse.takeScreenshotForClaude, try_catch, bind, get.
  rewrite execute_null by exact Hc. reflexivity.
Qed.

Lemma execute_emits E (command : string) (w : World) :
  container w = true ->
  exists ok,
    snd (DockerManager.execute E command w) = emit (ContainerExec command) ok w.
Proof.
  intros Hc. unfold DockerManager.execute. rewrite Hc. cbn [negb snd].
  eexists. reflexivity.
Qed.

(** X10. On a live container the loop of [setupContainerEnvironment]
    attempts every command of its list, in order and once each, however
    many of them fail: the history grows by exactly one exec per
    command, the handle stays set and the loop reports success. *)
Theorem setup_attempts_every_command (E : Env) (commands : list string) (w : World) :
  container w = true ->
  fst (DockerManager.run_setup E commands w) = Ok tt
  /\ calls (trace (snd (DockerManager.run_setup E commands w)))
     = calls (trace w) ++ (ContainerExec <$> commands)
  /\ container (snd (DockerManager.run_setup E commands w)) = true.
Proof.
  revert w. induction commands as [|command rest IH]; intros w Hc.
  - cbn. rewrite app_nil_r. auto.
  - cbn [DockerManager.run_setup]. unfold bind at 1, try_catch, bind.
    destruct (execute_emits E command w Hc) as [ok Hw].
    destruct (DockerManager.execute E command w) as [[out|e] w1]; cbn [snd] in Hw; subst w1.
    all: cbn [ret]; destruct (IH (emit (ContainerExec command) ok w) Hc) as (H1 & H2 & H3).
    all: split; [exact H1|]; split; [|exact H3].
    all: rewrite H2; unfold calls, emit; cbn [trace set_trace];
      rewrite fmap_app; cbn [fmap list_fmap fst]; rewrite <- app_assoc; reflexivity.
Qed.

Lemma setup_attempts_every_command_witness :
  fst (DockerManager.run_setup (scripted exec_refused answer_ok agent_done)
         DockerManager.setupCommands with_container) = Ok tt
  /\ calls (trace (snd (DockerManager.run_setup (scripted exec_refused answer_ok agent_done)
                          DockerManager.setupCommands with_container)))
     = ContainerExec <$> DockerManager.setupCommands.
Proof.
  destruct (setup_attempts_every_command (scripted exec_refused answer_ok agent_done)
              DockerManager.setupCommands with_container eq_refl) as (Hok & Hcalls & _).
  split; [exact Hok | exact Hcalls].
Defined.

(** ** The screenshot trail *)

(** X11. [captureScreenshot] never rejects, on either backend and
    whatever the environment does.  The trail grows by exactly the
    record it returns: by nothing when it returns [null] (capture turned
    off, or the capture failed), by one record labelled with the given
    step otherwise; with capture turned off the world is not touched at
    all. *)
Theorem capture_contract (E : Env) (options : gmap string JsVal) (label : string)
    (w : World) :
  (exists shot,
      fst (ComputerUse.captureScreenshot E options label w) = Ok shot
      /\ screenshots (snd (ComputerUse.captureScreenshot E options label w))
         = screenshots w ++ match shot with Some s => [s] | None => [] end
      /\ (forall s, shot = Some s -> step s = label)
      /\ (takeScreenshots options = false ->
          shot = None /\ snd (ComputerUse.captureScreenshot E options label w) = w))
  /\ (exists shot,
      fst (PuppeteerComputerUse.captureScreenshot E options label w) = Ok shot
      /\ screenshots (snd (PuppeteerComputerUse.captureScreenshot E options label w))
         = screenshots w ++ match shot with Some s => [s] | None => [] end
      /\ (forall s, shot = Some s -> step s = label)
      /\ (takeScreenshots options = false ->
          shot = None /\ snd (PuppeteerComputerUse.captureScreenshot E options label w) = w)).
Proof.
  split.
  - unfold ComputerUse.captureScreenshot.
    destruct (takeScreenshots options); cbn [negb].
    + unfold try_catch, bind, get, modify, ret.
      pose proof (keeps_docker_shot screenshots
                    (fun c ok w0 _ => eq_refl) E w) as Hshot.
      destruct (ComputerUse.takeScreenshotForClaude E w) as [[data|e] w1];
        cbn [snd] in Hshot; cbn [fst snd addLog modify set_log screenshots set_screenshots].
      * eexists. split; [reflexivity|]. rewrite Hshot. split; [reflexivity|].
        split; [intros s [= <-]; reflexivity | discriminate].
      * exists None. split; [reflexivity|]. rewrite Hshot, app_nil_r.
        split; [reflexivity|]. split; [discriminate | discriminate].
    + exists None. cbn. rewrite app_nil_r. repeat split; discriminate.
  - unfold PuppeteerComputerUse.captureScreenshot.
    destruct (takeScreenshots options); cbn [negb orb].
    + destruct (negb (page w) || negb (browser w)).
      * exists None. cbn. rewrite app_nil_r. repeat split; discriminate.
      * unfold try_catch, bind, get, modify, ret.
        pose proof (keeps_page_shot screenshots
                      (fun c ok w0 _ => eq_refl) E w) as Hshot.
        destruct (PuppeteerComputerUse.takeScreenshotForClaude E w) as [[data|e] w1];
          cbn [snd] in Hshot; cbn [fst snd addLog modify set_log screenshots set_screenshots].
        -- eexists. split; [reflexivity|]. rewrite Hshot. split; [reflexivity|].
           split; [intros s [= <-]; reflexivity | discriminate].
        -- exists None. split; [reflexivity|]. rewrite Hshot, app_nil_r.
           split; [reflexivity|]. split; [discriminate | discriminate].
    + exists None. cbn. rewrite app_nil_r. repeat split; discriminate.
Qed.

(** ** The sweep of orphaned containers *)

Lemma prefix_append (part rest : string) : String.prefix part (part +:+ rest) = true.
Proof.
  induction part as [|c part IH]; [rewrite append_nil_l; destruct rest; reflexivity|].
  rewrite append_cons. cbn [String.prefix].
  destruct (Ascii.ascii_dec c c) as [_|Hne]; [exact IH | congruence].
Qed.

Lemma includes_part (before part rest : string) :
  Orphans.includes (before +:+ part +:+ rest) part = true.
Proof.
  induction before as [|c before IH].
  - rewrite append_nil_l.
    destruct (part +:+ rest) eqn:Hname; cbn [Orphans.includes];
      rewrite <- Hname, prefix_append; reflexivity.
  - rewrite append_cons. cbn [Orphans.includes]. rewrite IH.
    destruct (String.prefix part _); reflexivity.
Qed.

Lemma sweep_ids (remove : list (string * bool) -> string -> Outcome unit)
    (testContainers : list Orphans.ContainerInfo) :
  forall removals,
    fst <$> Orphans.sweep remove testContainers removals
    = (fst <$> removals) ++ (Orphans.Id <$> testContainers).
Proof.
  induction testContainers as [|c rest IH]; intros removals; cbn [Orphans.sweep].
  - cbn. now rewrite app_nil_r.
  - rewrite IH, fmap_app. cbn. now rewrite <- app_assoc.
Qed.

(** X12. The sweep at load time asks for the removal of exactly the
    listed containers one of whose names contains 'computer-use-test-',
    in the order of the listing and once each, however many removals
    fail.  Every container named by a [DockerManager], for whatever test
    and behind whatever prefix the daemon puts before the name, is among
    them: the sweep does not tell an orphan from the container of a test
    that is still running. *)
Theorem sweep_takes_every_test_container
    (containers : list Orphans.ContainerInfo)
    (remove : list (string * bool) -> string -> Outcome unit)
    (c : Orphans.ContainerInfo) (before testId : string) :
  In c containers ->
  In (before +:+ DockerManager.containerName testId) (Orphans.Names c) ->
  fst <$> snd (Orphans.cleanupOrphanedContainers (Ok containers) remove)
  = Orphans.Id <$> List.filter Orphans.isTestContainer containers
  /\ In (Orphans.Id c)
        (fst <$> snd (Orphans.cleanupOrphanedContainers (Ok containers) remove)).
Proof.
  intros Hc Hname. unfold Orphans.cleanupOrphanedContainers. cbn [snd].
  rewrite sweep_ids. cbn [fmap list_fmap app]. split; [reflexivity|].
  apply (in_map Orphans.Id). apply filter_In. split; [exact Hc|].
  unfold Orphans.isTestContainer. apply existsb_exists.
  exists (before +:+ DockerManager.containerName testId). split; [exact Hname|].
  unfold DockerManager.containerName.
  apply includes_part.
Qed.

Lemma sweep_takes_every_test_container_witness :
  snd (Orphans.cleanupOrphanedContainers listing remove_fails_first)
  = [("4f1c", false); ("c27b", true)]
  /\ In "c27b" (fst <$> snd (Orphans.cleanupOrphanedContainers listing remove_fails_first)).
Proof.
  split; [reflexivity|].
  refine (proj2 (sweep_takes_every_test_container _ remove_fails_first
                   (Orphans.mkInfo "c27b" ["/computer-use-test-test-2"]) "/" "test-2" _ _)).
  - right. right. left. reflexivity.
  - left. reflexivity.
Defined.

(** ** Observations no backend call touches *)

Lemma backend_call_act (c : Call) : actuation c = true -> backend_call c = true.
Proof. destruct c; intros H; try discriminate H; reflexivity. Qed.

Section Quiet.
Context {X : Type} (obs : World -> X).
Hypothesis obs_log : forall l w, obs (set_log l w) = obs w.
Hypothesis obs_container : forall b w, obs (set_container b w) = obs w.
Hypothesis obs_browser : forall b w, obs (set_browser b w) = obs w.
Hypothesis obs_page : forall b w, obs (set_page b w) = obs w.
Hypothesis obs_backend :
  forall c ok w, backend_call c = true -> obs (emit c ok w) = obs w.
Context (E : Env) (options : gmap string JsVal).
Hypothesis docker_capture :
  forall step, keeps obs (ComputerUse.captureScreenshot E options step).
Hypothesis page_capture :
  forall step, keeps obs (PuppeteerComputerUse.captureScreenshot E options step).

Lemma obs_actuation (c : Call) (ok : bool) (w : World) :
  actuation c = true -> obs (emit c ok w) = obs w.
Proof. intros Hc. apply obs_backend. now apply backend_call_act. Qed.

Lemma quiet_call (c : Call) : backend_call c = true -> keeps obs (call E c).
Proof. intros Hc w. now apply obs_backend. Qed.

Ltac quiet_step :=
  lazymatch goal with
  | |- keeps _ (bind _ _) => apply keeps_bind; [| intros ?]
  | |- keeps _ (try_catch _ _) => apply keeps_try_catch; [| intros ?]
  | |- keeps _ (try_finally _ _) => apply keeps_try_finally
  | |- keeps _ (ret _) => apply keeps_ret
  | |- keeps _ (throw _) => apply keeps_throw
  | |- keeps _ (get _) => apply keeps_get
  | |- keeps _ (addLog _ _) => apply keeps_addLog; exact obs_log
  | |- keeps _ (sleep _) => apply keeps_sleep; exact obs_actuation
  | |- keeps _ (call _ _) => apply quiet_call; reflexivity
  | |- keeps _ (DockerManager.execute _ _) => apply keeps_execute; exact obs_actuation
  | |- keeps _ (DockerManager.getFile _ _) => apply keeps_getFile; exact obs_actuation
  | |- keeps _ (ComputerUse.takeScreenshotForClaude _) =>
      apply keeps_docker_shot; exact obs_actuation
  | |- keeps _ (PuppeteerComputerUse.takeScreenshotForClaude _) =>
      apply keeps_page_shot; exact obs_actuation
  | |- keeps _ (ComputerUse.captureScreenshot _ _ _) => apply docker_capture
  | |- keeps _ (PuppeteerComputerUse.captureScreenshot _ _ _) => apply page_capture
  | |- keeps _ (PuppeteerComputerUse.on_page _ _) => apply keeps_on_page
  | |- keeps _ (modify _) => apply keeps_modify; intros ?; solve [auto]
  | |- keeps _ (if ?c then _ else _) => destruct c
  | |- keeps _ (match ?x with _ => _ end) => destruct x
  end.

Lemma quiet_docker_navigate : keeps obs (ComputerUse.navigateToWebsite E options).
Proof. unfold ComputerUse.navigateToWebsite. repeat (cbv zeta; quiet_step). Qed.

Lemma quiet_docker_tool (name : string) (input : ToolInput) :
  keeps obs (ComputerUse.executeComputerUseTool E options name input).
Proof.
  unfold ComputerUse.executeComputerUseTool, ComputerUse.handleComputerAction,
    ComputerUse.handleBashAction, ComputerUse.handleTextEditorAction.
  cbv zeta. repeat (cbv zeta; quiet_step).
Qed.

Lemma quiet_page_navigate : keeps obs (PuppeteerComputerUse.navigateToWebsite E options).
Proof. unfold PuppeteerComputerUse.navigateToWebsite. repeat (cbv zeta; quiet_step). Qed.

Lemma quiet_page_tool (name : string) (input : ToolInput) :
  keeps obs (PuppeteerComputerUse.executeComputerUseTool E options name input).
Proof.
  unfold PuppeteerComputerUse.executeComputerUseTool,
    PuppeteerComputerUse.handleComputerAction.
  cbv zeta. repeat (cbv zeta; quiet_step).
Qed.

Lemma quiet_setup (commands : list string) :
  keeps obs (DockerManager.run_setup E commands).
Proof.
  induction commands as [|command rest IH]; cbn [DockerManager.run_setup].
  - apply keeps_ret.
  - apply keeps_bind; [|intros _; exact IH]. repeat (cbv zeta; quiet_step).
Qed.

Lemma quiet_initialize (testId : string) :
  keeps obs (DockerManager.initialize E testId).
Proof.
  unfold DockerManager.initialize, DockerManager.setupContainerEnvironment.
  repeat first [apply quiet_setup | cbv zeta; quiet_step].
Qed.

Lemma quiet_docker_cleanup : keeps obs (DockerManager.cleanup E).
Proof.
  intros w. unfold DockerManager.cleanup. destruct (container w); [|reflexivity].
  cbn [negb]. revert w.
  change (keeps obs
    (try_finally
       (try_catch
          (try_catch (call E ContainerStop) (fun _ => ret tt) ;;;
           try_catch (call E ContainerRemove) (fun _ => ret tt))
          (fun e => throw e))
       (modify (set_container false)))).
  repeat (cbv zeta; quiet_step).
Qed.

Lemma quiet_initializeBrowser : keeps obs (PuppeteerComputerUse.initializeBrowser E).
Proof. unfold PuppeteerComputerUse.initializeBrowser. cbv zeta. repeat (cbv zeta; quiet_step). Qed.

Lemma quiet_page_cleanup : keeps obs (PuppeteerComputerUse.cleanup E).
Proof.
  intros w. unfold PuppeteerComputerUse.cleanup. destruct (browser w); [|reflexivity].
  revert w.
  change (keeps obs
    (try_catch
       (call E BrowserClose ;;;
        modify (set_browser false) ;;;
        modify (set_page false) ;;;
        addLog E "Browser closed successfully")
       (fun e => addLog E ("Failed to close browser: " +:+ e)))).
  repeat (cbv zeta; quiet_step).
Qed.

Lemma quiet_errorState {A} (computerUse : option ExecutionMode) (e : string) :
  keeps obs (@Handler.errorState E A computerUse options e).
Proof. unfold Handler.errorState. repeat (cbv zeta; quiet_step). Qed.

Section WithAgent.
Hypothesis obs_agent : forall req ok w, obs (emit (MessagesCreate req) ok w) = obs w.

Lemma quiet_docker_loop (instruction : string) :
  keeps obs (ComputerUse.runClaudeWithComputerUse E options instruction).
Proof.
  apply keeps_runClaude;
    first [ exact obs_log | exact obs_actuation | exact obs_agent
          | apply keeps_docker_shot; exact obs_actuation
          | intros ? ?; apply quiet_docker_tool ].
Qed.

Lemma quiet_page_loop (instruction : string) :
  keeps obs (PuppeteerComputerUse.runClaudeWithComputerUse E options instruction).
Proof.
  apply keeps_runClaude;
    first [ exact obs_log | exact obs_actuation | exact obs_agent
          | apply keeps_page_shot; exact obs_actuation
          | intros ? ?; apply quiet_page_tool ].
Qed.

Lemma quiet_docker_execute (instruction : string) :
  keeps obs (ComputerUse.execute E options instruction).
Proof.
  unfold ComputerUse.execute.
  repeat first [apply quiet_docker_navigate | apply quiet_docker_loop | cbv zeta; quiet_step].
Qed.

Lemma quiet_page_execute (instruction : string) :
  keeps obs (PuppeteerComputerUse.execute E options instruction).
Proof.
  unfold PuppeteerComputerUse.execute.
  repeat first [ apply quiet_initializeBrowser | apply quiet_page_navigate
               | apply quiet_page_loop | apply quiet_page_cleanup | cbv zeta; quiet_step].
Qed.

Lemma quiet_runTest (testId instruction : string) (mode : ExecutionMode) :
  keeps obs (Handler.runTest E testId instruction options mode).
Proof.
  unfold Handler.runTest. destruct mode.
  - repeat first [ apply quiet_initialize | apply quiet_docker_cleanup
                 | apply quiet_docker_execute | apply quiet_errorState | cbv zeta; quiet_step ].
  - repeat first [apply quiet_page_execute | apply quiet_errorState | cbv zeta; quiet_step].
Qed.

End WithAgent.
End Quiet.

(** ** The budget of exchanges with the agent *)

Lemma spends_keeps {A} (m : M A) : keeps agent_calls m -> spends 0 m.
Proof. intros Hm w. rewrite Hm. lia. Qed.

Lemma spends_weaken {A} (a b : nat) (m : M A) : a <= b -> spends a m -> spends b m.
Proof. intros Hab Hm w. specialize (Hm w). lia. Qed.

Lemma spends_bind {A B} (a b : nat) (m : M A) (k : A -> M B) :
  spends a m -> (forall x, spends b (k x)) -> spends (a + b) (bind m k).
Proof.
  intros Hm Hk w. unfold bind. specialize (Hm w).
  destruct (m w) as [[x|e] w1]; cbn [snd] in *; [specialize (Hk x w1)|]; lia.
Qed.

Lemma spends_try_catch {A} (a b : nat) (m : M A) (h : string -> M A) :
  spends a m -> (forall e, spends b (h e)) -> spends (a + b) (try_catch m h).
Proof.
  intros Hm Hh w. unfold try_catch. specialize (Hm w).
  destruct (m w) as [[x|e] w1]; cbn [snd] in *; [|specialize (Hh e w1)]; lia.
Qed.

Lemma spends_try_finally {A} (a b : nat) (m : M A) (f : M unit) :
  spends a m -> spends b f -> spends (a + b) (try_finally m f).
Proof.
  intros Hm Hf w. rewrite snd_try_finally. specialize (Hm w). specialize (Hf (snd (m w))). lia.
Qed.

Lemma agent_calls_log (l : string) (w : World) : agent_calls (set_log l w) = agent_calls w.
Proof. reflexivity. Qed.

Lemma agent_calls_backend (c : Call) (ok : bool) (w : World) :
  backend_call c = true -> agent_calls (emit c ok w) = agent_calls w.
Proof.
  intros Hc. rewrite agent_calls_emit.
  destruct c; try discriminate Hc; cbn; lia.
Qed.

Lemma agent_calls_timer (d : option Z) (ok : bool) (w : World) :
  agent_calls (emit (RaceTimer d) ok w) = agent_calls w.
Proof. rewrite agent_calls_emit. cbn. lia. Qed.

Lemma agent_calls_act (c : Call) (ok : bool) (w : World) :
  actuation c = true -> agent_calls (emit c ok w) = agent_calls w.
Proof. intros Hc. apply agent_calls_backend. now apply backend_call_act. Qed.

Ltac calls_quiet :=
  first [ exact agent_calls_log | exact agent_calls_backend | exact agent_calls_act
        | intros; reflexivity
        | intros; apply keeps_docker_capture;
          first [exact agent_calls_log | exact agent_calls_act | intros; reflexivity]
        | intros; apply keeps_page_capture;
          first [exact agent_calls_log | exact agent_calls_act | intros; reflexivity] ].

Section Budget.
Context (E : Env).

Lemma spends_create (req : Request) : spends 1 (create E req).
Proof.
  intros w. unfold create. cbn [snd]. rewrite agent_calls_emit.
  destruct (is_create _); lia.
Qed.

Section AnyBackend.
Context (B : Backend).
Hypothesis shot_calls : keeps agent_calls takeScreenshotForClaude.
Hypothesis tool_calls : forall name input,
    keeps agent_calls (executeComputerUseTool name input).

Lemma spends_round (iteration : nat) (msgs : list Message) :
  spends 1 (round E B iteration msgs).
Proof.
  unfold round. cbv zeta.
  apply (spends_bind 0 1); [now apply spends_keeps | intros shot].
  apply (spends_bind 1 0); [apply spends_create | intros response].
  apply spends_keeps.
  keeps_auto; first [apply keeps_addLog | apply keeps_sleep];
    first [exact agent_calls_log | exact agent_calls_act].
Qed.

Lemma spends_while_loop (remaining : nat) :
  forall iteration msgs, spends remaining (while_loop E B remaining iteration msgs).
Proof.
  induction remaining as [|remaining IH]; intros iteration msgs; cbn [while_loop].
  - apply spends_keeps, keeps_ret.
  - cbv zeta.
    apply (spends_bind 0 (S remaining));
      [apply spends_keeps, keeps_addLog; exact agent_calls_log | intros _].
    apply (spends_bind 1 remaining).
    + apply (spends_try_catch 1 0); [apply spends_round | intros e].
      apply spends_keeps.
      apply keeps_bind; [apply keeps_addLog; exact agent_calls_log | intros _].
      apply keeps_throw.
    + intros [msgs'|]; [apply IH|].
      apply (spends_weaken 0); [lia|]. apply spends_keeps, keeps_ret.
Qed.

Lemma spends_runClaude (instruction : string) :
  spends maxIterations (runClaudeWithComputerUse E B instruction).
Proof.
  unfold runClaudeWithComputerUse, run_loop.
  replace maxIterations with (maxIterations + 0) at 1 by lia.
  apply spends_bind; [|intros r; apply spends_keeps, keeps_ret].
  replace maxIterations with (maxIterations + 0) at 1 by lia.
  apply spends_bind.
  - rewrite Nat.sub_0_r. apply spends_while_loop.
  - intros [iteration msgs]. apply spends_keeps.
    destruct (maxIterations <=? iteration); [apply keeps_throw | apply keeps_ret].
Qed.

End AnyBackend.
End Budget.

Lemma spends_after {A B} (n : nat) (m : M A) (k : A -> M B) :
  keeps agent_calls m -> (forall x, spends n (k x)) -> spends n (bind m k).
Proof.
  intros Hm Hk. apply (spends_bind 0 n); [now apply spends_keeps | exact Hk].
Qed.

Lemma spends_before {A B} (n : nat) (m : M A) (k : A -> M B) :
  spends n m -> (forall x, keeps agent_calls (k x)) -> spends n (bind m k).
Proof.
  intros Hm Hk. replace n with (n + 0) by lia.
  apply spends_bind; [exact Hm | intros x; now apply spends_keeps].
Qed.

Lemma spends_caught {A} (n : nat) (m : M A) (h : string -> M A) :
  spends n m -> (forall e, keeps agent_calls (h e)) -> spends n (try_catch m h).
Proof.
  intros Hm Hh. replace n with (n + 0) by lia.
  apply spends_try_catch; [exact Hm | intros e; now apply spends_keeps].
Qed.

Lemma spends_finally {A} (n : nat) (m : M A) (f : M unit) :
  spends n m -> keeps agent_calls f -> spends n (try_finally m f).
Proof.
  intros Hm Hf. replace n with (n + 0) by lia.
  apply spends_try_finally; [exact Hm | now apply spends_keeps].
Qed.

Section RunBudget.
Context (E : Env) (options : gmap string JsVal).

Lemma spends_docker_loop (instruction : string) :
  spends maxIterations (ComputerUse.runClaudeWithComputerUse E options instruction).
Proof.
  apply spends_runClaude.
  - apply keeps_docker_shot; calls_quiet.
  - intros name input. apply quiet_docker_tool; calls_quiet.
Qed.

Lemma spends_page_loop (instruction : string) :
  spends maxIterations (PuppeteerComputerUse.runClaudeWithComputerUse E options instruction).
Proof.
  apply spends_runClaude.
  - apply keeps_page_shot; calls_quiet.
  - intros name input. apply quiet_page_tool; calls_quiet.
Qed.

Lemma spends_docker_execute (instruction : string) :
  spends maxIterations (ComputerUse.execute E options instruction).
Proof.
  unfold ComputerUse.execute.
  apply spends_after; [apply keeps_addLog; calls_quiet | intros _].
  apply spends_caught.
  - apply spends_after.
    { destruct (takeScreenshots options); [|apply keeps_ret].
      apply keeps_bind; [|intros ?; apply keeps_ret].
      apply keeps_docker_capture; calls_quiet. }
    intros _. apply spends_after; [apply quiet_docker_navigate; calls_quiet | intros _].
    apply spends_before; [apply spends_docker_loop | intros result].
    keeps_auto. apply keeps_addLog; calls_quiet.
  - intros e. keeps_auto. apply keeps_addLog; calls_quiet.
Qed.

Lemma spends_page_execute (instruction : string) :
  spends maxIterations (PuppeteerComputerUse.execute E options instruction).
Proof.
  unfold PuppeteerComputerUse.execute.
  apply spends_after; [apply keeps_addLog; calls_quiet | intros _].
  apply spends_finally; [|apply quiet_page_cleanup; calls_quiet].
  apply spends_caught.
  - apply spends_after; [apply quiet_initializeBrowser; calls_quiet | intros _].
    apply spends_after; [apply quiet_page_navigate; calls_quiet | intros _].
    apply spends_after.
    { destruct (takeScreenshots options); [|apply keeps_ret].
      apply keeps_bind; [|intros ?; apply keeps_ret].
      apply keeps_page_capture; calls_quiet. }
    intros _. apply spends_before; [apply spends_page_loop | intros result].
    keeps_auto. apply keeps_addLog; calls_quiet.
  - intros e. keeps_auto. apply keeps_addLog; calls_quiet.
Qed.

Lemma spends_runTest (testId instruction : string) (mode : ExecutionMode) :
  spends maxIterations (Handler.runTest E testId instruction options mode).
Proof.
  unfold Handler.runTest. destruct mode.
  - apply spends_finally.
    + apply spends_after.
      * apply keeps_try_catch; [apply quiet_initialize; calls_quiet | intros e].
        apply quiet_errorState; calls_quiet.
      * intros _. apply spends_caught.
        -- apply spends_before; [apply spends_docker_execute | intros r; apply keeps_ret].
        -- intros e. apply quiet_errorState; calls_quiet.
    + apply keeps_try_catch; [apply quiet_docker_cleanup; calls_quiet | intros e; apply keeps_ret].
  - apply spends_finally; [|apply keeps_ret].
    apply spends_caught.
    + apply spends_before; [apply spends_page_execute | intros r; apply keeps_ret].
    + intros e. apply quiet_errorState; calls_quiet.
Qed.

End RunBudget.

(** ** The handler as a whole *)

(** What the handler does with a request it accepts. *)
Lemma handler_accepts E (instr key : string) (opts : gmap string JsVal) (w : World) :
  ANTHROPIC_API_KEY E = Some key -> key <> "" -> instr <> "" ->
  activeTests w = ∅ ->
  let testId := uuidv4 E (trace w) in
  let mode := if USE_DOCKER E then docker else puppeteer in
  let r := Handler.race E (Handler.deadline E (Handler.testOptions E opts))
             (Handler.runTest E testId instr (Handler.testOptions E opts) mode)
             (set_activeTests ({[ testId ]} ∪ activeTests w) w) in
  Handler.handler E "POST" (post instr opts) w
  = (Ok match fst r with
        | Ok result => mkResponse 200 (result_body result)
        | Throw e => mkResponse 500 (failure_body e (Some testId))
        end,
     set_activeTests (activeTests (snd r) ∖ {[ testId ]}) (snd r)).
Proof.
  intros Hkey Hne Hinstr Hactive. cbv zeta. unfold Handler.handler, post.
  cbn [String.eqb Ascii.eqb Bool.eqb negb]. rewrite Hkey.
  destruct (String.eqb_spec key "") as [->|_]; [congruence|]. cbn [negb].
  cbn [instruction options default found id].
  destruct instr as [|c rest]; [congruence|].
  rewrite Hactive at 1. rewrite size_empty. cbn [Nat.leb].
  unfold try_finally, bind at 1, try_catch, bind, modify, ret.
  destruct (Handler.race E _ _ _) as [[result|e] w2]; reflexivity.
Qed.

(** An accepted request whose [options] are [null]: the slot is taken,
    reading [options.timeout] throws, the [catch] block answers with
    the identifier of the test, and the slot is given back.  Nothing is
    started. *)
Lemma handler_null_options E (instr key : string) (w : World) :
  ANTHROPIC_API_KEY E = Some key -> key <> "" -> instr <> "" ->
  activeTests w = ∅ ->
  let testId := uuidv4 E (trace w) in
  Handler.handler E "POST" (Ok (mkBody (Some (JStr instr)) (Some options_null))) w
  = (Ok (mkResponse 500
           (failure_body "Cannot read properties of null (reading 'timeout')" (Some testId))),
     set_activeTests (({[ testId ]} ∪ activeTests w) ∖ {[ testId ]})
       (set_activeTests ({[ testId ]} ∪ activeTests w) w)).
Proof.
  intros Hkey Hne Hinstr Hactive. cbv zeta. unfold Handler.handler.
  cbn [String.eqb Ascii.eqb Bool.eqb negb]. rewrite Hkey.
  destruct (String.eqb_spec key "") as [->|_]; [congruence|]. cbn [negb].
  cbn [instruction options default id].
  destruct instr as [|c rest]; [congruence|].
  rewrite Hactive at 1. rewrite size_empty. cbn [Nat.leb].
  reflexivity.
Qed.

(** Every request falls in one of three classes: it is turned away with
    the world as it was, or it is a well-formed POST that finds the
    slot free, with [options] that are an object (or absent), or with
    [options] that are [null]. *)
Lemma handler_cases E (httpMethod : string) (parsed : Outcome RequestBody) (w : World) :
  (exists resp,
      Handler.handler E httpMethod parsed w = (Ok resp, w)
      /\ names_test (body resp) = false
      /\ In (statusCode resp) [200; 400; 405; 429; 500]%Z
      /\ (statusCode resp = 200%Z -> httpMethod = "OPTIONS" /\ body resp = empty_body))
  \/ (exists instr key (o : OptionsField) opts,
      httpMethod = "POST" /\ parsed = Ok (mkBody (Some (JStr instr)) o)
      /\ default (options_object ∅) o = options_object opts
      /\ ANTHROPIC_API_KEY E = Some key /\ key <> "" /\ instr <> ""
      /\ activeTests w = ∅
      /\ Handler.handler E httpMethod parsed w
         = Handler.handler E "POST" (post instr opts) w)
  \/ (exists instr key,
      httpMethod = "POST" /\ parsed = Ok (mkBody (Some (JStr instr)) (Some options_null))
      /\ ANTHROPIC_API_KEY E = Some key /\ key <> "" /\ instr <> ""
      /\ activeTests w = ∅).
Proof.
  assert (Hrefuse : forall resp : Response,
             names_test (body resp) = false ->
             In (statusCode resp) [200; 400; 405; 429; 500]%Z ->
             (statusCode resp = 200%Z -> httpMethod = "OPTIONS" /\ body resp = empty_body) ->
             exists resp',
               (Ok resp, w) = (Ok resp', w)
               /\ names_test (body resp') = false
               /\ In (statusCode resp') [200; 400; 405; 429; 500]%Z
               /\ (statusCode resp' = 200%Z ->
                   httpMethod = "OPTIONS" /\ body resp' = empty_body)).
  { intros resp H1 H2 H3. exists resp. auto. }
  unfold Handler.handler.
  destruct (String.eqb_spec httpMethod "OPTIONS") as [->|_].
  { left. apply Hrefuse; cbn; auto. }
  destruct (String.eqb_spec httpMethod "POST") as [->|_]; cbn [negb].
  2: { left. apply Hrefuse; cbn; auto; discriminate. }
  destruct (ANTHROPIC_API_KEY E) as [key|] eqn:Hkey.
  2: { left. apply Hrefuse; cbn; auto 10; discriminate. }
  destruct (String.eqb_spec key "") as [->|Hne]; cbn [negb].
  { left. apply Hrefuse; cbn; auto 10; discriminate. }
  destruct parsed as [request|e].
  2: { left. apply Hrefuse; cbn; auto 10; discriminate. }
  destruct request as [[[| | | |[|c rest]|]|] o]; cbn [instruction options].
  all: try (left; apply Hrefuse; cbn; auto 10; discriminate).
  destruct (size (activeTests w)) as [|n] eqn:Hsize; cbn [Nat.leb].
  2: { left. apply Hrefuse; cbn; auto 10; discriminate. }
  apply size_empty_inv in Hsize. apply leibniz_equiv in Hsize.
  right. destruct o as [[opts|]|].
  - left. exists (String c rest), key, (Some (options_object opts)), opts.
    repeat split; try assumption; try discriminate.
    unfold post. cbn [String.eqb Ascii.eqb Bool.eqb negb instruction options default found id].
    rewrite Hsize, size_empty. cbn [Nat.leb]. reflexivity.
  - right. exists (String c rest), key.
    repeat split; try assumption; discriminate.
  - left. exists (String c rest), key, None, ∅.
    repeat split; try assumption; try discriminate.
    unfold post. cbn [String.eqb Ascii.eqb Bool.eqb negb instruction options default found id].
    rewrite Hsize, size_empty. cbn [Nat.leb]. reflexivity.
Qed.

Lemma errorState_throws {A} E (computerUse : option ExecutionMode)
    (options : gmap string JsVal) (e : string) (w : World) :
  fst (@Handler.errorState E A computerUse options e w) = Throw e.
Proof.
  unfold Handler.errorState. destruct computerUse as [[|]|]; [| |reflexivity].
  all: unfold bind, try_catch, throw, ret.
  - destruct (ComputerUse.captureScreenshot E options "Error state" w) as [[shot|e'] w1];
      reflexivity.
  - destruct (PuppeteerComputerUse.captureScreenshot E options "Error state" w)
      as [[shot|e'] w1]; reflexivity.
Qed.

Lemma runTest_report E (testId instr : string) (options : gmap string JsVal)
    (mode : ExecutionMode) (w : World) (result : TestResult) :
  fst (Handler.runTest E testId instr options mode w) = Ok result ->
  success result = true
  /\ message result = "Successfully completed: " +:+ instr
  /\ tr_testId result = testId
  /\ tr_executionMode result = mode.
Proof.
  unfold Handler.runTest, try_finally. destruct mode.
  - unfold bind at 1.
    destruct (try_catch (DockerManager.initialize E testId) _ w) as [[[]|e0] w1] eqn:Hinit.
    + unfold try_catch at 1, bind at 1.
      destruct (ComputerUse.execute E options instr w1) as [[run|e1] w2]; cbn [ret].
      * destruct (try_catch (DockerManager.cleanup E) _ w2) as [[[]|e2] w3]; cbn [fst];
          [|discriminate].
        intros [= <-]. repeat split.
      * pose proof (errorState_throws (A := TestResult) E (Some docker) options e1 w2) as Hthrow.
        destruct (Handler.errorState E (Some docker) options e1 w2) as [r w3].
        cbn [fst] in Hthrow. subst r.
        destruct (try_catch (DockerManager.cleanup E) _ w3) as [[[]|e2] w4]; discriminate.
    + destruct (try_catch (DockerManager.cleanup E) _ w1) as [[[]|e2] w3]; discriminate.
  - unfold try_catch, bind.
    destruct (PuppeteerComputerUse.execute E options instr w) as [[run|e1] w2]; cbn [ret].
    + intros [= <-]. repeat split.
    + pose proof (errorState_throws (A := TestResult) E (Some puppeteer) options e1 w2) as Hthrow.
      destruct (Handler.errorState E (Some puppeteer) options e1 w2) as [r w3].
      cbn [fst] in Hthrow. subst r. discriminate.
Qed.

Lemma race_report E {A} (delay : option Z) (run : M A) (w : World) (a : A) :
  fst (Handler.race E delay run w) = Ok a ->
  fst (run (emit (RaceTimer delay) (negb (timer_first E (trace w) delay)) w)) = Ok a.
Proof.
  unfold Handler.race.
  destruct (run (emit (RaceTimer delay) (negb (timer_first E (trace w) delay)) w))
    as [r w'].
  destruct (timer_first E (trace w) delay); [discriminate | auto].
Qed.

(** X13. The handler never rejects: whatever the method, the body and the
    environment, it resolves with a response whose status is 200, 400,
    405, 429 or 500.  A 200 is either the empty answer to an OPTIONS
    request, or the answer to a POST whose body holds a string
    instruction and [options] that are not [null], and then carries the
    report of a run: success flag set, the message 'Successfully completed: ' followed by the
    instruction of that request, the test identifier generated for the
    request, and the execution mode the environment selects. *)
Theorem handler_always_answers (E : Env) (httpMethod : string)
    (parsed : Outcome RequestBody) (w : World) :
  exists resp,
    fst (Handler.handler E httpMethod parsed w) = Ok resp
    /\ In (statusCode resp) [200; 400; 405; 429; 500]%Z
    /\ (statusCode resp = 200%Z ->
        (httpMethod = "OPTIONS" /\ body resp = empty_body)
        \/ exists request instr result,
             httpMethod = "POST"
             /\ parsed = Ok request
             /\ instruction request = Some (JStr instr)
             /\ options request <> Some options_null
             /\ body resp = result_body result
             /\ success result = true
             /\ message result = "Successfully completed: " +:+ instr
             /\ tr_testId result = uuidv4 E (trace w)
             /\ tr_executionMode result = (if USE_DOCKER E then docker else puppeteer)).
Proof.
  destruct (handler_cases E httpMethod parsed w)
    as [(resp & Hrun & Hquiet & Hstatus & Hempty)
       | [(instr & key & o & opts & -> & -> & Ho & Hkey & Hne & Hinstr & Hactive & ->)
         | (instr & key & -> & -> & Hkey & Hne & Hinstr & Hactive)]].
  - exists resp. rewrite Hrun. split; [reflexivity|]. split; [exact Hstatus|].
    intros H200. left. now apply Hempty.
  - rewrite (handler_accepts E instr key opts w Hkey Hne Hinstr Hactive).
    cbn [fst].
    destruct (fst (Handler.race E _ _ _)) as [result|e] eqn:Hrace.
    + eexists. split; [reflexivity|]. split; [cbn; auto|].
      intros _. right. exists (mkBody (Some (JStr instr)) o), instr, result.
      apply race_report in Hrace. apply runTest_report in Hrace.
      destruct Hrace as (Hs & Hm & Hid & Hmode). cbn [body instruction options].
      assert (Hobject : o <> Some options_null) by (intros ->; discriminate Ho).
      auto 12.
    + eexists. split; [reflexivity|]. split; [cbn; auto 10 | discriminate].
  - rewrite (handler_null_options E instr key w Hkey Hne Hinstr Hactive).
    eexists. split; [reflexivity|]. split; [cbn; auto 10 | discriminate].
Qed.

Lemma keeps_race E {X A} (obs : World -> X) (delay : option Z) (run : M A) :
  (forall ok w, obs (emit (RaceTimer delay) ok w) = obs w) ->
  keeps obs run -> keeps obs (Handler.race E delay run).
Proof.
  intros Htimer Hrun w.
  destruct (race_effects E delay run w) as [-> _]. rewrite Hrun. apply Htimer.
Qed.

(** X14. The slot a request takes is given back on every path: after the
    handler has settled, whatever the request, the environment and the
    outcome of the run (completion, failure of a backend, the deadline),
    the set of active tests is what it was before the request. *)
Theorem handler_releases_slot (E : Env) (httpMethod : string)
    (parsed : Outcome RequestBody) (w : World) :
  activeTests (snd (Handler.handler E httpMethod parsed w)) = activeTests w.
Proof.
  assert (Hslot : forall testId : string,
             ({[ testId ]} ∪ activeTests w) ∖ {[ testId ]} = activeTests w
             \/ activeTests w <> ∅).
  { intros testId. destruct (decide (activeTests w = ∅)) as [Hactive|]; [left | now right].
    rewrite Hactive. apply set_eq. intros x.
    rewrite elem_of_difference, elem_of_union.
    pose proof (not_elem_of_empty (C := gset string) x). tauto. }
  destruct (handler_cases E httpMethod parsed w)
    as [(resp & -> & _)
       | [(instr & key & o & opts & -> & -> & Ho & Hkey & Hne & Hinstr & Hactive & ->)
         | (instr & key & -> & -> & Hkey & Hne & Hinstr & Hactive)]];
    [reflexivity| |].
  - rewrite (handler_accepts E instr key opts w Hkey Hne Hinstr Hactive).
    cbn [snd set_activeTests activeTests].
    rewrite keeps_race.
    + cbn [set_activeTests activeTests].
      destruct (Hslot (uuidv4 E (trace w))) as [Heq|Hfull]; [exact Heq | contradiction].
    + intros; reflexivity.
    + apply quiet_runTest; intros; try reflexivity.
      * apply keeps_docker_capture; intros; reflexivity.
      * apply keeps_page_capture; intros; reflexivity.
  - rewrite (handler_null_options E instr key w Hkey Hne Hinstr Hactive).
    cbn [snd set_activeTests activeTests].
    destruct (Hslot (uuidv4 E (trace w))) as [Heq|Hfull]; [exact Heq | contradiction].
Qed.

(** X15. A response that names no test (the answer to OPTIONS, 405, 400,
    429, and the 500 for a missing API key or an unreadable body) stands
    for a request that caused nothing: no container, no browser, no
    exchange with the agent, no timer; the world is as it was. *)
Theorem refused_requests_do_nothing (E : Env) (httpMethod : string)
    (parsed : Outcome RequestBody) (w : World) (resp : Response) :
  fst (Handler.handler E httpMethod parsed w) = Ok resp ->
  names_test (body resp) = false ->
  snd (Handler.handler E httpMethod parsed w) = w.
Proof.
  destruct (handler_cases E httpMethod parsed w)
    as [(resp' & -> & _)
       | [(instr & key & o & opts & -> & -> & Ho & Hkey & Hne & Hinstr & Hactive & ->)
         | (instr & key & -> & -> & Hkey & Hne & Hinstr & Hactive)]];
    [reflexivity| |].
  - rewrite (handler_accepts E instr key opts w Hkey Hne Hinstr Hactive).
    cbn [fst]. intros [= <-].
    destruct (fst (Handler.race E _ _ _)); discriminate.
  - rewrite (handler_null_options E instr key w Hkey Hne Hinstr Hactive).
    cbn [fst]. intros [= <-]. discriminate.
Qed.

Lemma refused_requests_do_nothing_witness :
  snd (Handler.handler (scripted exec_ok answer_ok agent_done) "POST"
         (Ok (mkBody (Some (JNum 7)) None)) initial)
  = initial.
Proof.
  apply (refused_requests_do_nothing (scripted exec_ok answer_ok agent_done) "POST"
           (Ok (mkBody (Some (JNum 7)) None)) initial
           (mkResponse 400
              (error_body "Missing or invalid instruction. Please provide a string instruction."))).
  - reflexivity.
  - reflexivity.
Defined.

(** X16. When the deadline timer of an accepted request fires before the
    run settles, the handler answers with a 500 that carries the message
    'Test timeout' and the identifier generated for the test, whatever
    the run itself does or would have reported. *)
Theorem deadline_reports_timeout (E : Env) (instr key : string)
    (opts : gmap string JsVal) (w : World) :
  ANTHROPIC_API_KEY E = Some key -> key <> "" -> instr <> "" ->
  activeTests w = ∅ ->
  timer_first E (trace w) (Handler.deadline E (Handler.testOptions E opts)) = true ->
  fst (Handler.handler E "POST" (post instr opts) w)
  = Ok (mkResponse 500 (failure_body "Test timeout" (Some (uuidv4 E (trace w))))).
Proof.
  intros Hkey Hne Hinstr Hactive Htimer.
  rewrite (handler_accepts E instr key opts w Hkey Hne Hinstr Hactive).
  cbn [fst].
  match goal with
  | |- context [Handler.race E ?d ?run ?w1] =>
      destruct (race_effects E d run w1) as [_ Ht]
  end.
  cbn [trace set_activeTests] in Ht. rewrite Ht by exact Htimer. reflexivity.
Qed.

Lemma deadline_reports_timeout_witness :
  fst (Handler.handler (deadline_passes (scripted exec_ok answer_ok agent_done)) "POST"
         (post "take a screenshot of the homepage" capture_disabled) initial)
  = Ok (mkResponse 500 (failure_body "Test timeout" (Some "test-1"))).
Proof.
  refine (deadline_reports_timeout
            (deadline_passes (scripted exec_ok answer_ok agent_done))
            "take a screenshot of the homepage" "sk-test" capture_disabled initial
            _ _ _ _ _).
  - reflexivity.
  - discriminate.
  - discriminate.
  - reflexivity.
  - reflexivity.
Defined.

(** X17. One request makes at most [maxIterations] exchanges with the
    remote agent, whatever the environment answers: not more than twenty
    calls of the paid interface per request, also when the deadline has
    passed, as the run is not cancelled. *)
Theorem handler_agent_budget (E : Env) (httpMethod : string)
    (parsed : Outcome RequestBody) (w : World) :
  agent_calls (snd (Handler.handler E httpMethod parsed w))
  <= agent_calls w + maxIterations.
Proof.
  destruct (handler_cases E httpMethod parsed w)
    as [(resp & -> & _)
       | [(instr & key & o & opts & -> & -> & Ho & Hkey & Hne & Hinstr & Hactive & ->)
         | (instr & key & -> & -> & Hkey & Hne & Hinstr & Hactive)]];
    [cbn [snd]; lia| |].
  - rewrite (handler_accepts E instr key opts w Hkey Hne Hinstr Hactive).
    cbn [snd].
    match goal with
    | |- context [Handler.race E ?d ?run ?w1] =>
        destruct (race_effects E d run w1) as [-> _]
    end.
    match goal with
    | |- context [Handler.runTest E ?id ?i ?o ?m ?w1] =>
        pose proof (spends_runTest E o id i m w1) as Hrun
    end.
    rewrite agent_calls_timer in Hrun. exact Hrun.
  - rewrite (handler_null_options E instr key w Hkey Hne Hinstr Hactive).
    cbn [snd]. change (agent_calls (set_activeTests ?a (set_activeTests ?b w)))
      with (agent_calls w). lia.
Qed.

Lemma testOptions_capture E (opts : gmap string JsVal) :
  takeScreenshots (Handler.testOptions E opts)
  = match opts !! "takeScreenshots" with
    | Some v => truthy v
    | None => true
    end.
Proof.
  unfold takeScreenshots, Handler.testOptions.
  destruct (opts !! "takeScreenshots") as [v|] eqn:Hv.
  - rewrite (lookup_union_Some_l _ _ _ _ Hv). reflexivity.
  - rewrite lookup_union_r by exact Hv.
    rewrite lookup_insert_ne by discriminate. rewrite lookup_insert_eq. reflexivity.
Qed.

(** X18. How the caller's options reach the backends.  Capture is on
    when the caller says nothing about [takeScreenshots]; a value the
    caller supplies is taken as it is, so that not only [false] but
    every falsy value ([null], 0, the empty string) turns capture off.
    The site is the caller's [websiteUrl] when that is truthy; a falsy
    one from the caller hides the configured site as well, and the
    backends fall back to their own default. *)
Theorem options_reach_the_backends (E : Env) (opts : gmap string JsVal) :
  takeScreenshots (Handler.testOptions E opts)
  = match opts !! "takeScreenshots" with
    | Some v => truthy v
    | None => true
    end
  /\ websiteUrl (Handler.testOptions E opts)
     = match opts !! "websiteUrl" with
       | Some v => if truthy v then render v else "app.giftround.com"
       | None => or_else (WEBSITE_URL E) "app.giftround.com"
       end.
Proof.
  split; [apply testOptions_capture|].
  unfold websiteUrl, Handler.testOptions.
  destruct (opts !! "websiteUrl") as [v|] eqn:Hv.
  - rewrite (lookup_union_Some_l _ _ _ _ Hv). reflexivity.
  - rewrite lookup_union_r by exact Hv.
    rewrite !lookup_insert_ne by discriminate. rewrite lookup_insert_eq.
    cbn [truthy render]. unfold or_else.
    destruct (String.eqb (WEBSITE_URL E) ""); reflexivity.
Qed.

(** X19. With capture turned off by the caller, a request leaves the
    screenshot trail as it was, on both backends and whatever the
    environment does: neither the set-up, nor a screenshot action of
    the agent, nor the error path of [runTest] stores a record. *)
Theorem capture_off_keeps_trail (E : Env) (httpMethod : string)
    (request : RequestBody) (opts : gmap string JsVal) (v : JsVal) (w : World) :
  options request = Some opts ->
  opts !! "takeScreenshots" = Some v ->
  truthy v = false ->
  screenshots (snd (Handler.handler E httpMethod (Ok request) w)) = screenshots w.
Proof.
  intros Hopts Hv Hfalsy.
  destruct (handler_cases E httpMethod (Ok request) w)
    as [(resp & -> & _)
       | [(instr & key & o & opts' & -> & Hreq & Ho & Hkey & Hne & Hinstr & Hactive & ->)
         | (instr & key & -> & Hreq & Hkey & Hne & Hinstr & Hactive)]];
    [reflexivity| |].
  2: { injection Hreq as ->. cbn [options found] in Hopts. discriminate Hopts. }
  injection Hreq as ->. cbn [options found] in Hopts. subst o.
  injection Ho as <-.
  rewrite (handler_accepts E instr key opts w Hkey Hne Hinstr Hactive).
  cbn [snd set_activeTests screenshots].
  assert (Hoff : takeScreenshots (Handler.testOptions E opts) = false)
    by (rewrite testOptions_capture, Hv; exact Hfalsy).
  rewrite keeps_race.
  - reflexivity.
  - intros; reflexivity.
  - apply quiet_runTest; intros; try reflexivity.
    + unfold ComputerUse.captureScreenshot. rewrite Hoff. apply keeps_ret.
    + intros w0. unfold PuppeteerComputerUse.captureScreenshot. rewrite Hoff. reflexivity.
Qed.

Lemma capture_off_keeps_trail_witness :
  screenshots (snd (Handler.handler (scripted exec_ok answer_ok agent_done) "POST"
                      (post "take a screenshot of the homepage" capture_null) initial))
  = [].
Proof.
  apply (capture_off_keeps_trail (scripted exec_ok answer_ok agent_done) "POST"
           (mkBody (Some (JStr "take a screenshot of the homepage")) (Some capture_null))
           capture_null JNull initial).
  - reflexivity.
  - reflexivity.
  - reflexivity.
Defined.

(** ** An agent out of reach *)

Lemma fails_throw {A} (e : string) : fails (@throw A e).
Proof. intros w. reflexivity. Qed.

Lemma fails_bind_l {A B} (m : M A) (k : A -> M B) : fails m -> fails (bind m k).
Proof.
  intros Hm w. unfold bind. specialize (Hm w).
  destruct (m w) as [[x|e] w1]; [discriminate Hm | reflexivity].
Qed.

Lemma fails_bind_r {A B} (m : M A) (k : A -> M B) :
  (forall x, fails (k x)) -> fails (bind m k).
Proof.
  intros Hk w. unfold bind.
  destruct (m w) as [[x|e] w1]; [apply Hk | reflexivity].
Qed.

Lemma fails_try_catch {A} (m : M A) (h : string -> M A) :
  fails m -> (forall e, fails (h e)) -> fails (try_catch m h).
Proof.
  intros Hm Hh w. unfold try_catch. specialize (Hm w).
  destruct (m w) as [[x|e] w1]; [discriminate Hm | apply Hh].
Qed.

Lemma fails_try_finally {A} (m : M A) (f : M unit) :
  fails m -> fails (try_finally m f).
Proof.
  intros Hm w. unfold try_finally. specialize (Hm w).
  destruct (m w) as [[x|e] w1]; [discriminate Hm|].
  destruct (f w1) as [[[]|e'] w2]; reflexivity.
Qed.

Lemma fails_errorState {A} E (computerUse : option ExecutionMode)
    (options : gmap string JsVal) (e : string) :
  fails (@Handler.errorState E A computerUse options e).
Proof. intros w. now rewrite errorState_throws. Qed.

(** What follows a step that rejects does not run. *)
Lemma spends_cut {A B} (n : nat) (m : M A) (k : A -> M B) :
  spends n m -> fails m -> spends n (bind m k).
Proof.
  intros Hn Hm w. unfold bind. specialize (Hn w). specialize (Hm w).
  destruct (m w) as [[x|e] w1]; [discriminate Hm | exact Hn].
Qed.

Section Outage.
Context (E : Env) (down : agent_down E).

Lemma create_down (req : Request) : fails (create E req).
Proof. intros w. unfold create. cbn [fst]. apply down. Qed.

Section AnyBackend.
Context (B : Backend).
Hypothesis shot_calls : keeps agent_calls takeScreenshotForClaude.
Hypothesis tool_calls : forall name input,
    keeps agent_calls (executeComputerUseTool name input).

Lemma round_down (iteration : nat) (msgs : list Message) :
  fails (round E B iteration msgs).
Proof.
  unfold round. cbv zeta. apply fails_bind_r. intros shot.
  apply fails_bind_l. apply create_down.
Qed.

Lemma attempt_down (iteration : nat) (msgs : list Message) :
  fails (try_catch (round E B iteration msgs)
           (fun e =>
              addLog E ("Error in iteration " +:+ pretty iteration +:+ ": " +:+ e) ;;;
              throw e)).
Proof.
  apply fails_try_catch; [apply round_down | intros e].
  apply fails_bind_r. intros _. apply fails_throw.
Qed.

Lemma runClaude_down (instruction : string) :
  fails (runClaudeWithComputerUse E B instruction)
  /\ spends 1 (runClaudeWithComputerUse E B instruction).
Proof.
  unfold runClaudeWithComputerUse, run_loop.
  change (maxIterations - 0) with (S 19). cbn [while_loop]. cbv zeta.
  split.
  - apply fails_bind_l, fails_bind_l, fails_bind_r. intros _.
    apply fails_bind_l. apply attempt_down.
  - apply spends_cut.
    + apply spends_cut.
      * apply spends_after; [apply keeps_addLog; exact agent_calls_log | intros _].
        apply spends_cut; [|apply attempt_down].
        apply spends_caught; [now apply spends_round | intros e].
        apply keeps_bind; [apply keeps_addLog; exact agent_calls_log | intros _].
        apply keeps_throw.
      * apply fails_bind_r. intros _. apply fails_bind_l. apply attempt_down.
    + apply fails_bind_l, fails_bind_r. intros _. apply fails_bind_l. apply attempt_down.
Qed.

End AnyBackend.

Context (options : gmap string JsVal).

Lemma docker_loop_down (instruction : string) :
  fails (ComputerUse.runClaudeWithComputerUse E options instruction)
  /\ spends 1 (ComputerUse.runClaudeWithComputerUse E options instruction).
Proof.
  apply runClaude_down.
  - apply keeps_docker_shot; calls_quiet.
  - intros name input. apply quiet_docker_tool; calls_quiet.
Qed.

Lemma page_loop_down (instruction : string) :
  fails (PuppeteerComputerUse.runClaudeWithComputerUse E options instruction)
  /\ spends 1 (PuppeteerComputerUse.runClaudeWithComputerUse E options instruction).
Proof.
  apply runClaude_down.
  - apply keeps_page_shot; calls_quiet.
  - intros name input. apply quiet_page_tool; calls_quiet.
Qed.

Lemma docker_execute_down (instruction : string) :
  fails (ComputerUse.execute E options instruction)
  /\ spends 1 (ComputerUse.execute E options instruction).
Proof.
  destruct (docker_loop_down instruction) as [Hfails Hspends].
  unfold ComputerUse.execute. split.
  - apply fails_bind_r. intros _. apply fails_try_catch.
    + apply fails_bind_r. intros _. apply fails_bind_r. intros _.
      apply fails_bind_l. exact Hfails.
    + intros e. apply fails_bind_r. intros _. apply fails_throw.
  - apply spends_after; [apply keeps_addLog; calls_quiet | intros _].
    apply spends_caught.
    + apply spends_after.
      { destruct (takeScreenshots options); [|apply keeps_ret].
        apply keeps_bind; [|intros ?; apply keeps_ret].
        apply keeps_docker_capture; calls_quiet. }
      intros _. apply spends_after; [apply quiet_docker_navigate; calls_quiet | intros _].
      apply spends_cut; [exact Hspends | exact Hfails].
    + intros e. keeps_auto. apply keeps_addLog; calls_quiet.
Qed.

Lemma page_execute_down (instruction : string) :
  fails (PuppeteerComputerUse.execute E options instruction)
  /\ spends 1 (PuppeteerComputerUse.execute E options instruction).
Proof.
  destruct (page_loop_down instruction) as [Hfails Hspends].
  unfold PuppeteerComputerUse.execute. split.
  - apply fails_bind_r. intros _. apply fails_try_finally. apply fails_try_catch.
    + apply fails_bind_r. intros _. apply fails_bind_r. intros _.
      apply fails_bind_r. intros _. apply fails_bind_l. exact Hfails.
    + intros e. apply fails_bind_r. intros _. apply fails_throw.
  - apply spends_after; [apply keeps_addLog; calls_quiet | intros _].
    apply spends_finally; [|apply quiet_page_cleanup; calls_quiet].
    apply spends_caught.
    + apply spends_after; [apply quiet_initializeBrowser; calls_quiet | intros _].
      apply spends_after; [apply quiet_page_navigate; calls_quiet | intros _].
      apply spends_after.
      { destruct (takeScreenshots options); [|apply keeps_ret].
        apply keeps_bind; [|intros ?; apply keeps_ret].
        apply keeps_page_capture; calls_quiet. }
      intros _. apply spends_cut; [exact Hspends | exact Hfails].
    + intros e. keeps_auto. apply keeps_addLog; calls_quiet.
Qed.

Lemma runTest_down (testId instruction : string) (mode : ExecutionMode) :
  fails (Handler.runTest E testId instruction options mode)
  /\ spends 1 (Handler.runTest E testId instruction options mode).
Proof.
  unfold Handler.runTest. destruct mode.
  - destruct (docker_execute_down instruction) as [Hfails Hspends]. split.
    + apply fails_try_finally. apply fails_bind_r. intros _.
      apply fails_try_catch; [now apply fails_bind_l | intros e; apply fails_errorState].
    + apply spends_finally.
      * apply spends_after.
        -- apply keeps_try_catch; [apply quiet_initialize; calls_quiet | intros e].
           apply quiet_errorState; calls_quiet.
        -- intros _. apply spends_caught.
           ++ apply spends_before; [exact Hspends | intros r; apply keeps_ret].
           ++ intros e. apply quiet_errorState; calls_quiet.
      * apply keeps_try_catch;
          [apply quiet_docker_cleanup; calls_quiet | intros e; apply keeps_ret].
  - destruct (page_execute_down instruction) as [Hfails Hspends]. split.
    + apply fails_try_finally.
      apply fails_try_catch; [now apply fails_bind_l | intros e; apply fails_errorState].
    + apply spends_finally; [|apply keeps_ret].
      apply spends_caught.
      * apply spends_before; [exact Hspends | intros r; apply keeps_ret].
      * intros e. apply quiet_errorState; calls_quiet.
Qed.

End Outage.

(** X20. While the remote agent is out of reach, a request never gets a
    report of success, and it costs at most one attempted exchange: the
    first rejection ends the loop, on either backend and whatever else
    the environment does. *)
Theorem agent_outage_costs_one_call (E : Env) (httpMethod : string)
    (parsed : Outcome RequestBody) (w : World) :
  agent_down E ->
  (exists resp,
      fst (Handler.handler E httpMethod parsed w) = Ok resp
      /\ forall result, body resp <> result_body result)
  /\ agent_calls (snd (Handler.handler E httpMethod parsed w)) <= agent_calls w + 1.
Proof.
  intros Hdown.
  destruct (handler_cases E httpMethod parsed w)
    as [(resp & -> & Hquiet & _)
       | [(instr & key & o & opts & -> & -> & Ho & Hkey & Hne & Hinstr & Hactive & ->)
         | (instr & key & -> & -> & Hkey & Hne & Hinstr & Hactive)]].
  3: { rewrite (handler_null_options E instr key w Hkey Hne Hinstr Hactive).
       cbn [fst snd]. split.
       - eexists. split; [reflexivity | discriminate].
       - change (agent_calls (set_activeTests ?a (set_activeTests ?b w)))
           with (agent_calls w). lia. }
  - split; [|cbn [snd]; lia]. exists resp. split; [reflexivity|].
    intros result Hbody. rewrite Hbody in Hquiet. discriminate.
  - rewrite (handler_accepts E instr key opts w Hkey Hne Hinstr Hactive).
    cbn [fst snd].
    match goal with
    | |- context [Handler.race E ?d ?run ?w1] =>
        destruct (race_effects E d run w1) as [Hw _];
        pose proof (race_report E d run w1) as Hreport
    end.
    match goal with
    | |- context [Handler.runTest E ?id ?i ?o ?m] =>
        destruct (runTest_down E Hdown o id i m) as [Hfails Hspends]
    end.
    split.
    + destruct (fst (Handler.race E _ _ _)) as [result|e].
      * specialize (Hreport result eq_refl).
        match type of Hreport with
        | fst (?run ?w1) = _ => specialize (Hfails w1); rewrite Hreport in Hfails
        end.
        discriminate.
      * eexists. split; [reflexivity | discriminate].
    + change (agent_calls (set_activeTests ?a ?x)) with (agent_calls x).
      rewrite Hw.
      match goal with
      | |- agent_calls (snd (?run ?w1)) <= _ => specialize (Hspends w1)
      end.
      rewrite agent_calls_timer in Hspends. exact Hspends.
Qed.

Lemma agent_outage_costs_one_call_witness :
  agent_calls (snd (Handler.handler (scripted exec_ok answer_ok agent_unreachable) "POST"
                      (post "take a screenshot of the homepage" capture_disabled) initial))
  <= 1.
Proof.
  refine (proj2 (agent_outage_costs_one_call (scripted exec_ok answer_ok agent_unreachable)
                   "POST" (post "take a screenshot of the homepage" capture_disabled)
                   initial _)).
  intros tr req. reflexivity.
Defined.

(** ** The requests put to the agent *)

Lemma requests_sent_emit (c : Call) (ok : bool) (w : World) :
  requests_sent (emit c ok w)
  = requests_sent w ++ match c with MessagesCreate req => [req] | _ => [] end.
Proof.
  unfold requests_sent, emit. cbn [trace set_trace].
  rewrite omap_app. f_equal. destruct c; reflexivity.
Qed.

Lemma requests_sent_backend (c : Call) (ok : bool) (w : World) :
  backend_call c = true -> requests_sent (emit c ok w) = requests_sent w.
Proof.
  intros Hc. rewrite requests_sent_emit.
  destruct c; try discriminate Hc; apply app_nil_r.
Qed.

Lemma requests_sent_act (c : Call) (ok : bool) (w : World) :
  actuation c = true -> requests_sent (emit c ok w) = requests_sent w.
Proof. intros Hc. apply requests_sent_backend. now apply backend_call_act. Qed.

Lemma requests_sent_log (l : string) (w : World) :
  requests_sent (set_log l w) = requests_sent w.
Proof. reflexivity. Qed.

Ltac sent_quiet :=
  first [ exact requests_sent_log | exact requests_sent_backend | exact requests_sent_act
        | intros; reflexivity
        | intros; apply keeps_docker_capture;
          first [exact requests_sent_log | exact requests_sent_act | intros; reflexivity]
        | intros; apply keeps_page_capture;
          first [exact requests_sent_log | exact requests_sent_act | intros; reflexivity] ].

Section Sends.
Context (P : Request -> Prop).

Lemma sends_keeps {A} (m : M A) : keeps requests_sent m -> sends P m.
Proof. intros Hm w. exists []. rewrite Hm, app_nil_r. auto. Qed.

Lemma sends_bind {A B} (m : M A) (k : A -> M B) :
  sends P m -> (forall x, sends P (k x)) -> sends P (bind m k).
Proof.
  intros Hm Hk w. unfold bind. destruct (Hm w) as (new & Hw & Hnew).
  destruct (m w) as [[x|e] w1]; cbn [snd] in *.
  - destruct (Hk x w1) as (new' & Hw' & Hnew').
    exists (new ++ new'). rewrite Hw', Hw, app_assoc. split; [reflexivity|].
    apply Forall_app. auto.
  - exists new. auto.
Qed.

Lemma sends_try_catch {A} (m : M A) (h : string -> M A) :
  sends P m -> (forall e, sends P (h e)) -> sends P (try_catch m h).
Proof.
  intros Hm Hh w. unfold try_catch. destruct (Hm w) as (new & Hw & Hnew).
  destruct (m w) as [[x|e] w1]; cbn [snd] in *.
  - exists new. auto.
  - destruct (Hh e w1) as (new' & Hw' & Hnew').
    exists (new ++ new'). rewrite Hw', Hw, app_assoc. split; [reflexivity|].
    apply Forall_app. auto.
Qed.

Lemma sends_try_finally {A} (m : M A) (f : M unit) :
  sends P m -> sends P f -> sends P (try_finally m f).
Proof.
  intros Hm Hf w. rewrite snd_try_finally. destruct (Hm w) as (new & Hw & Hnew).
  destruct (Hf (snd (m w))) as (new' & Hw' & Hnew').
  exists (new ++ new'). rewrite Hw', Hw, app_assoc. split; [reflexivity|].
  apply Forall_app. auto.
Qed.

End Sends.

Lemma role_eqb_eq (a b : Role) : role_eqb a b = true <-> a = b.
Proof. destruct a, b; cbn; split; congruence. Qed.

(** A turn of the other party may follow an alternating conversation. *)
Lemma alternates_snoc (turns : list Message) :
  forall (next : Role) (final turn : Message),
    alternates next turns = true ->
    last turns = Some final ->
    role turn = other (role final) ->
    alternates next (turns ++ [turn]) = true.
Proof.
  induction turns as [|first rest IH]; intros next final turn Halt Hlast Hrole;
    [discriminate Hlast|].
  cbn [alternates] in Halt. apply andb_true_iff in Halt as [Hfirst Hrest].
  destruct rest as [|second rest].
  - injection Hlast as <-. apply role_eqb_eq in Hfirst.
    cbn. rewrite Hrole, Hfirst. destruct next; reflexivity.
  - change ((first :: second :: rest) ++ [turn])
      with (first :: ((second :: rest) ++ [turn])).
    cbn [alternates]. rewrite Hfirst. cbn [andb].
    apply (IH (other next) final turn Hrest); [exact Hlast | exact Hrole].
Qed.

Lemma well_turned_two_more (B : Backend) (instruction : string)
    (turns : list Message) (a b : Content) :
  well_turned B instruction turns ->
  well_turned B instruction (turns ++ [mkMessage assistant a; mkMessage user b]).
Proof.
  intros (Hhead & Halt & Hlast).
  destruct (last turns) as [final|] eqn:Hfinal; [|discriminate Hlast].
  injection Hlast as Hlast.
  change (turns ++ [mkMessage assistant a; mkMessage user b])
    with (turns ++ [mkMessage assistant a] ++ [mkMessage user b]).
  rewrite app_assoc. repeat split.
  - destruct turns as [|turn rest]; [discriminate Hhead | exact Hhead].
  - apply (alternates_snoc _ user (mkMessage assistant a)).
    + apply (alternates_snoc _ user final); [exact Halt | exact Hfinal|].
      cbn. now rewrite Hlast.
    + apply last_snoc.
    + reflexivity.
  - now rewrite last_snoc.
Qed.

Section Conversation.
Context (E : Env) (B : Backend) (instruction : string).
Hypothesis shot_sent : keeps requests_sent takeScreenshotForClaude.
Hypothesis tool_sent : forall name input,
    keeps requests_sent (executeComputerUseTool name input).

(** One round puts at most one request, a well-formed one, and hands a
    well-turned conversation on to the next round. *)
Lemma round_sends (iteration : nat) (msgs : list Message) (w w' : World)
    (r : Outcome Round) :
  well_turned B instruction msgs ->
  round E B iteration msgs w = (r, w') ->
  (exists new,
      requests_sent w' = requests_sent w ++ new
      /\ Forall (well_formed_request B instruction) new)
  /\ (forall msgs', r = Ok (Continue msgs') -> well_turned B instruction msgs').
Proof.
  intros Hturned. unfold round. cbv zeta. unfold bind at 1.
  pose proof (shot_sent w) as Hshot.
  destruct (takeScreenshotForClaude w) as [[shot|e] w1]; cbn [snd] in Hshot.
  2: { intros [= <- <-]. split; [exists []; rewrite Hshot, app_nil_r; auto | discriminate]. }
  unfold bind at 1, create.
  set (req := mkRequest _ _ _ _).
  assert (Hreq : well_formed_request B instruction req).
  { split; [reflexivity|]. split; [reflexivity|]. split; [reflexivity|].
    apply well_turned_two_more. exact Hturned. }
  destruct (messages_create E (trace w1) req) as [response|e]; cbn [is_ok].
  2: { intros [= <- <-]. split; [|discriminate].
       exists [req]. rewrite requests_sent_emit, Hshot. auto. }
  set (w2 := emit (MessagesCreate req) true w1).
  assert (Hw2 : requests_sent w2 = requests_sent w ++ [req])
    by (unfold w2; now rewrite requests_sent_emit, Hshot).
  unfold bind at 1.
  assert (Hlog : keeps requests_sent
                   (match find_text response with
                    | Some textContent => addLog E ("Claude: " +:+ textContent)
                    | None => ret tt
                    end)).
  { destruct (find_text response); [apply keeps_addLog; exact requests_sent_log | apply keeps_ret]. }
  specialize (Hlog w2).
  destruct (match find_text response with
            | Some textContent => addLog E ("Claude: " +:+ textContent)
            | None => ret tt
            end w2) as [[[]|e] w3]; cbn [snd] in Hlog.
  2: { intros [= <- <-]. split; [|discriminate]. exists [req]. rewrite Hlog, Hw2. auto. }
  destruct (find_tool_use response) as [[[id name] input]|].
  - unfold bind, sleep, modify, ret.
    pose proof (tool_sent name input w3) as Htool.
    destruct (executeComputerUseTool name input w3) as [[toolResult|e] w4];
      cbn [snd] in Htool; intros [= <- <-].
    + split.
      * exists [req]. rewrite requests_sent_act by reflexivity.
        rewrite Htool, Hlog, Hw2. auto.
      * intros msgs' [= <-]. apply well_turned_two_more. exact Hturned.
    + split; [|discriminate]. exists [req]. rewrite Htool, Hlog, Hw2. auto.
  - unfold bind, ret, addLog, modify. intros [= <- <-].
    split; [|discriminate]. exists [req]. rewrite requests_sent_log, Hlog, Hw2. auto.
Qed.

Lemma while_loop_sends (remaining : nat) :
  forall iteration msgs w,
    well_turned B instruction msgs ->
    exists new,
      requests_sent (snd (while_loop E B remaining iteration msgs w))
      = requests_sent w ++ new
      /\ Forall (well_formed_request B instruction) new.
Proof.
  induction remaining as [|remaining IH]; intros iteration msgs w Hturned;
    cbn [while_loop].
  - exists []. cbn. rewrite app_nil_r. auto.
  - cbv zeta. unfold bind at 1.
    set (w0 := snd (addLog E ("Claude iteration " +:+ pretty (S iteration)) w)).
    change (addLog E ("Claude iteration " +:+ pretty (S iteration)) w) with (Ok tt, w0).
    cbn iota. unfold bind at 1, try_catch.
    destruct (round E B (S iteration) msgs w0) as [r w1] eqn:Hround.
    destruct (round_sends (S iteration) msgs w0 w1 r Hturned Hround)
      as [(new & Hw & Hnew) Hnext].
    destruct r as [[msgs'|]|e].
    + destruct (IH (S iteration) msgs' w1 (Hnext msgs' eq_refl)) as (new' & Hw' & Hnew').
      exists (new ++ new'). rewrite Hw', Hw, app_assoc. split; [reflexivity|].
      apply Forall_app. auto.
    + exists new. auto.
    + exists new. unfold bind, throw. cbn [addLog modify snd].
      auto.
Qed.

Lemma runClaude_sends :
  sends (well_formed_request B instruction) (runClaudeWithComputerUse E B instruction).
Proof.
  intros w. unfold runClaudeWithComputerUse, run_loop.
  unfold bind at 1. unfold bind at 1.
  destruct (while_loop_sends (maxIterations - 0) 0
              [mkMessage user (plain (instructionPrompt instruction))] w)
    as (new & Hw & Hnew).
  { repeat split. }
  destruct (while_loop E B _ _ _ w) as [[[iteration msgs]|e] w1]; cbn [snd] in Hw.
  - exists new. split; [|exact Hnew].
    destruct (maxIterations <=? iteration); exact Hw.
  - exists new. auto.
Qed.

End Conversation.

(** X21. Every request a run puts to the remote agent is well formed:
    it names the one model and token limit, offers the tools of the
    backend of the run, and carries a conversation that opens with the
    instruction prompt, in which user and assistant take turns, and
    that ends on a turn of the user.  This holds on both backends and
    whatever the environment answers. *)
Theorem requests_are_well_formed (E : Env) (testId instruction : string)
    (options : gmap string JsVal) (mode : ExecutionMode) (w : World) :
  exists new,
    requests_sent (snd (Handler.runTest E testId instruction options mode w))
    = requests_sent w ++ new
    /\ Forall (well_formed_request (backend_of E options mode) instruction) new.
Proof.
  revert w. change (sends (well_formed_request (backend_of E options mode) instruction)
                      (Handler.runTest E testId instruction options mode)).
  unfold Handler.runTest. destruct mode; cbn [backend_of].
  - apply sends_try_finally.
    + apply sends_bind.
      * apply sends_keeps. apply keeps_try_catch; [apply quiet_initialize; sent_quiet | intros e].
        apply quiet_errorState; sent_quiet.
      * intros _. apply sends_try_catch.
        -- apply sends_bind; [|intros r; apply sends_keeps, keeps_ret].
           unfold ComputerUse.execute.
           apply sends_bind; [apply sends_keeps, keeps_addLog; sent_quiet | intros _].
           apply sends_try_catch.
           ++ apply sends_bind.
              { apply sends_keeps.
                destruct (takeScreenshots options); [|apply keeps_ret].
                apply keeps_bind; [|intros ?; apply keeps_ret].
                apply keeps_docker_capture; sent_quiet. }
              intros _. apply sends_bind;
                [apply sends_keeps, quiet_docker_navigate; sent_quiet | intros _].
              apply sends_bind.
              { apply runClaude_sends.
                - apply keeps_docker_shot; sent_quiet.
                - intros name input. apply quiet_docker_tool; sent_quiet. }
              intros result. apply sends_keeps. keeps_auto. apply keeps_addLog; sent_quiet.
           ++ intros e. apply sends_keeps. keeps_auto. apply keeps_addLog; sent_quiet.
        -- intros e. apply sends_keeps, quiet_errorState; sent_quiet.
    + apply sends_keeps.
      apply keeps_try_catch; [apply quiet_docker_cleanup; sent_quiet | intros e; apply keeps_ret].
  - apply sends_try_finally; [|apply sends_keeps, keeps_ret].
    apply sends_try_catch.
    + apply sends_bind; [|intros r; apply sends_keeps, keeps_ret].
      unfold PuppeteerComputerUse.execute.
      apply sends_bind; [apply sends_keeps, keeps_addLog; sent_quiet | intros _].
      apply sends_try_finally; [|apply sends_keeps, quiet_page_cleanup; sent_quiet].
      apply sends_try_catch.
      * apply sends_bind;
          [apply sends_keeps, quiet_initializeBrowser; sent_quiet | intros _].
        apply sends_bind;
          [apply sends_keeps, quiet_page_navigate; sent_quiet | intros _].
        apply sends_bind.
        { apply sends_keeps.
          destruct (takeScreenshots options); [|apply keeps_ret].
          apply keeps_bind; [|intros ?; apply keeps_ret].
          apply keeps_page_capture; sent_quiet. }
        intros _. apply sends_bind.
        { apply runClaude_sends.
          - apply keeps_page_shot; sent_quiet.
          - intros name input. apply quiet_page_tool; sent_quiet. }
        intros result. apply sends_keeps. keeps_auto. apply keeps_addLog; sent_quiet.
      * intros e. apply sends_keeps. keeps_auto. apply keeps_addLog; sent_quiet.
    + intros e. apply sends_keeps, quiet_errorState; sent_quiet.
Qed.

(** ** What a successful run reports *)

Section Reports.
Context (E : Env) (B : Backend).
Hypothesis shot_calls : keeps agent_calls takeScreenshotForClaude.
Hypothesis tool_calls : forall name input,
    keeps agent_calls (executeComputerUseTool name input).

(** A round that does not reject has made exactly one exchange. *)
Lemma round_ok_calls (iteration : nat) (msgs : list Message) (w w' : World) (r : Round) :
  round E B iteration msgs w = (Ok r, w') ->
  agent_calls w' = agent_calls w + 1.
Proof.
  unfold round. cbv zeta. unfold bind at 1.
  pose proof (shot_calls w) as Hshot.
  destruct (takeScreenshotForClaude w) as [[shot|e] w1]; cbn [snd] in Hshot;
    [|discriminate].
  unfold bind at 1, create.
  set (req := mkRequest _ _ _ _).
  destruct (messages_create E (trace w1) req) as [response|e]; cbn [is_ok];
    [|discriminate].
  assert (Hw2 : agent_calls (emit (MessagesCreate req) true w1) = agent_calls w + 1)
    by (rewrite agent_calls_emit, Hshot; reflexivity).
  set (w2 := emit (MessagesCreate req) true w1) in *.
  intros Hrest.
  assert (Hkeeps : keeps agent_calls
            (match find_text response with
             | Some textContent => addLog E ("Claude: " +:+ textContent)
             | None => ret tt
             end ;;;
             match find_tool_use response with
             | Some (id, name, input) =>
                 toolResult <- executeComputerUseTool name input ;;
                 (sleep 1000 ;;;
                  ret (Continue
                         (msgs ++
                          [mkMessage assistant (blocks response);
                           mkMessage user (blocks [tool_result id toolResult])])))
             | None => addLog E "Claude indicates task completion" ;;; ret Break
             end)).
  { keeps_auto; first [apply keeps_addLog | apply keeps_sleep];
      first [exact agent_calls_log | exact agent_calls_act]. }
  specialize (Hkeeps w2). rewrite Hrest in Hkeeps. cbn [snd] in Hkeeps.
  rewrite Hkeeps. exact Hw2.
Qed.

Lemma while_loop_ok (remaining : nat) :
  forall iteration msgs w iteration' msgs' w',
    while_loop E B remaining iteration msgs w = (Ok (iteration', msgs'), w') ->
    iteration <= iteration' <= iteration + remaining
    /\ (0 < remaining -> iteration < iteration')
    /\ agent_calls w' + iteration = agent_calls w + iteration'.
Proof.
  induction remaining as [|remaining IH]; intros iteration msgs w iteration' msgs' w';
    cbn [while_loop].
  - intros [= <- <- <-]. lia.
  - cbv zeta. unfold bind at 1.
    set (w0 := snd (addLog E ("Claude iteration " +:+ pretty (S iteration)) w)).
    change (addLog E ("Claude iteration " +:+ pretty (S iteration)) w) with (Ok tt, w0).
    cbn iota. unfold bind at 1, try_catch.
    assert (Hw0 : agent_calls w0 = agent_calls w) by reflexivity.
    destruct (round E B (S iteration) msgs w0) as [[[next|]|e] w1] eqn:Hround.
    + apply round_ok_calls in Hround. intros Hloop.
      apply IH in Hloop as (Hle & _ & Hcalls). lia.
    + apply round_ok_calls in Hround. intros [= <- <- <-]. lia.
    + unfold bind, throw. cbn [addLog modify]. discriminate.
Qed.

Lemma runClaude_ok (instruction : string) (w w' : World) (result : LoopResult) :
  runClaudeWithComputerUse E B instruction w = (Ok result, w') ->
  completed result = true
  /\ 1 <= iterations result < maxIterations
  /\ agent_calls w' = agent_calls w + iterations result.
Proof.
  unfold runClaudeWithComputerUse, run_loop. unfold bind at 1. unfold bind at 1.
  destruct (while_loop E B (maxIterations - 0) 0 _ w) as [[[iteration msgs]|e] w1] eqn:Hloop;
    [|discriminate].
  apply while_loop_ok in Hloop as (_ & Hpos & Hcalls).
  destruct (Nat.leb_spec maxIterations iteration); [discriminate|].
  unfold ret. intros [= <- <-]. cbn [completed iterations fst].
  specialize (Hpos ltac:(unfold maxIterations; lia)). lia.
Qed.

End Reports.

Lemma bind_ok {A B} (m : M A) (k : A -> M B) (w w' : World) (b : B) :
  bind m k w = (Ok b, w') ->
  exists a w1, m w = (Ok a, w1) /\ k a w1 = (Ok b, w').
Proof.
  unfold bind. destruct (m w) as [[a|e] w1]; [|discriminate].
  intros Hk. exists a, w1. auto.
Qed.

Lemma rethrow_ok {A} (m : M A) (h : string -> M A) (w w' : World) (a : A) :
  (forall e, fails (h e)) -> try_catch m h w = (Ok a, w') -> m w = (Ok a, w').
Proof.
  intros Hh. unfold try_catch. destruct (m w) as [[x|e] w1]; [auto|].
  intros Hrun. specialize (Hh e w1). rewrite Hrun in Hh. discriminate.
Qed.

Lemma docker_execute_ok E (options : gmap string JsVal) (instruction : string)
    (w w' : World) (ex : Execution) :
  ComputerUse.execute E options instruction w = (Ok ex, w') ->
  completed (ex_result ex) = true
  /\ 1 <= iterations (ex_result ex) < maxIterations
  /\ agent_calls w' = agent_calls w + iterations (ex_result ex)
  /\ ex_screenshots ex = screenshots w'
  /\ ex_log ex = log w'.
Proof.
  unfold ComputerUse.execute. intros Hrun.
  apply bind_ok in Hrun as ([] & w0 & Hlog & Hrun).
  apply rethrow_ok in Hrun.
  2: { intros e. apply fails_bind_r. intros _. apply fails_throw. }
  apply bind_ok in Hrun as ([] & w1 & Hcapture & Hrun).
  apply bind_ok in Hrun as ([] & w2 & Hnavigate & Hrun).
  apply bind_ok in Hrun as (result & w3 & Hloop & Hrun).
  apply runClaude_ok in Hloop as (Hdone & Hrange & Hcalls).
  2: { apply keeps_docker_shot; calls_quiet. }
  2: { intros name input. apply quiet_docker_tool; calls_quiet. }
  assert (H0 : agent_calls w0 = agent_calls w).
  { pose proof (keeps_addLog agent_calls agent_calls_log E
                  ("Starting execution: " +:+ instruction) w) as H.
    now rewrite Hlog in H. }
  assert (H1 : agent_calls w1 = agent_calls w0).
  { assert (Hk : keeps agent_calls
                   (if takeScreenshots options
                    then ComputerUse.captureScreenshot E options "Initial state" ;;; ret tt
                    else ret tt)).
    { destruct (takeScreenshots options); [|apply keeps_ret].
      apply keeps_bind; [|intros ?; apply keeps_ret].
      apply keeps_docker_capture; calls_quiet. }
    specialize (Hk w0). now rewrite Hcapture in Hk. }
  assert (H2 : agent_calls w2 = agent_calls w1).
  { pose proof (quiet_docker_navigate agent_calls agent_calls_log agent_calls_backend
                  E options ltac:(calls_quiet) w1) as H.
    now rewrite Hnavigate in H. }
  revert Hrun. unfold bind, addLog, modify, get, ret. intros [= <- <-].
  cbn [ex_result ex_screenshots ex_log screenshots log set_log].
  repeat split; try assumption; try lia.
  change (agent_calls (set_log ?l ?x)) with (agent_calls x). lia.
Qed.

Lemma page_execute_ok E (options : gmap string JsVal) (instruction : string)
    (w w' : World) (ex : Execution) :
  PuppeteerComputerUse.execute E options instruction w = (Ok ex, w') ->
  completed (ex_result ex) = true
  /\ 1 <= iterations (ex_result ex) < maxIterations
  /\ agent_calls w' = agent_calls w + iterations (ex_result ex)
  /\ ex_screenshots ex = screenshots w'.
Proof.
  unfold PuppeteerComputerUse.execute. intros Hrun.
  apply bind_ok in Hrun as ([] & w0 & Hlog & Hrun).
  unfold try_finally in Hrun.
  destruct (try_catch _ _ w0) as [r w4] eqn:Hbody.
  pose proof (quiet_page_cleanup agent_calls agent_calls_log
                ltac:(calls_quiet) ltac:(calls_quiet) agent_calls_backend E w4) as Hclean.
  pose proof (quiet_page_cleanup screenshots ltac:(calls_quiet)
                ltac:(calls_quiet) ltac:(calls_quiet) ltac:(calls_quiet) E w4) as Hshots.
  destruct (PuppeteerComputerUse.cleanup E w4) as [[[]|e] w5]; [|discriminate].
  cbn [snd] in Hclean, Hshots. injection Hrun as -> <-.
  apply rethrow_ok in Hbody.
  2: { intros e. apply fails_bind_r. intros _. apply fails_throw. }
  apply bind_ok in Hbody as ([] & w1 & Hinit & Hbody).
  apply bind_ok in Hbody as ([] & w2 & Hnavigate & Hbody).
  apply bind_ok in Hbody as ([] & w3 & Hcapture & Hbody).
  apply bind_ok in Hbody as (result & w3' & Hloop & Hbody).
  apply runClaude_ok in Hloop as (Hdone & Hrange & Hcalls).
  2: { apply keeps_page_shot; calls_quiet. }
  2: { intros name input. apply quiet_page_tool; calls_quiet. }
  assert (H0 : agent_calls w0 = agent_calls w).
  { pose proof (keeps_addLog agent_calls agent_calls_log E
                  ("Starting execution with Puppeteer: " +:+ instruction) w) as H.
    now rewrite Hlog in H. }
  assert (H1 : agent_calls w1 = agent_calls w0).
  { pose proof (quiet_initializeBrowser agent_calls agent_calls_log
                  ltac:(calls_quiet) ltac:(calls_quiet) agent_calls_backend E w0) as H.
    now rewrite Hinit in H. }
  assert (H2 : agent_calls w2 = agent_calls w1).
  { pose proof (quiet_page_navigate agent_calls agent_calls_log agent_calls_backend
                  E options ltac:(calls_quiet) w1) as H.
    now rewrite Hnavigate in H. }
  assert (H3 : agent_calls w3 = agent_calls w2).
  { assert (Hk : keeps agent_calls
                   (if takeScreenshots options
                    then PuppeteerComputerUse.captureScreenshot E options "Initial state" ;;; ret tt
                    else ret tt)).
    { destruct (takeScreenshots options); [|apply keeps_ret].
      apply keeps_bind; [|intros ?; apply keeps_ret].
      apply keeps_page_capture; calls_quiet. }
    specialize (Hk w2). now rewrite Hcapture in Hk. }
  revert Hbody. unfold bind, addLog, modify, get, ret. intros [= <- <-].
  cbn [ex_result ex_screenshots ex_log screenshots log set_log] in *.
  repeat split; try assumption; try lia.
  - rewrite Hclean. change (agent_calls (set_log ?l ?x)) with (agent_calls x). lia.
  - rewrite Hshots. reflexivity.
Qed.

(** X22. What a run that succeeds reports is what happened.  On either
    backend and in every environment, when [execute] resolves, the
    [completed] flag is set, the reported number of iterations lies
    between 1 and [maxIterations - 1] and is exactly the number of
    exchanges the run had with the remote agent, and the screenshots
    handed over are the trail as it stands after the run. *)
Theorem successful_run_counts_its_exchanges (E : Env) (options : gmap string JsVal)
    (instruction : string) (mode : ExecutionMode) (w : World) (ex : Execution) :
  fst (match mode with
       | docker => ComputerUse.execute E options instruction w
       | puppeteer => PuppeteerComputerUse.execute E options instruction w
       end) = Ok ex ->
  let w' := snd (match mode with
                 | docker => ComputerUse.execute E options instruction w
                 | puppeteer => PuppeteerComputerUse.execute E options instruction w
                 end) in
  completed (ex_result ex) = true
  /\ 1 <= iterations (ex_result ex) < maxIterations
  /\ agent_calls w' = agent_calls w + iterations (ex_result ex)
  /\ ex_screenshots ex = screenshots w'.
Proof.
  destruct mode; cbv zeta.
  - destruct (ComputerUse.execute E options instruction w) as [r w'] eqn:Hrun.
    cbn [fst snd]. intros ->.
    destruct (docker_execute_ok E options instruction w w' ex Hrun) as (H1 & H2 & H3 & H4 & _).
    auto.
  - destruct (PuppeteerComputerUse.execute E options instruction w) as [r w'] eqn:Hrun.
    cbn [fst snd]. intros ->.
    exact (page_execute_ok E options instruction w w' ex Hrun).
Qed.

Lemma successful_run_counts_its_exchanges_witness :
  agent_calls (snd (PuppeteerComputerUse.execute (scripted exec_ok answer_ok (agent_until 3))
                      capture_disabled "take a screenshot of the homepage" initial))
  = 3.
Proof.
  eassert (Hrun : fst (PuppeteerComputerUse.execute
                         (scripted exec_ok answer_ok (agent_until 3))
                         capture_disabled "take a screenshot of the homepage" initial)
                  = Ok _).
  { vm_compute. reflexivity. }
  destruct (successful_run_counts_its_exchanges
              (scripted exec_ok answer_ok (agent_until 3)) capture_disabled
              "take a screenshot of the homepage" puppeteer initial _ Hrun)
    as (_ & _ & Hcalls & _).
  rewrite Hcalls. reflexivity.
Defined.
